(** * Hoboken Departures: the feed normalizers of [app.py]

    A shallow embedding of the two normalizers of [src/app.py]
    ([parse_path_realtime], [parse_njt_mybus]), of the helpers they call and
    of the three-panel driver at the end of the script, followed by the
    properties the specification states about them.

    Conventions of the embedding.
    - A Python [str] is a [string]; text that is scanned is unpacked into a
      [list ascii].  A character is a code point in U+0000..U+00FF.
    - A Python exception is a value of [exn]; a call that may raise returns a
      [result].  Only instances of [Exception] are modelled.
    - A decoded JSON document is a [json] tree; an object keeps its bindings
      in a list, looked up from the front.
    - The network, the clock, [datetime.fromisoformat], [repr] and
      BeautifulSoup's text extraction are library or environment behaviour:
      they are variables of [Section Dashboard]. *)

From Stdlib Require Import List String Ascii ZArith Bool Lia Arith.
From Stdlib Require Import SpecFloat Sorted Permutation.
Import ListNotations.

Open Scope string_scope.
Open Scope Z_scope.
Open Scope list_scope.

Set Implicit Arguments.
Set Warnings "-register-all".

(** ** Characters and text *)

Definition text := list ascii.

Definition chars (s : string) : text := list_ascii_of_string s.
Definition pack (t : text) : string := string_of_list_ascii t.

Definition code (c : ascii) : nat := nat_of_ascii c.

(** [\d] of a [str] pattern: a decimal digit.  Below U+0100 these are 0..9. *)
Definition is_digit (c : ascii) : bool :=
  (48 <=? code c)%nat && (code c <=? 57)%nat.

(** [\s] of a [str] pattern, and what [str.strip()] removes: the characters
    for which [str.isspace] holds.  Below U+0100 these are TAB..CR, FS..US,
    SPACE, NEL (U+0085) and NBSP (U+00A0). *)
Definition is_space (c : ascii) : bool :=
  let n := code c in
  ((9 <=? n) && (n <=? 13) || (28 <=? n) && (n <=? 32)
   || (n =? 133) || (n =? 160))%nat.

(** [.] without [re.DOTALL]: anything but a newline. *)
Definition is_dot (c : ascii) : bool := negb (code c =? 10)%nat.

Definition is_upper (c : ascii) : bool :=
  (65 <=? code c)%nat && (code c <=? 90)%nat.
Definition is_lower (c : ascii) : bool :=
  (97 <=? code c)%nat && (code c <=? 122)%nat.

Definition lower_char (c : ascii) : ascii :=
  if is_upper c then ascii_of_nat (code c + 32) else c.
Definition upper_char (c : ascii) : ascii :=
  if is_lower c then ascii_of_nat (code c - 32) else c.

(** Comparison of a pattern literal with an input character under
    [re.IGNORECASE].  The literals of both patterns are ASCII, and none of
    their case variants lies in U+0080..U+00FF. *)
Definition eq_nocase (a b : ascii) : bool :=
  Ascii.eqb (lower_char a) (lower_char b).

(** [str.upper()].  The script applies it to the ETA token only, whose
    characters are "<", white space, digits and the letters of DUE. *)
Definition upper (t : text) : text := map upper_char t.

Fixpoint lstrip (t : text) : text :=
  match t with
  | c :: t' => if is_space c then lstrip t' else t
  | [] => []
  end.

Definition rstrip (t : text) : text := rev (lstrip (rev t)).

(** [str.strip()] *)
Definition strip (t : text) : text := rstrip (lstrip t).

Definition digit_value (c : ascii) : Z := Z.of_nat (code c - 48).

(** The value of a run of decimal digits, most significant first. *)
Definition decimal (t : text) : Z :=
  fold_left (fun acc c => 10 * acc + digit_value c) t 0.

(** The digits of an [int()] literal in base ten: digits, with single
    underscores allowed between two digits. *)
Fixpoint int_body (after_digit : bool) (acc : Z) (t : text) : option Z :=
  match t with
  | [] => if after_digit then Some acc else None
  | c :: t' =>
      if is_digit c then int_body true (10 * acc + digit_value c) t'
      else if Ascii.eqb c "_" && after_digit then int_body false acc t'
      else None
  end.

(** [int(s)] for a [str]: [None] stands for [ValueError].  Python integers
    are unbounded.  The resource limits of the interpreter are outside the
    model: memory, and the cap on the number of digits that
    [sys.set_int_max_str_digits] sets (4300 by default from Python 3.11
    on), beyond which [int] raises [ValueError] whatever the digits. *)
Definition py_int (t : text) : option Z :=
  match strip t with
  | c :: r =>
      if Ascii.eqb c "+" then int_body false 0 r
      else if Ascii.eqb c "-" then option_map Z.opp (int_body false 0 r)
      else int_body false 0 (c :: r)
  | [] => None
  end.

(** [s.replace(old, new)] for a one-character [old]. *)
Fixpoint replace_char (old : ascii) (new : text) (t : text) : text :=
  match t with
  | [] => []
  | c :: t' =>
      (if Ascii.eqb c old then new else [c]) ++ replace_char old new t'
  end.

Definition starts_with (c : ascii) (t : text) : bool :=
  match t with
  | x :: _ => Ascii.eqb x c
  | [] => false
  end.

Fixpoint text_eqb (a b : text) : bool :=
  match a, b with
  | [], [] => true
  | x :: a', y :: b' => Ascii.eqb x y && text_eqb a' b'
  | _, _ => false
  end.

(** ** Exceptions *)

Inductive exn : Type :=
| AttributeError (what : string)
| TypeError (what : string)
| ValueError (what : string)
| KeyError (what : string)
| HTTPError (status : Z)
| RequestException (what : string).

Inductive result (A : Type) : Type :=
| Ok (a : A)
| Raise (e : exn).

Arguments Ok {A} a.
Arguments Raise {A} e.

Definition bind {A B : Type} (r : result A) (f : A -> result B) : result B :=
  match r with
  | Ok a => f a
  | Raise e => Raise e
  end.

Declare Scope result_scope.
Delimit Scope result_scope with result.
Notation "x <- e ;; k" := (bind e (fun x => k))
  (at level 61, e at next level, right associativity) : result_scope.
Notation "' p <- e ;; k" := (bind e (fun x => let 'p := x in k))
  (at level 61, p pattern, e at next level, right associativity)
  : result_scope.
Open Scope result_scope.

(** A [for] loop whose body may raise: the state is threaded through the
    iterations, and the first exception ends the loop. *)
Fixpoint for_each {A S : Type} (body : S -> A -> result S) (st : S)
    (l : list A) : result S :=
  match l with
  | [] => Ok st
  | a :: l' => st' <- body st a ;; for_each body st' l'
  end.

(** ** Decoded JSON *)

Inductive json : Type :=
| JNull
| JBool (b : bool)
| JInt (n : Z)
| JFloat (f : spec_float)
| JStr (s : string)
| JList (l : list json)
| JDict (d : list (string * json)).

Fixpoint lookup (k : string) (d : list (string * json)) : option json :=
  match d with
  | [] => None
  | (k', v) :: d' => if String.eqb k k' then Some v else lookup k d'
  end.

(** [obj.get(key, default)].  Of the decoded JSON types only [dict] has a
    [get] method. *)
Definition py_get (obj : json) (k : string) (default : json) : result json :=
  match obj with
  | JDict d =>
      match lookup k d with
      | Some v => Ok v
      | None => Ok default
      end
  | _ => Raise (AttributeError "get")
  end.

(** What [for x in v] iterates over: the items of a list, the keys of a
    dict, the characters of a string; the other types are not iterable. *)
Definition py_iter (v : json) : result (list json) :=
  match v with
  | JList l => Ok l
  | JDict d => Ok (map (fun kv => JStr (fst kv)) d)
  | JStr s => Ok (map (fun c => JStr (String c EmptyString)) (chars s))
  | _ => Raise (TypeError "not iterable")
  end.

(** Truth value of a decoded JSON value. *)
Definition truthy (v : json) : bool :=
  match v with
  | JNull => false
  | JBool b => b
  | JInt n => negb (n =? 0)
  | JFloat (S754_zero _) => false
  | JFloat _ => true
  | JStr s => negb (String.eqb s "")
  | JList [] => false
  | JList _ => true
  | JDict [] => false
  | JDict _ => true
  end.

(** [a or b], with [b] evaluated only when [a] is falsy. *)
Definition py_or (a : json) (b : result json) : result json :=
  if truthy a then Ok a else b.

(** [v != "HOB"] *)
Definition differs_from_str (v : json) (s : string) : bool :=
  match v with
  | JStr s' => negb (String.eqb s' s)
  | _ => true
  end.

(** ** Regular expressions

    The fragment of [re] the two patterns of the script are written in.
    Repetition is over one-character atoms only, which is all the patterns
    use.  Matching is by backtracking with the priorities of [re]: the
    alternatives of [|] left to right, a greedy repetition longest first, a
    lazy one shortest first, an optional group tried before it is skipped. *)

Inductive atom : Type :=
| Digit                 (* \d *)
| Space                 (* \s *)
| Dot.                  (* .  *)

Definition in_atom (a : atom) (c : ascii) : bool :=
  match a with
  | Digit => is_digit c
  | Space => is_space c
  | Dot => is_dot c
  end.

Inductive regex : Type :=
| Lit (c : ascii)                            (* a literal, under re.I *)
| Cat (r1 r2 : regex)                        (* r1r2 *)
| Alt (r1 r2 : regex)                        (* r1|r2 *)
| Rep (greedy : bool) (least : nat) (a : atom)
                                             (* a*, a+ (greedy), a+? (lazy) *)
| Opt (r : regex)                            (* (?:r)? *)
| Group (name : string) (r : regex).         (* (?P<name>r) or (r) *)

Definition captures := list (string * text).

Fixpoint group (name : string) (caps : captures) : option text :=
  match caps with
  | [] => None
  | (n, t) :: caps' => if String.eqb name n then Some t else group name caps'
  end.

Definition or_else {R : Type} (a b : option R) : option R :=
  match a with
  | Some r => Some r
  | None => b
  end.

Section Matcher.
Variable R : Type.

(** A continuation receives the input that is left and the number of
    characters consumed since the match began. *)
Definition kont := text -> nat -> option R.

Fixpoint rep_greedy (p : ascii -> bool) (least : nat) (s : text) (n : nat)
    (k : kont) : option R :=
  let stop := if (least =? 0)%nat then k s n else None in
  match s with
  | c :: s' =>
      if p c then or_else (rep_greedy p (pred least) s' (S n) k) stop
      else stop
  | [] => stop
  end.

Fixpoint rep_lazy (p : ascii -> bool) (least : nat) (s : text) (n : nat)
    (k : kont) : option R :=
  let more :=
    match s with
    | c :: s' => if p c then rep_lazy p (pred least) s' (S n) k else None
    | [] => None
    end in
  if (least =? 0)%nat then or_else (k s n) more else more.

Fixpoint run (r : regex) (s : text) (n : nat) (caps : captures)
    (k : text -> nat -> captures -> option R) : option R :=
  match r with
  | Lit c =>
      match s with
      | x :: s' => if eq_nocase c x then k s' (S n) caps else None
      | [] => None
      end
  | Cat r1 r2 =>
      run r1 s n caps (fun s1 n1 caps1 => run r2 s1 n1 caps1 k)
  | Alt r1 r2 => or_else (run r1 s n caps k) (run r2 s n caps k)
  | Rep greedy least a =>
      (if greedy then rep_greedy else rep_lazy)
        (in_atom a) least s n (fun s' n' => k s' n' caps)
  | Opt r1 => or_else (run r1 s n caps k) (k s n caps)
  | Group name r1 =>
      run r1 s n caps
        (fun s' n' caps' => k s' n' ((name, firstn (n' - n) s) :: caps'))
  end.
End Matcher.

(** A match anchored at the head of [s]: its groups and its length. *)
Definition match_at (r : regex) (s : text) : option (captures * nat) :=
  run r s 0%nat [] (fun _ n caps => Some (caps, n)).

(** [re.search]: the match at the leftmost position that has one. *)
Fixpoint search (r : regex) (s : text) : option captures :=
  match match_at r s with
  | Some (caps, _) => Some caps
  | None =>
      match s with
      | _ :: s' => search r s'
      | [] => None
      end
  end.

(** A match object: [m.start()], [m.end()] and the groups. *)
Record found : Type := Found {
  start : nat;
  stop : nat;
  groups : captures
}.

(** [pattern.finditer]: the successive non-overlapping matches, left to
    right.  [pos] is the position of the head of [s] in the text, and
    [skip] counts the characters of the last match still to be passed
    over.  Both patterns consume at least one character, so no match is
    empty and none starts at the end of the text. *)
Fixpoint finditer_from (r : regex) (pos skip : nat) (s : text) : list found :=
  match s with
  | [] => []
  | _ :: s' =>
      match skip with
      | S skip' => finditer_from r (S pos) skip' s'
      | O =>
          match match_at r s with
          | Some (caps, len) =>
              Found pos (pos + len) caps
              :: finditer_from r (S pos) (pred len) s'
          | None => finditer_from r (S pos) 0 s'
          end
      end
  end.

Definition finditer_matches (r : regex) (s : text) : list found :=
  finditer_from r 0 0 s.

(** The groups of the successive matches, which is all the script reads of
    them. *)
Definition finditer (r : regex) (s : text) : list captures :=
  map groups (finditer_matches r s).

Declare Scope regex_scope.
Delimit Scope regex_scope with regex.
Infix "@" := Cat (at level 30, right associativity) : regex_scope.
Infix "|||" := Alt (at level 50, left associativity) : regex_scope.

(** Line 110: [r"(\d+)\s*min"], compiled with [re.I].  The group is
    [m.group(1)]. *)
Definition min_pattern : regex :=
  (Group "1" (Rep true 1 Digit) @ Rep true 0 Space
   @ Lit "m" @ Lit "i" @ Lit "n")%regex.

(** Lines 144-147, compiled with [re.IGNORECASE]:
    [#(?P<route>\d+)\s+To\s+(?P<to>.+?)\s+(?P<eta>(?:<\s*1|DUE|\d+))\s*(?:MIN)?] *)
Definition eta_pattern : regex :=
  (Lit "<" @ Rep true 0 Space @ Lit "1"
   ||| Lit "D" @ Lit "U" @ Lit "E"
   ||| Rep true 1 Digit)%regex.

Definition bus_head : regex :=
  (Lit "#" @ Group "route" (Rep true 1 Digit) @ Rep true 1 Space
   @ Lit "T" @ Lit "o" @ Rep true 1 Space
   @ Group "to" (Rep false 1 Dot) @ Rep true 1 Space
   @ Group "eta" eta_pattern)%regex.

Definition bus_tail : regex :=
  (Rep true 0 Space @ Opt (Lit "M" @ Lit "I" @ Lit "N"))%regex.

Definition pattern : regex := (bus_head @ bus_tail)%regex.

(** ** What a regular expression matches

    [matches r w caps caps']: the word [w] is matched by [r], which turns
    the groups [caps] recorded so far into [caps']. *)

Inductive matches : regex -> text -> captures -> captures -> Prop :=
| M_Lit c x caps :
    eq_nocase c x = true -> matches (Lit c) [x] caps caps
| M_Cat r1 r2 w1 w2 caps caps1 caps2 :
    matches r1 w1 caps caps1 -> matches r2 w2 caps1 caps2 ->
    matches (Cat r1 r2) (w1 ++ w2) caps caps2
| M_Alt_l r1 r2 w caps caps' :
    matches r1 w caps caps' -> matches (Alt r1 r2) w caps caps'
| M_Alt_r r1 r2 w caps caps' :
    matches r2 w caps caps' -> matches (Alt r1 r2) w caps caps'
| M_Rep greedy least a w caps :
    Forall (fun c => in_atom a c = true) w -> (least <= List.length w)%nat ->
    matches (Rep greedy least a) w caps caps
| M_Opt_some r w caps caps' :
    matches r w caps caps' -> matches (Opt r) w caps caps'
| M_Opt_none r caps :
    matches (Opt r) [] caps caps
| M_Group name r w caps caps' :
    matches r w caps caps' ->
    matches (Group name r) w caps ((name, w) :: caps').

(** ** The phrase of a message, read as the specification words it

    "An integer immediately preceding the substring min (case-insensitive)":
    a run of digits taken whole, then optional white space, then the
    letters m, i, n in either case.  The first such place in the phrase
    counts. *)

Fixpoint span (p : ascii -> bool) (s : text) : text * text :=
  match s with
  | c :: s' =>
      if p c then let '(w, rest) := span p s' in (c :: w, rest) else ([], s)
  | [] => ([], [])
  end.

Definition starts_with_min (s : text) : bool :=
  match s with
  | a :: b :: c :: _ => eq_nocase "m" a && eq_nocase "i" b && eq_nocase "n" c
  | _ => false
  end.

(** The integer that begins at the head of [s], when "min" follows it. *)
Definition integer_before_min_at (s : text) : option text :=
  let '(ds, rest) := span is_digit s in
  match ds with
  | [] => None
  | _ => if starts_with_min (snd (span is_space rest)) then Some ds else None
  end.

Fixpoint integer_before_min (s : text) : option text :=
  match integer_before_min_at s with
  | Some ds => Some ds
  | None =>
      match s with
      | _ :: s' => integer_before_min s'
      | [] => None
      end
  end.

Definition spec_phrase_minutes (s : text) : option Z :=
  option_map decimal (integer_before_min s).

(** ** Instants

    A [datetime] is aware (it carries a UTC offset, and denotes an instant,
    kept here in microseconds of UTC) or naive.  Subtracting a naive
    [datetime] from an aware one, or the reverse, raises [TypeError]. *)

Inductive datetime : Type :=
| Naive (wall_us : Z)
| Aware (utc_us : Z).

(** [arrival - now], in microseconds; [now] is aware (line 84). *)
Definition minus_now (now_us : Z) (arrival : datetime) : result Z :=
  match arrival with
  | Aware t => Ok (t - now_us)
  | Naive _ => Raise (TypeError "naive and aware datetimes")
  end.

(** Line 104: [max(0, int(delta.total_seconds() // 60))].  [total_seconds]
    is a float; the floor division by 60 computed on it is the exact one
    as long as [|delta| < 2^53] microseconds (some 285 years), beyond which
    the result is either negative or far above any window the slider
    offers. *)
Definition whole_minutes (delta_us : Z) : Z := Z.max 0 (delta_us / 60000000).

(** ** Rows *)

(** Line 118: [{"line": ..., "to": ..., "minutes": ..., "raw": msg}] *)
Record path_row : Type := PathRow {
  line : string;
  to : string;
  minutes : Z;
  raw : json
}.

(** Line 164: [{"route": ..., "to": ..., "minutes": ...}] *)
Record bus_row : Type := BusRow {
  route : string;
  bus_to : string;
  bus_minutes : Z
}.

Definition key : Type := (string * string * Z)%type.

Definition key_eqb (a b : key) : bool :=
  let '(a1, a2, a3) := a in
  let '(b1, b2, b3) := b in
  String.eqb a1 b1 && String.eqb a2 b2 && (a3 =? b3).

(** [(r["line"], r["to"], r["minutes"])] *)
Definition path_key (r : path_row) : key := (line r, to r, minutes r).

(** [(r["route"], r["to"], r["minutes"])] *)
Definition bus_key (r : bus_row) : key := (route r, bus_to r, bus_minutes r).

(** A Python [dict] keyed by [key]: the bindings in insertion order.
    [dict_set] is [d[k] = v]: a key already present keeps its place and
    takes the new value, a new key goes to the end. *)
Fixpoint dict_set {V : Type} (k : key) (v : V) (d : list (key * V))
    : list (key * V) :=
  match d with
  | [] => [(k, v)]
  | (k', v') :: d' =>
      if key_eqb k k' then (k', v) :: d' else (k', v') :: dict_set k v d'
  end.

(** [d.values()] *)
Definition dict_values {V : Type} (d : list (key * V)) : list V :=
  map snd d.

(** [{key(r): r for r in rows}], and the loop of lines 167-169. *)
Definition uniq_by {V : Type} (key_of : V -> key) (rows : list V)
    : list (key * V) :=
  fold_left (fun d r => dict_set (key_of r) r d) rows [].

(** [sorted(..., key=...)] and [list.sort(key=...)]: Python's sort is
    stable, which fixes its result; it is written here as a stable
    insertion sort. *)
Fixpoint insert_by {V : Type} (f : V -> Z) (x : V) (l : list V) : list V :=
  match l with
  | [] => [x]
  | y :: l' => if f x <=? f y then x :: l else y :: insert_by f x l'
  end.

Fixpoint sort_by {V : Type} (f : V -> Z) (l : list V) : list V :=
  match l with
  | [] => []
  | x :: l' => insert_by f x (sort_by f l')
  end.

(** ** The HTTP layer, as far as the script relies on it *)

Record response : Type := Response {
  status_code : Z;
  body : string
}.

(** [r.raise_for_status()] *)
Definition raise_for_status (r : response) : result unit :=
  if (400 <=? status_code r) && (status_code r <? 600)
  then Raise (HTTPError (status_code r))
  else Ok tt.

Definition headers := list (string * string).

Fixpoint header_set (k v : string) (h : headers) : headers :=
  match h with
  | [] => [(k, v)]
  | (k', v') :: h' =>
      if String.eqb k k' then (k', v) :: h' else (k', v') :: header_set k v h'
  end.

Definition PATH_URL : string :=
  "https://www.panynj.gov/bin/portauthority/ridepath.json".

Definition MYBUS_11TH_WASH : string :=
  ("https://mybusnow.njtransit.com/bustime/wireless/html/eta.jsp" ++
   "?direction=New+York&id=20513&route=126&showAllBusses=on")%string.

Definition MYBUS_10TH_WASH : string :=
  ("https://mybusnow.njtransit.com/bustime/wireless/html/eta.jsp" ++
   "?direction=Hoboken%2FJersey+City&id=20516&route=126&showAllBusses=on")%string.

(** Line 33: the value the slider starts at. *)
Definition DEFAULT_MAX_WINDOW_MIN : Z := 120.

Definition BROWSER_HEADERS : headers :=
  [ ("User-Agent",
     ("Mozilla/5.0 (Macintosh; Intel Mac OS X 10_15_7) " ++
      "AppleWebKit/537.36 (KHTML, like Gecko) " ++
      "Chrome/120.0.0.0 Safari/537.36")%string);
    ("Accept",
     "text/html,application/xhtml+xml,application/xml;q=0.9,*/*;q=0.8");
    ("Accept-Language", "en-US,en;q=0.9");
    ("Connection", "keep-alive");
    ("Upgrade-Insecure-Requests", "1") ].

Definition MYBUS_HOME : string :=
  "https://mybusnow.njtransit.com/bustime/wireless/html/home.jsp".

(** ** The page: what the script writes, and where *)

Inductive column : Type := col1 | col2 | col3.

Inductive kind : Type := KindPath | KindBus.

(** What the script puts on the page: [st.subheader], [st.info], the
    [st.write] of one row (lines 184-192) and [st.error]. *)
Inductive widget : Type :=
| Subheader (title : string)
| Notice (message : string)
| Entry (label dest time_str : string) (mins : Z) (k : kind)
| Error (prefix : string) (e : exn).

Definition event : Type := (column * widget)%type.

(** A computation that writes and may raise: what it has written when it
    stops, and how it stops.  Inside a column the writes are widgets; on
    the page they are widgets placed in a column. *)
Definition out (W A : Type) : Type := (list W * result A)%type.

Definition out_bind {W A B : Type} (m : out W A) (f : A -> out W B)
    : out W B :=
  match m with
  | (w, Ok a) => let '(w', r) := f a in (w ++ w', r)
  | (w, Raise e) => (w, Raise e)
  end.

Definition emit {W : Type} (w : W) : out W unit := ([w], Ok tt).

Definition lift {W A : Type} (r : result A) : out W A := ([], r).

Declare Scope out_scope.
Delimit Scope out_scope with out.
Notation "x <~ e ;; k" := (out_bind e (fun x => k))
  (at level 61, e at next level, right associativity) : out_scope.
Notation "e ;;; k" := (out_bind e (fun _ => k))
  (at level 61, right associativity) : out_scope.

(** [with col: ...] *)
Definition within {A : Type} (c : column) (m : out widget A) : out event A :=
  (map (pair c) (fst m), snd m).

(** [try: body  except Exception as e: handler(e)] *)
Definition try_except {W A : Type} (body : out W A) (handler : exn -> out W A)
    : out W A :=
  match body with
  | (w, Ok a) => (w, Ok a)
  | (w, Raise e) => let '(w', r) := handler e in (w ++ w', r)
  end.

Fixpoint out_for_each {W A : Type} (body : A -> out W unit) (l : list A)
    : out W unit :=
  match l with
  | [] => ([], Ok tt)
  | a :: l' => (body a ;;; out_for_each body l')%out
  end.

(** The rows [render_list] is given: those of one normalizer or the other. *)
Inductive row : Type :=
| OfPath (r : path_row)
| OfBus (r : bus_row).

(** ** The clock text of a row (lines 35-42)

    [format_time_from_minutes] adds the minutes to the local wall clock and
    formats the result with [strftime("%I:%M %p")], from which
    [lstrip("0")] removes the leading zeros.  Only the hour and the minute
    of the clock matter; they are arguments here, as are the two texts the
    locale has for [%p].  The date stays within what [datetime] can hold
    for the minutes a row can have. *)

(** [s.lstrip(c)] for a one-character [c]. *)
Fixpoint lstrip_char (c : ascii) (t : text) : text :=
  match t with
  | x :: t' => if Ascii.eqb x c then lstrip_char c t' else t
  | [] => []
  end.

Definition digit_char (d : Z) : ascii := ascii_of_nat (48 + Z.to_nat d).

(** A number below 100 on two digits, as [%I] and [%M] write it. *)
Definition two_digits (n : Z) : text :=
  [digit_char (n / 10); digit_char (n mod 10)].

(** The hour of [%I]: 12, 1, ..., 11, twice a day. *)
Definition hour12 (h : Z) : Z := if h mod 12 =? 0 then 12 else h mod 12.

Definition format_time_from_minutes_at (am pm : string)
    (now_hour now_minute : Z) (minutes : Z) : string :=
  let minute_of_day := (now_hour * 60 + now_minute + minutes) mod 1440 in
  let h := minute_of_day / 60 in
  let m := minute_of_day mod 60 in
  pack (lstrip_char "0"
          (two_digits (hour12 h) ++ ":"%char :: two_digits m
           ++ " "%char :: chars (if h <? 12 then am else pm))).

(** Whether a decoded value is a JSON object. *)
Definition is_object (v : json) : bool :=
  match v with
  | JDict _ => true
  | _ => false
  end.

(** ** Sample surroundings

    Instances of what the script takes from its libraries and from the
    network, used to run the normalizers on sample inputs. *)

Fixpoint digits_n (n : nat) (acc : Z) (t : text) : result (Z * text) :=
  match n with
  | O => Ok (acc, t)
  | S n' =>
      match t with
      | c :: t' =>
          if is_digit c then digits_n n' (10 * acc + digit_value c) t'
          else Raise (ValueError "Invalid isoformat string")
      | [] => Raise (ValueError "Invalid isoformat string")
      end
  end.

Definition expect (c : ascii) (t : text) : result text :=
  match t with
  | x :: t' =>
      if Ascii.eqb x c then Ok t'
      else Raise (ValueError "Invalid isoformat string")
  | [] => Raise (ValueError "Invalid isoformat string")
  end.

Definition require (b : bool) : result unit :=
  if b then Ok tt else Raise (ValueError "Invalid isoformat string").

Definition is_leap (y : Z) : bool :=
  ((y mod 4 =? 0) && negb (y mod 100 =? 0)) || (y mod 400 =? 0).

Definition days_in_month (y m : Z) : Z :=
  if m =? 2 then (if is_leap y then 29 else 28)
  else if (m =? 4) || (m =? 6) || (m =? 9) || (m =? 11) then 30
  else 31.

(** Days from 1970-01-01 to the given date of the proleptic Gregorian
    calendar. *)
Definition days_from_civil (y m d : Z) : Z :=
  let y' := if m <=? 2 then y - 1 else y in
  let era := y' / 400 in
  let yoe := y' - era * 400 in
  let doy := (153 * ((m + 9) mod 12) + 2) / 5 + d - 1 in
  let doe := yoe * 365 + yoe / 4 - yoe / 100 + doy in
  era * 146097 + doe - 719468.

(** [datetime.fromisoformat] on the format YYYY-MM-DDTHH:MM:SS, with or
    without a UTC offset +HH:MM or -HH:MM whose HH is below 24 and whose MM
    is below 60.  Every other string is rejected here; [fromisoformat]
    reads some of them, depending on the version of Python. *)
Definition iso_seconds_format (s : string) : result datetime :=
  '(y, t) <- digits_n 4 0 (chars s) ;;
  t <- expect "-" t ;;
  '(m, t) <- digits_n 2 0 t ;;
  t <- expect "-" t ;;
  '(d, t) <- digits_n 2 0 t ;;
  t <- expect "T" t ;;
  '(h, t) <- digits_n 2 0 t ;;
  t <- expect ":" t ;;
  '(mi, t) <- digits_n 2 0 t ;;
  t <- expect ":" t ;;
  '(sec, t) <- digits_n 2 0 t ;;
  _ <- require ((1 <=? y) && (1 <=? m) && (m <=? 12) && (1 <=? d)
              && (d <=? days_in_month y m)
              && (h <? 24) && (mi <? 60) && (sec <? 60)) ;;
  let wall :=
    (((days_from_civil y m d * 24 + h) * 60 + mi) * 60 + sec) * 1000000 in
  match t with
  | [] => Ok (Naive wall)
  | sign :: t =>
      _ <- require (Ascii.eqb sign "+" || Ascii.eqb sign "-") ;;
      '(oh, t) <- digits_n 2 0 t ;;
      t <- expect ":" t ;;
      '(om, t) <- digits_n 2 0 t ;;
      _ <- require ((oh <? 24) && (om <? 60)
                  && match t with [] => true | _ => false end) ;;
      let offset := (oh * 60 + om) * 60 * 1000000 in
      Ok (Aware (if Ascii.eqb sign "+" then wall - offset else wall + offset))
  end.

(** 2024-03-01T12:00:00 UTC, in microseconds. *)
Definition sample_now : Z := 1709294400000000.

(** [repr] of the values the samples hold outside strings. *)
Definition sample_repr (v : json) : string :=
  match v with
  | JNull => "None"
  | JBool true => "True"
  | JBool false => "False"
  | _ => "?"
  end.

(** A network that answers every request with status 200. *)
Definition sample_requests_get (url : string) : result response :=
  Ok (Response 200 "(feed)").

Definition sample_session_get (url : string) (h : headers) : result response :=
  Ok (Response 200 "(page)").

(** A network that is down. *)
Definition down_requests_get (url : string) : result response :=
  Raise (RequestException "connection refused").

Definition down_session_get (url : string) (h : headers) : result response :=
  Raise (RequestException "connection refused").

Definition sample_clock (m : Z) : string := "12:00 PM".

Definition message (fields : list (string * json)) : json := JDict fields.

(** A feed with one station, HOB, and one destination. *)
Definition document (label : string) (messages : list json) : json :=
  JDict [("results", JList [
    JDict [("consideredStation", JStr "HOB");
           ("destinations", JList [
              JDict [("label", JStr label);
                     ("messages", JList messages)]])]])].

(** The document of the round-trip property: one station HOB, one
    destination labelled 33rd Street, one message with only an
    [arrivalTime]. *)
Definition one_message (arrival_time : string) : json :=
  message [("arrivalTime", JStr arrival_time)].

Definition one_message_document (arrival_time : string) : json :=
  document "33rd Street" [one_message arrival_time].

(** Five messages: two that collide on (line, to, minutes), one with a
    timestamp, one beyond a window of 30 minutes, one without any ETA. *)
Definition msg_12_min : json :=
  message [("lineName", JStr "33rd"); ("arrivalTimeMessage", JStr "12 min")].
Definition msg_timestamp : json :=
  message [("arrivalTime", JStr "2024-03-01T12:05:30Z")].
Definition msg_12_min_again : json :=
  message [("lineName", JStr "33rd"); ("arrivalTimeMessage", JStr "12 MIN");
           ("headSign", JStr "")].
Definition msg_45_min : json :=
  message [("arrivalTime", JStr "soon");
           ("arrivalTimeMessage", JStr "45 min")].
Definition msg_no_eta : json :=
  message [("headSign", JStr "Journal Square")].

Definition sample_messages : list json :=
  [msg_12_min; msg_timestamp; msg_12_min_again; msg_45_min; msg_no_eta].

Definition sample_document : json := document "33rd Street" sample_messages.

(** A decoder and a text extraction that yield the given document and
    text. *)
Definition decoded_as (doc : json) (body : string) : result json := Ok doc.
Definition extracted_as (page_text : string) (html : string) : string :=
  page_text.

(** The phrases of the specification's examples, and the rows it expects
    of them. *)
Definition phrase_13_min : string := "#126 To 126 NEW YORK 13 MIN".
Definition phrase_due : string := "#22 To 22 HOBOKEN DUE".
Definition phrase_less_than_1 : string := "#126 To 126 HOBOKEN-PATH < 1 MIN".

Definition row_13_min : bus_row := BusRow "126" "126 NEW YORK" 13.
Definition row_due : bus_row := BusRow "22" "22 HOBOKEN" 0.
Definition row_less_than_1 : bus_row := BusRow "126" "126 HOBOKEN-PATH" 0.

(** The head of a page: the name of the stop and two complete entries. *)
Definition page_before_phrase : string :=
  "Stop 20513
#126 To 126 NEW YORK 45 MIN
#22 To 22 HOBOKEN 3 MIN
".

(** A text in which the first phrase follows an unfinished entry. *)
Definition page_with_unfinished_entry : string :=
  ("#1 To " ++ phrase_13_min)%string.

Definition sample_page : string :=
  "Stop 20513
#126 To 126 NEW YORK 13 MIN
#22 To 22 HOBOKEN DUE
#126 To 126 NEW YORK 45 MIN
#126 To 126 HOBOKEN-PATH < 1 MIN
#22 To 22 HOBOKEN due".

(** What the loops compute for [sample_document], what they collect under
    a window of 30 minutes, and what the normalizer returns. *)
Definition sample_path_computed : list path_row :=
  [ PathRow "33rd" "33rd Street" 12 msg_12_min;
    PathRow "PATH" "33rd Street" 5 msg_timestamp;
    PathRow "33rd" "33rd Street" 12 msg_12_min_again;
    PathRow "PATH" "33rd Street" 45 msg_45_min ].

Definition sample_path_collected : list path_row :=
  [ PathRow "33rd" "33rd Street" 12 msg_12_min;
    PathRow "PATH" "33rd Street" 5 msg_timestamp;
    PathRow "33rd" "33rd Street" 12 msg_12_min_again ].

Definition sample_path_rows : list path_row :=
  [ PathRow "PATH" "33rd Street" 5 msg_timestamp;
    PathRow "33rd" "33rd Street" 12 msg_12_min_again ].

(** The same for [sample_page]. *)
Definition sample_bus_computed : list bus_row :=
  [ row_13_min; row_due; BusRow "126" "126 NEW YORK" 45; row_less_than_1;
    row_due ].

Definition sample_bus_collected : list bus_row :=
  [ row_13_min; row_due; row_less_than_1; row_due ].

Definition sample_bus_rows : list bus_row :=
  [ row_due; row_less_than_1; row_13_min ].

(** A feed in which the station of Newark comes before that of Hoboken. *)
Definition newark_station : list (string * json) :=
  [("consideredStation", JStr "NWK");
   ("destinations", JList [
      JDict [("label", JStr "World Trade Center");
             ("messages", JList [msg_12_min])]])].

Definition hoboken_station : json :=
  JDict [("consideredStation", JStr "HOB");
         ("destinations", JList [
            JDict [("label", JStr "33rd Street");
                   ("messages", JList sample_messages)]])].

Definition two_station_feed : list (string * json) :=
  [("results", JList [JDict newark_station; hoboken_station])].

(** A destination without messages, and one with a message that is a
    string. *)
Definition dest_33rd : list (string * json) := [("label", JStr "33rd Street")].

Definition dest_with_stray_message : list (string * json) :=
  [("label", JStr "33rd Street");
   ("messages", JList [msg_12_min; JStr "no service"; msg_timestamp])].

(** A train that left two minutes before [sample_now], a message whose
    phrase has no digit, and a phrase with text around the minutes. *)
Definition msg_departed : list (string * json) :=
  [("arrivalTime", JStr "2024-03-01T11:58:00Z");
   ("arrivalTimeMessage", JStr "12 min")].

Definition msg_delayed : list (string * json) :=
  [("arrivalTime", JStr "soon"); ("arrivalTimeMessage", JStr "Delayed")].


Definition page_without_entries : string :=
  "Stop 20513
No arrival times available.".

(** A site that answers the priming request with status 500 and the
    request for the page with status 200; a feed that is unavailable. *)
Definition primed_500_session_get (url : string) (h : headers)
    : result response :=
  if String.eqb url MYBUS_HOME then Ok (Response 500 "(error)")
  else Ok (Response 200 "(page)").

Definition unavailable_requests_get (url : string) : result response :=
  Ok (Response 503 "{}").

(** ** The script *)

Section Dashboard.

(** The value of the sidebar slider (lines 199-205), which line 209
    stores in the global [MAX_WINDOW_MIN]. *)
Variable MAX_WINDOW_MIN : Z.

(** [datetime.now(timezone.utc)] at line 84, in microseconds of UTC. *)
Variable now : Z.

(** [datetime.fromisoformat] *)
Variable fromisoformat : string -> result datetime.

(** [repr] of a decoded JSON value that is not a string. *)
Variable py_repr : json -> string.

(** [requests.get(url, timeout=10)] and [SESSION.get(url, timeout=10,
    headers=...)] within one run of the script. *)
Variable requests_get : string -> result response.
Variable session_get : string -> headers -> result response.

(** [r.json()] on the body of a response. *)
Variable json_of_body : string -> result json.

(** [BeautifulSoup(html, "html.parser").get_text("\n", strip=True)] *)
Variable get_text : string -> string.

(** [format_time_from_minutes] (lines 35-42), which reads the local
    clock. *)
Variable format_time_from_minutes : Z -> string.

(** [str(v)] *)
Definition py_str (v : json) : string :=
  match v with
  | JStr s => s
  | _ => py_repr v
  end.

(** Lines 44-47. *)
Definition _get_json (url : string) : result json :=
  r <- requests_get url ;;
  _ <- raise_for_status r ;;
  json_of_body (body r).

(** Lines 64-74. *)
Definition _get_html (url : string) : result string :=
  _ <- session_get MYBUS_HOME BROWSER_HEADERS ;;
  r <- session_get url (header_set "Referer" MYBUS_HOME BROWSER_HEADERS) ;;
  _ <- raise_for_status r ;;
  Ok (body r).

(** Lines 117 and 163: [0 <= minutes <= MAX_WINDOW_MIN]. *)
Definition in_window (m : Z) : bool := (0 <=? m) && (m <=? MAX_WINDOW_MIN).

(** *** The PATH normalizer (lines 77-123) *)

(** Line 101: [arrival_iso.replace("Z", "+00:00")] *)
Definition z_as_offset (s : string) : string :=
  pack (replace_char "Z" (chars "+00:00") (chars s)).

(** Lines 101-104, the body of the [try]. *)
Definition from_timestamp (arrival_iso : json) : result Z :=
  ts <- match arrival_iso with
        | JStr s => Ok (z_as_offset s)
        | _ => Raise (AttributeError "replace")
        end ;;
  arrival <- fromisoformat ts ;;
  delta <- minus_now now arrival ;;
  Ok (whole_minutes delta).

(** Lines 97-106: [None] is Python's [None]. *)
Definition timestamp_minutes (arrival_iso : json) : option Z :=
  if truthy arrival_iso then
    match from_timestamp arrival_iso with
    | Ok m => Some m
    | Raise _ => None
    end
  else None.

(** Lines 110-112. *)
Definition message_minutes (msg : json) : result (option Z) :=
  phrase <- py_get msg "arrivalTimeMessage" (JStr "") ;;
  match search min_pattern (chars (py_str phrase)) with
  | Some caps =>
      match group "1" caps with
      | Some g =>
          match py_int g with
          | Some v => Ok (Some v)
          | None => Raise (ValueError "int")
          end
      | None => Raise (TypeError "int")
      end
  | None => Ok None
  end.

(** Lines 93-115 and the row of line 118: the row computed for a
    message, [None] when the message is passed over at line 115. *)
Definition path_entry (dest msg : json) : result (option path_row) :=
  arrival_iso <- py_get msg "arrivalTime" JNull ;;
  h <- py_get msg "headSign" JNull ;;
  headsign <- py_or h (l <- py_get dest "label" JNull ;;
                       py_or l (Ok (JStr "PATH"))) ;;
  n <- py_get msg "lineName" JNull ;;
  line <- py_or n (l <- py_get msg "line" JNull ;;
                   py_or l (Ok (JStr "PATH"))) ;;
  minutes <- match timestamp_minutes arrival_iso with
             | Some m => Ok (Some m)
             | None => message_minutes msg
             end ;;
  match minutes with
  | None => Ok None
  | Some m => Ok (Some (PathRow (py_str line) (py_str headsign) m msg))
  end.

(** The body of the innermost loop, lines 92-118. *)
Definition path_message (dest : json) (rows : list path_row) (msg : json)
    : result (list path_row) :=
  e <- path_entry dest msg ;;
  match e with
  | None => Ok rows
  | Some r => if in_window (minutes r) then Ok (rows ++ [r]) else Ok rows
  end.

(** Lines 90-118. *)
Definition path_destination (rows : list path_row) (dest : json)
    : result (list path_row) :=
  messages <- py_get dest "messages" (JList []) ;;
  msgs <- py_iter messages ;;
  for_each (path_message dest) rows msgs.

(** Lines 86-118. *)
Definition path_station (rows : list path_row) (station : json)
    : result (list path_row) :=
  considered <- py_get station "consideredStation" JNull ;;
  if differs_from_str considered "HOB" then Ok rows
  else
    destinations <- py_get station "destinations" (JList []) ;;
    dests <- py_iter destinations ;;
    for_each path_destination rows dests.

(** Lines 82-118: the list [rows] when the loops are over. *)
Definition path_rows (data : json) : result (list path_row) :=
  results <- py_get data "results" (JList []) ;;
  stations <- py_iter results ;;
  for_each path_station [] stations.

(** Lines 120-123. *)
Definition path_finish (rows : list path_row) : list path_row :=
  sort_by minutes (dict_values (uniq_by path_key rows)).

(** The normalizer applied to the decoded document. *)
Definition path_normalize (data : json) : result (list path_row) :=
  rows <- path_rows data ;;
  Ok (path_finish rows).

Definition parse_path_realtime : result (list path_row) :=
  data <- _get_json PATH_URL ;;
  path_normalize data.

(** *** The bus normalizer (lines 125-172) *)

(** [m.group(name).strip()] *)
Definition group_strip (name : string) (m : captures) : result text :=
  match group name m with
  | Some t => Ok (strip t)
  | None => Raise (AttributeError "strip")
  end.

(** Lines 155-161: [None] is the [continue] of line 161. *)
Definition eta_minutes (eta_raw : text) : option Z :=
  if text_eqb eta_raw (chars "DUE") || starts_with "<" eta_raw then Some 0
  else py_int eta_raw.

(** Lines 151-161 and the row of line 164: the row computed for a match,
    [None] when the match is passed over at line 161. *)
Definition bus_entry (m : captures) : result (option bus_row) :=
  route <- group_strip "route" m ;;
  to <- group_strip "to" m ;;
  eta <- group_strip "eta" m ;;
  let eta_raw := upper eta in
  match eta_minutes eta_raw with
  | None => Ok None
  | Some minutes => Ok (Some (BusRow (pack route) (pack to) minutes))
  end.

(** The body of the loop, lines 151-164. *)
Definition bus_match (out : list bus_row) (m : captures)
    : result (list bus_row) :=
  e <- bus_entry m ;;
  match e with
  | None => Ok out
  | Some r => if in_window (bus_minutes r) then Ok (out ++ [r]) else Ok out
  end.

(** Lines 149-164: the list [out] when the loop is over. *)
Definition bus_rows (page_text : string) : result (list bus_row) :=
  for_each bus_match [] (finditer pattern (chars page_text)).

(** Lines 166-172. *)
Definition bus_finish (out : list bus_row) : list bus_row :=
  sort_by bus_minutes (dict_values (uniq_by bus_key out)).

(** The normalizer applied to the text of the page. *)
Definition bus_normalize (page_text : string) : result (list bus_row) :=
  out <- bus_rows page_text ;;
  Ok (bus_finish out).

Definition parse_njt_mybus (url : string) : result (list bus_row) :=
  html <- _get_html url ;;
  bus_normalize (get_text html).

(** *** Presentation (lines 175-192) *)

Definition render_row (k : kind) (r : row) : out widget unit :=
  match k, r with
  | KindPath, OfPath r =>
      emit (Entry (line r) (to r) (format_time_from_minutes (minutes r))
              (minutes r) KindPath)
  | KindBus, OfBus r =>
      emit (Entry (route r) (bus_to r)
              (format_time_from_minutes (bus_minutes r)) (bus_minutes r)
              KindBus)
  | KindPath, OfBus _ => lift (Raise (KeyError "line"))
  | KindBus, OfPath _ => lift (Raise (KeyError "route"))
  end.

Definition render_list (title : string) (rows : list row) (k : kind)
    : out widget unit :=
  (emit (Subheader title) ;;;
   match rows with
   | [] => emit (Notice
       "No upcoming departures found (or source temporarily unavailable).")
   | _ => out_for_each (render_row k) rows
   end)%out.

(** *** The three panels (lines 216-243)

    The titles are written with a plain hyphen where the script has a
    dash. *)

Definition PATH_TITLE : string := "PATH - Hoboken".
Definition BUS11_TITLE : string :=
  "Bus - Washington St + 11th St (Stop 20513)".
Definition BUS10_TITLE : string :=
  "Bus - Washington St + 10th St (Stop 20516)".

(** Lines 218-225. *)
Definition path_panel : out event unit :=
  try_except
    (within col1
       (path_rows <~ lift parse_path_realtime ;;
        render_list PATH_TITLE (map OfPath path_rows) KindPath)%out)
    (fun e =>
       within col1
         (emit (Subheader PATH_TITLE) ;;;
          emit (Error "PATH fetch failed: " e))%out).

(** Lines 227-234 and 236-243. *)
Definition bus_panel (c : column) (url title : string) : out event unit :=
  try_except
    (within c
       (bus <~ lift (parse_njt_mybus url) ;;
        render_list title (map OfBus bus) KindBus)%out)
    (fun e =>
       within c
         (emit (Subheader title) ;;;
          emit (Error "MyBus fetch failed: " e))%out).

(** Lines 218-243. *)
Definition panels : out event unit :=
  (path_panel ;;;
   bus_panel col2 MYBUS_11TH_WASH BUS11_TITLE ;;;
   bus_panel col3 MYBUS_10TH_WASH BUS10_TITLE)%out.


(** *** Intermediate lists the properties refer to *)

(** The list [rows] of [parse_path_realtime] at line 119, before the
    duplicates are removed. *)
Definition path_collected : result (list path_row) :=
  data <- _get_json PATH_URL ;;
  path_rows data.

(** The list [out] of [parse_njt_mybus] at line 165. *)
Definition bus_collected (url : string) : result (list bus_row) :=
  html <- _get_html url ;;
  bus_rows (get_text html).

(** The rows the loops of lines 86-118 compute, in order, before the test
    of line 117 decides which of them are appended. *)
Definition path_message_all (dest : json) (rows : list path_row)
    (msg : json) : result (list path_row) :=
  e <- path_entry dest msg ;;
  match e with
  | None => Ok rows
  | Some r => Ok (rows ++ [r])
  end.

Definition path_destination_all (rows : list path_row) (dest : json)
    : result (list path_row) :=
  messages <- py_get dest "messages" (JList []) ;;
  msgs <- py_iter messages ;;
  for_each (path_message_all dest) rows msgs.

Definition path_station_all (rows : list path_row) (station : json)
    : result (list path_row) :=
  considered <- py_get station "consideredStation" JNull ;;
  if differs_from_str considered "HOB" then Ok rows
  else
    destinations <- py_get station "destinations" (JList []) ;;
    dests <- py_iter destinations ;;
    for_each path_destination_all rows dests.

Definition path_computed (data : json) : result (list path_row) :=
  results <- py_get data "results" (JList []) ;;
  stations <- py_iter results ;;
  for_each path_station_all [] stations.

(** The rows the loop of lines 150-164 computes, before the test of line
    163. *)
Definition bus_match_all (out : list bus_row) (m : captures)
    : result (list bus_row) :=
  e <- bus_entry m ;;
  match e with
  | None => Ok out
  | Some r => Ok (out ++ [r])
  end.

Definition bus_computed (page_text : string) : result (list bus_row) :=
  for_each bus_match_all [] (finditer pattern (chars page_text)).



(** Lines 199-205: what the slider can return. *)
Definition slider_value (w : Z) : Prop :=
  30 <= w <= 240 /\ (w - 30) mod 15 = 0.

(** In [page_text], which begins with [pre], every match of the bus
    pattern that begins inside [pre] also ends inside it. *)
Definition clear_before (pre page_text : string) : Prop :=
  forall m,
    In m (finditer_matches pattern (chars page_text)) ->
    (start m < List.length (chars pre))%nat ->
    (stop m <= List.length (chars pre))%nat.


(** *** The fields of a message, for a message and a destination that
    are JSON objects *)

(** [obj.get(k, default)] on the bindings of an object. *)
Definition field (k : string) (default : json) (obj : list (string * json))
    : json :=
  match lookup k obj with
  | Some v => v
  | None => default
  end.

(** Line 94 *)
Definition resolve_headsign (dest msg : list (string * json)) : json :=
  if truthy (field "headSign" JNull msg) then field "headSign" JNull msg
  else if truthy (field "label" JNull dest) then field "label" JNull dest
  else JStr "PATH".

(** Line 95 *)
Definition resolve_line (msg : list (string * json)) : json :=
  if truthy (field "lineName" JNull msg) then field "lineName" JNull msg
  else if truthy (field "line" JNull msg) then field "line" JNull msg
  else JStr "PATH".


(** *** Notions the properties are stated with *)

(** Every binding of a dictionary is filed under the key of its value,
    and no key is bound twice. *)
Definition well_keyed (V : Type) (key_of : V -> key) (d : list (key * V))
    : Prop :=
  NoDup (map fst d) /\ forall k v, In (k, v) d -> key_of v = k.

(** [r] is the last row of [l] that has its key. *)
Definition last_of_its_key (V : Type) (key_of : V -> key) (l : list V)
    (r : V) : Prop :=
  exists l1 l2, l = l1 ++ r :: l2 /\
                forall r', In r' l2 -> key_of r' <> key_of r.

(** What lines 120-123 and 166-172 establish: the keys of [output] are
    pairwise different, each of its rows is the last of [input] with its
    key, and each key of [input] is there. *)
Definition deduplicated (V : Type) (key_of : V -> key)
    (input output : list V) : Prop :=
  NoDup (map key_of output) /\
  (forall r, In r output -> last_of_its_key key_of input r) /\
  (forall r, In r input -> exists r', In r' output /\ key_of r' = key_of r).

Definition ascending (V : Type) (f : V -> Z) (a b : V) : Prop := f a <= f b.

(** Two computations end in related states, or raise the same
    exception. *)
Definition related (S1 S2 : Type) (R : S1 -> S2 -> Prop)
    (r1 : result S1) (r2 : result S2) : Prop :=
  match r1, r2 with
  | Ok s1, Ok s2 => R s1 s2
  | Raise e1, Raise e2 => e1 = e2
  | _, _ => False
  end.

(** [kept] is what the window test keeps of [all]. *)
Definition kept_of (A : Type) (f : A -> Z) (all kept : list A) : Prop :=
  kept = filter (fun r => in_window (f r)) all.

(** The three shapes of an ETA token. *)
Inductive eta_shape : text -> Prop :=
| Eta_less ws :
    Forall (fun c => is_space c = true) ws ->
    eta_shape ("<"%char :: ws ++ ["1"%char])
| Eta_due d u e :
    eq_nocase "D" d = true -> eq_nocase "U" u = true ->
    eq_nocase "E" e = true -> eta_shape [d; u; e]
| Eta_digits ds :
    ds <> [] -> Forall (fun c => is_digit c = true) ds -> eta_shape ds.


(** The keys of a list, each once, in the order of first appearance. *)
Definition first_seen (ks : list key) : list key :=
  fold_left
    (fun seen k => if existsb (key_eqb k) seen then seen else seen ++ [k])
    ks [].

(** What a column shows for a title and the entries of its rows: the
    subheader, then the entries, or the notice when there is none. *)
Definition listing (title : string) (entries : list widget) : list widget :=
  Subheader title ::
  match entries with
  | [] => [Notice
       "No upcoming departures found (or source temporarily unavailable)."]
  | _ => entries
  end.

(** The entry of a row, lines 184-192. *)
Definition path_line (r : path_row) : widget :=
  Entry (line r) (to r) (format_time_from_minutes (minutes r)) (minutes r)
        KindPath.

Definition bus_line (r : bus_row) : widget :=
  Entry (route r) (bus_to r) (format_time_from_minutes (bus_minutes r))
        (bus_minutes r) KindBus.

(** The minute counts of the entries among what was written, in order. *)
Definition shown_minutes (evs : list event) : list Z :=
  flat_map (fun ev : event =>
              match snd ev with
              | Entry _ _ _ m _ => [m]
              | _ => []
              end) evs.


(** * Properties *)

Unset Implicit Arguments.
Set Default Proof Using "Type".

(** Case analysis on a character, and inversion of [matches]. *)
Ltac char_cases c :=
  destruct c as [[] [] [] [] [] [] [] []]; vm_compute;
  try solve [ intros;
              repeat match goal with H : _ \/ _ |- _ => destruct H end;
              first [ congruence | left; congruence | right; congruence
                    | repeat split; intros; congruence ] ].

Ltac invert_matches :=
  repeat match goal with
    | H : matches (Cat _ _) _ _ _ |- _ => inversion H; clear H; subst
    | H : matches (Lit _) _ _ _ |- _ => inversion H; clear H; subst
    | H : matches (Group _ _) _ _ _ |- _ => inversion H; clear H; subst
    | H : matches (Rep _ _ _) _ _ _ |- _ => inversion H; clear H; subst
    | H : matches (Opt _) _ _ _ |- _ => inversion H; clear H; subst
    | H : matches (Alt _ _) _ _ _ |- _ => inversion H; clear H; subst
    end.

(** ** Keys, dictionaries and sorting *)

Lemma key_eqb_eq (a b : key) : key_eqb a b = true <-> a = b.
Proof.
  destruct a as [[a1 a2] a3], b as [[b1 b2] b3]; unfold key_eqb.
  rewrite !andb_true_iff, !String.eqb_eq, Z.eqb_eq.
  split; [intros [[-> ->] ->]; reflexivity | intros [= -> -> ->]; auto].
Qed.

Lemma key_eqb_neq (a b : key) : key_eqb a b = false <-> a <> b.
Proof.
  rewrite <- key_eqb_eq. destruct (key_eqb a b); split; congruence.
Qed.

Section Dict.
Variable V : Type.
Variable key_of : V -> key.

Lemma dict_set_keys (k : key) (v : V) (d : list (key * V)) :
  map fst (dict_set k v d) =
  if existsb (key_eqb k) (map fst d) then map fst d
  else map fst d ++ [k].
Proof.
  induction d as [|[k' v'] d IH]; simpl; [reflexivity|].
  destruct (key_eqb k k') eqn:E; simpl; [reflexivity|].
  rewrite IH. destruct (existsb _ _); reflexivity.
Qed.

Lemma existsb_key (k : key) (l : list key) :
  existsb (key_eqb k) l = true <-> In k l.
Proof.
  rewrite existsb_exists. split.
  - intros (x & Hx & E). apply key_eqb_eq in E. subst. exact Hx.
  - intros H. exists k. split; [exact H | apply key_eqb_eq; reflexivity].
Qed.

Lemma dict_set_In (k : key) (v : V) (d : list (key * V)) :
  NoDup (map fst d) ->
  forall k' v',
    In (k', v') (dict_set k v d) <->
    (k' = k /\ v' = v) \/ (k' <> k /\ In (k', v') d).
Proof.
  induction d as [|[k0 v0] d IH]; simpl; intros ND k' v'.
  - split.
    + intros [[= <- <-]|[]]. left. auto.
    + intros [[-> ->]|[_ []]]. left. reflexivity.
  - inversion ND as [|? ? Hnotin ND']; subst.
    destruct (key_eqb k k0) eqn:E; simpl.
    + apply key_eqb_eq in E. subst k0. split.
      * intros [[= <- <-]|H]; [left; auto|].
        right. split; [|right; exact H].
        intros ->. apply Hnotin.
        change k with (fst (k, v')). apply in_map. exact H.
      * intros [[-> ->]|[Hne [[= <- <-]|H]]];
          [left; reflexivity| |right; exact H].
        congruence.
    + apply key_eqb_neq in E. rewrite (IH ND'). split.
      * intros [[= <- <-]|[H|H]].
        -- right. split; [congruence | left; reflexivity].
        -- left. exact H.
        -- right. split; [apply H | right; apply H].
      * intros [H|[Hne [[= <- <-]|H]]].
        -- right. left. exact H.
        -- left. reflexivity.
        -- right. right. split; assumption.
Qed.

Lemma dict_set_well_keyed (v : V) (d : list (key * V)) :
  well_keyed key_of d -> well_keyed key_of (dict_set (key_of v) v d).
Proof.
  intros [ND HK]. split.
  - rewrite dict_set_keys.
    destruct (existsb _ _) eqn:E; [exact ND|].
    eapply Permutation_NoDup; [apply Permutation_cons_append|].
    constructor; [|exact ND].
    intros H. apply existsb_key in H. congruence.
  - intros k' v' H. apply dict_set_In in H; [|exact ND].
    destruct H as [[-> ->]|[_ H]]; [reflexivity | apply HK; exact H].
Qed.

Lemma uniq_by_snoc (rows : list V) (r : V) :
  uniq_by key_of (rows ++ [r]) =
  dict_set (key_of r) r (uniq_by key_of rows).
Proof. unfold uniq_by. rewrite fold_left_app. reflexivity. Qed.

Lemma uniq_by_well_keyed (rows : list V) :
  well_keyed key_of (uniq_by key_of rows).
Proof.
  induction rows as [|r rows IH] using rev_ind.
  - split; [constructor | intros k v []].
  - rewrite uniq_by_snoc. apply dict_set_well_keyed. exact IH.
Qed.

Lemma uniq_by_In (rows : list V) (k : key) (v : V) :
  In (k, v) (uniq_by key_of rows) ->
  k = key_of v /\ last_of_its_key key_of rows v.
Proof.
  revert k v. induction rows as [|r rows IH] using rev_ind; intros k v H.
  - destruct H.
  - rewrite uniq_by_snoc in H.
    apply dict_set_In in H; [|apply uniq_by_well_keyed].
    destruct H as [[-> ->]|[Hne H]].
    + split; [reflexivity|]. exists rows, []. split; [reflexivity|].
      intros r' [].
    + destruct (IH _ _ H) as [-> (l1 & l2 & -> & Hl2)].
      split; [reflexivity|]. exists l1, (l2 ++ [r]). split.
      * rewrite <- app_assoc. reflexivity.
      * intros r' Hr'. apply in_app_or in Hr'.
        destruct Hr' as [Hr'|[<-|[]]]; [apply Hl2; exact Hr' | congruence].
Qed.

Lemma uniq_by_complete (rows : list V) (r : V) :
  In r rows -> exists v, In (key_of r, v) (uniq_by key_of rows).
Proof.
  induction rows as [|r0 rows IH] using rev_ind; intros H; [destruct H|].
  rewrite uniq_by_snoc.
  destruct (key_eqb (key_of r) (key_of r0)) eqn:E.
  - apply key_eqb_eq in E. exists r0.
    apply dict_set_In; [apply uniq_by_well_keyed|]. left. auto.
  - apply key_eqb_neq in E. apply in_app_or in H.
    destruct H as [H|[->|[]]]; [|congruence].
    destruct (IH H) as [v Hv]. exists v.
    apply dict_set_In; [apply uniq_by_well_keyed|]. right. auto.
Qed.

Lemma uniq_by_keys (rows : list V) :
  map key_of (dict_values (uniq_by key_of rows)) =
  map fst (uniq_by key_of rows).
Proof.
  destruct (uniq_by_well_keyed rows) as [_ HK].
  unfold dict_values. rewrite map_map. apply map_ext_in.
  intros [k v] H. simpl. apply HK. exact H.
Qed.

Variable f : V -> Z.

Lemma insert_by_perm (x : V) (l : list V) :
  Permutation (x :: l) (insert_by f x l).
Proof.
  induction l as [|y l IH]; simpl; [reflexivity|].
  destruct (f x <=? f y); [reflexivity|].
  rewrite perm_swap. apply perm_skip. exact IH.
Qed.

Lemma sort_by_perm (l : list V) : Permutation l (sort_by f l).
Proof.
  induction l as [|x l IH]; simpl; [reflexivity|].
  rewrite <- insert_by_perm. apply perm_skip. exact IH.
Qed.

Lemma insert_by_sorted (x : V) (l : list V) :
  Sorted (ascending f) l -> Sorted (ascending f) (insert_by f x l).
Proof.
  induction l as [|y l IH]; simpl; intros HS.
  - repeat constructor.
  - destruct (f x <=? f y) eqn:E.
    + constructor; [exact HS|]. constructor. apply Z.leb_le. exact E.
    + apply Z.leb_gt in E. inversion HS as [|? ? HS' Hhd]; subst.
      constructor; [apply IH; exact HS'|].
      destruct l as [|z l]; simpl.
      * constructor. unfold ascending. lia.
      * destruct (f x <=? f z); constructor.
        -- unfold ascending. lia.
        -- inversion Hhd; subst. assumption.
Qed.

Lemma sort_by_sorted (l : list V) : Sorted (ascending f) (sort_by f l).
Proof.
  induction l as [|x l IH]; simpl; [constructor|].
  apply insert_by_sorted. exact IH.
Qed.

Lemma sort_by_In (l : list V) (x : V) : In x (sort_by f l) <-> In x l.
Proof.
  split; apply Permutation_in;
    [symmetry|]; apply sort_by_perm.
Qed.

Lemma finish_deduplicated (rows : list V) :
  deduplicated key_of rows
               (sort_by f (dict_values (uniq_by key_of rows))).
Proof.
  split; [|split].
  - eapply Permutation_NoDup.
    + apply Permutation_map. apply sort_by_perm.
    + rewrite uniq_by_keys. apply uniq_by_well_keyed.
  - intros r H. apply (proj1 (sort_by_In _ _)) in H.
    unfold dict_values in H.
    apply in_map_iff in H. destruct H as ([k v] & <- & H).
    apply uniq_by_In in H. apply H.
  - intros r H. destruct (uniq_by_complete _ _ H) as [v Hv].
    exists v. split.
    + apply (proj2 (sort_by_In _ _)). unfold dict_values.
      change v with (snd (key_of r, v)). apply in_map. exact Hv.
    + apply uniq_by_In in Hv. symmetry. apply Hv.
Qed.
End Dict.


(** ** Characters *)


Lemma digit_not_space (c : ascii) : is_digit c = true -> is_space c = false.
Proof. char_cases c. Qed.

Lemma digit_upper (c : ascii) : is_digit c = true -> upper_char c = c.
Proof. char_cases c. Qed.

Lemma digit_not_sign (c : ascii) :
  is_digit c = true ->
  c <> "+"%char /\ c <> "-"%char /\ c <> "<"%char /\ c <> "D"%char.
Proof. char_cases c. Qed.

Lemma digit_not_letter (x c : ascii) :
  is_digit c = true -> is_digit x = false -> eq_nocase x c = false.
Proof.
  intros Hc Hx. unfold eq_nocase.
  destruct (Ascii.eqb _ _) eqn:E; [|reflexivity].
  apply Ascii.eqb_eq in E. exfalso.
  assert (lower_char c = c) as Hl by (revert Hc; clear; char_cases c).
  rewrite Hl in E. subst c.
  revert Hc Hx. clear. char_cases x.
Qed.

Lemma space_not_m (c : ascii) :
  is_space c = true -> eq_nocase "m" c = false.
Proof. char_cases c. Qed.

Lemma nocase_hash (c : ascii) : eq_nocase "#" c = true <-> c = "#"%char.
Proof. char_cases c. Qed.

Lemma nocase_lt (c : ascii) : eq_nocase "<" c = true -> c = "<"%char.
Proof. char_cases c. Qed.

Lemma nocase_one (c : ascii) : eq_nocase "1" c = true -> c = "1"%char.
Proof. char_cases c. Qed.

Lemma nocase_letter (x c : ascii) :
  is_upper x = true -> eq_nocase x c = true ->
  upper_char c = x /\ is_space c = false.
Proof.
  unfold eq_nocase. intros Hx E. apply Ascii.eqb_eq in E.
  assert (is_upper c = true \/ is_lower c = true) as Hc.
  { revert Hx E. clear. intros Hx E.
    assert (is_lower (lower_char x) = true) as H
      by (revert Hx; clear; char_cases x).
    rewrite E in H. revert H. clear. char_cases c. }
  assert (upper_char (lower_char c) = upper_char c) as H1
    by (clear; char_cases c).
  assert (upper_char (lower_char x) = x) as H2
    by (revert Hx; clear; char_cases x).
  split.
  - rewrite <- H1, <- E. exact H2.
  - revert Hc. clear. char_cases c.
Qed.

(** ** Loops *)

Lemma for_each_app (A S : Type) (body : S -> A -> result S) (st : S)
    (l1 l2 : list A) :
  for_each body st (l1 ++ l2) =
  (st' <- for_each body st l1 ;; for_each body st' l2).
Proof.
  revert st. induction l1 as [|a l1 IH]; intros st; simpl; [reflexivity|].
  destruct (body st a); simpl; [apply IH | reflexivity].
Qed.

Lemma for_each_related (A S1 S2 : Type) (R : S1 -> S2 -> Prop)
    (body1 : S1 -> A -> result S1) (body2 : S2 -> A -> result S2)
    (l : list A) :
  (forall s1 s2 a, In a l -> R s1 s2 ->
                   related R (body1 s1 a) (body2 s2 a)) ->
  forall s1 s2, R s1 s2 ->
                related R (for_each body1 s1 l) (for_each body2 s2 l).
Proof.
  induction l as [|a l IH]; intros Hb s1 s2 HR; simpl; [exact HR|].
  pose proof (Hb s1 s2 a (or_introl eq_refl) HR) as H.
  destruct (body1 s1 a), (body2 s2 a); simpl in *; try contradiction.
  - apply IH; [|exact H]. intros; apply Hb; auto.
  - exact H.
Qed.

(** ** The matcher finds only what the expression matches *)

Lemma firstn_consumed (w s' : text) (n : nat) :
  firstn (n + List.length w - n) (w ++ s') = w.
Proof.
  replace (n + List.length w - n)%nat with (List.length w + 0)%nat by lia.
  rewrite firstn_app_2. simpl. apply app_nil_r.
Qed.

Lemma rep_greedy_sound (R : Type) (p : ascii -> bool) (s : text) :
  forall (least n : nat) (k : kont R) (res : R),
    rep_greedy p least s n k = Some res ->
    exists w s', s = w ++ s' /\ Forall (fun c => p c = true) w /\
                 (least <= List.length w)%nat /\
                 k s' (n + List.length w)%nat = Some res.
Proof.
  assert (forall (s0 : text) least n (k : kont R) res,
             (if (least =? 0)%nat then k s0 n else None) = Some res ->
             exists w s', s0 = w ++ s' /\ Forall (fun c => p c = true) w /\
                          (least <= List.length w)%nat /\
                          k s' (n + List.length w)%nat = Some res) as Hstop.
  { intros s0 least n k res H. destruct (Nat.eqb_spec least 0); [|discriminate].
    exists [], s0. simpl. rewrite Nat.add_0_r. repeat split; auto. lia. }
  induction s as [|c s IH]; intros least n k res H; simpl in H.
  - apply Hstop. exact H.
  - destruct (p c) eqn:Hc; [|apply Hstop; exact H].
    destruct (rep_greedy p (pred least) s (S n) k) eqn:E; simpl in H.
    + injection H as <-. apply IH in E.
      destruct E as (w & s' & -> & Hw & Hlen & Hk).
      exists (c :: w), s'. simpl. repeat split; auto; [lia|].
      rewrite <- Hk. f_equal. lia.
    + apply Hstop. exact H.
Qed.

Lemma rep_lazy_sound (R : Type) (p : ascii -> bool) (s : text) :
  forall (least n : nat) (k : kont R) (res : R),
    rep_lazy p least s n k = Some res ->
    exists w s', s = w ++ s' /\ Forall (fun c => p c = true) w /\
                 (least <= List.length w)%nat /\
                 k s' (n + List.length w)%nat = Some res.
Proof.
  induction s as [|c s IH]; intros least n k res H; simpl in H.
  - destruct (Nat.eqb_spec least 0); [|discriminate].
    destruct (k [] n) eqn:E; simpl in H; [|discriminate].
    exists [], []. simpl. rewrite Nat.add_0_r. repeat split; auto; [lia|].
    congruence.
  - assert ((if p c then rep_lazy p (pred least) s (S n) k else None)
            = Some res ->
            exists w s', c :: s = w ++ s' /\
                         Forall (fun c => p c = true) w /\
                         (least <= List.length w)%nat /\
                         k s' (n + List.length w)%nat = Some res) as Hmore.
    { intros Hm. destruct (p c) eqn:Hc; [|discriminate].
      apply IH in Hm. destruct Hm as (w & s' & -> & Hw & Hlen & Hk).
      exists (c :: w), s'. simpl. repeat split; auto; [lia|].
      rewrite <- Hk. f_equal. lia. }
    destruct (Nat.eqb_spec least 0); [|apply Hmore; exact H].
    destruct (k (c :: s) n) eqn:E; simpl in H; [|apply Hmore; exact H].
    exists [], (c :: s). simpl. rewrite Nat.add_0_r.
    repeat split; auto; [lia|]. congruence.
Qed.

Lemma run_sound (R : Type) (r : regex) :
  forall (s : text) (n : nat) (caps : captures)
         (k : text -> nat -> captures -> option R) (res : R),
    run r s n caps k = Some res ->
    exists w s' caps',
      s = w ++ s' /\ matches r w caps caps' /\
      k s' (n + List.length w)%nat caps' = Some res.
Proof.
  induction r as [c|r1 IH1 r2 IH2|r1 IH1 r2 IH2|g least a|r1 IH1|name r1 IH1];
    intros s n caps k res H; simpl in H.
  - destruct s as [|x s]; [discriminate|].
    destruct (eq_nocase c x) eqn:E; [|discriminate].
    exists [x], s, caps. simpl. repeat split.
    + constructor. exact E.
    + rewrite <- H. f_equal. lia.
  - apply IH1 in H. destruct H as (w1 & s1 & caps1 & -> & M1 & H).
    apply IH2 in H. destruct H as (w2 & s2 & caps2 & -> & M2 & H).
    exists (w1 ++ w2), s2, caps2. repeat split.
    + apply app_assoc.
    + econstructor; eassumption.
    + rewrite <- H. f_equal. rewrite length_app. lia.
  - destruct (run r1 s n caps k) eqn:E; simpl in H.
    + injection H as <-. apply IH1 in E.
      destruct E as (w & s' & caps' & -> & M & Hk).
      exists w, s', caps'. repeat split; auto. apply M_Alt_l. exact M.
    + apply IH2 in H. destruct H as (w & s' & caps' & -> & M & Hk).
      exists w, s', caps'. repeat split; auto. apply M_Alt_r. exact M.
  - assert (exists w s', s = w ++ s' /\
              Forall (fun c => in_atom a c = true) w /\
              (least <= List.length w)%nat /\
              k s' (n + List.length w)%nat caps = Some res) as Hr.
    { destruct g; [apply rep_greedy_sound in H | apply rep_lazy_sound in H];
        exact H. }
    destruct Hr as (w & s' & -> & Hw & Hlen & Hk).
    exists w, s', caps. repeat split; auto. constructor; assumption.
  - destruct (run r1 s n caps k) eqn:E; simpl in H.
    + injection H as <-. apply IH1 in E.
      destruct E as (w & s' & caps' & -> & M & Hk).
      exists w, s', caps'. repeat split; auto. apply M_Opt_some. exact M.
    + exists [], s, caps. simpl. rewrite Nat.add_0_r.
      repeat split; auto. apply M_Opt_none.
  - apply IH1 in H. destruct H as (w & s' & caps' & -> & M & Hk).
    rewrite firstn_consumed in Hk.
    exists w, s', ((name, w) :: caps'). repeat split; auto.
    constructor. exact M.
Qed.

Lemma match_at_sound (r : regex) (s : text) (caps : captures) (len : nat) :
  match_at r s = Some (caps, len) ->
  exists w s', s = w ++ s' /\ matches r w [] caps /\ len = List.length w.
Proof.
  unfold match_at. intros H. apply run_sound in H.
  destruct H as (w & s' & caps' & -> & M & [= -> <-]).
  exists w, s'. auto.
Qed.

Lemma finditer_from_sound (r : regex) (s : text) :
  forall (pos skip : nat) (m : found),
    In m (finditer_from r pos skip s) ->
    exists s' len, match_at r s' = Some (groups m, len).
Proof.
  induction s as [|c s IH]; intros pos skip m H; simpl in H; [destruct H|].
  destruct skip as [|skip]; [|eapply IH; exact H].
  destruct (match_at r (c :: s)) as [[caps0 len]|] eqn:E.
  - destruct H as [<-|H]; [simpl; eauto | eapply IH; exact H].
  - eapply IH; exact H.
Qed.

Lemma finditer_sound (r : regex) (s : text) (caps : captures) :
  In caps (finditer r s) ->
  exists s' len, match_at r s' = Some (caps, len).
Proof.
  unfold finditer, finditer_matches. intros H. apply in_map_iff in H.
  destruct H as (m & <- & H). eapply finditer_from_sound. exact H.
Qed.

(** ** What the groups of a bus match hold *)


Lemma eta_pattern_shape (e : text) (caps caps' : captures) :
  matches eta_pattern e caps caps' -> caps' = caps /\ eta_shape e.
Proof.
  unfold eta_pattern. intros H. invert_matches; (split; [reflexivity|]).
  - match goal with H : eq_nocase "<" _ = true |- _ =>
      apply nocase_lt in H; subst end.
    match goal with H : eq_nocase "1" _ = true |- _ =>
      apply nocase_one in H; subst end.
    simpl. apply Eta_less. assumption.
  - simpl. apply Eta_due; assumption.
  - apply Eta_digits; [|assumption].
    intros ->. simpl in *. lia.
Qed.

Lemma pattern_groups (w : text) (caps : captures) :
  matches pattern w [] caps ->
  exists r t e,
    caps = [("eta", e); ("to", t); ("route", r)] /\
    r <> [] /\ Forall (fun c => is_digit c = true) r /\
    t <> [] /\ Forall (fun c => is_dot c = true) t /\
    eta_shape e.
Proof.
  unfold pattern, bus_head, bus_tail. intros H.
  inversion H as [|? ? ? ? ? ? ? H1 H2| | | | | |]; clear H; subst.
  assert (forall w c c', matches
            (Rep true 0 Space @ Opt (Lit "M" @ Lit "I" @ Lit "N"))%regex
            w c c' -> c' = c) as Htail.
  { clear. intros w c c' H. invert_matches; reflexivity. }
  apply Htail in H2. subst. clear Htail.
  inversion H1 as [|? ? ? ? ? ? ? Ha Hb| | | | | |]; clear H1; subst.
  inversion Ha; clear Ha; subst.
  inversion Hb as [|? ? ? ? ? ? ? Hc Hd| | | | | |]; clear Hb; subst.
  inversion Hc as [| | | | | | |? ? ? ? ? Hr]; clear Hc; subst.
  inversion Hr; clear Hr; subst.
  inversion Hd as [|? ? ? ? ? ? ? He Hf| | | | | |]; clear Hd; subst.
  inversion He; clear He; subst.
  inversion Hf as [|? ? ? ? ? ? ? Hg Hh| | | | | |]; clear Hf; subst.
  inversion Hg; clear Hg; subst.
  inversion Hh as [|? ? ? ? ? ? ? Hi Hj| | | | | |]; clear Hh; subst.
  inversion Hi; clear Hi; subst.
  inversion Hj as [|? ? ? ? ? ? ? Hk Hl| | | | | |]; clear Hj; subst.
  inversion Hk; clear Hk; subst.
  inversion Hl as [|? ? ? ? ? ? ? Hm Hn| | | | | |]; clear Hl; subst.
  inversion Hm as [| | | | | | |? ? ? ? ? Ht]; clear Hm; subst.
  inversion Ht; clear Ht; subst.
  inversion Hn as [|? ? ? ? ? ? ? Ho Hp| | | | | |]; clear Hn; subst.
  inversion Ho; clear Ho; subst.
  inversion Hp as [| | | | | | |? ? ? ? ? Hq]; clear Hp; subst.
  apply eta_pattern_shape in Hq. destruct Hq as [-> Hq].
  do 3 eexists. split; [reflexivity|].
  repeat split; try assumption; intros ->; simpl in *; lia.
Qed.

Lemma finditer_groups (s : text) (m : captures) :
  In m (finditer pattern s) ->
  exists r t e,
    m = [("eta", e); ("to", t); ("route", r)] /\
    r <> [] /\ Forall (fun c => is_digit c = true) r /\
    t <> [] /\ Forall (fun c => is_dot c = true) t /\
    eta_shape e.
Proof.
  intros H. apply finditer_sound in H. destruct H as (s' & len & H).
  apply match_at_sound in H. destruct H as (w & _ & _ & M & _).
  eapply pattern_groups. exact M.
Qed.

(** ** Stripping, upper-casing and converting a token *)

Lemma lstrip_id (t : text) :
  match t with c :: _ => is_space c = false | [] => True end ->
  lstrip t = t.
Proof. destruct t as [|c t]; simpl; [reflexivity | intros ->; reflexivity]. Qed.

Lemma strip_id (t : text) :
  lstrip t = t -> lstrip (rev t) = rev t -> strip t = t.
Proof.
  intros H1 H2. unfold strip, rstrip. rewrite H1, H2. apply rev_involutive.
Qed.

Lemma strip_digits (ds : text) :
  Forall (fun c => is_digit c = true) ds -> strip ds = ds.
Proof.
  intros H. apply strip_id; apply lstrip_id.
  - destruct H; [exact I | apply digit_not_space; assumption].
  - apply Forall_rev in H.
    destruct H; [exact I | apply digit_not_space; assumption].
Qed.

Lemma upper_digits (ds : text) :
  Forall (fun c => is_digit c = true) ds -> upper ds = ds.
Proof.
  induction 1 as [|c ds Hc _ IH]; simpl; [reflexivity|].
  rewrite digit_upper by exact Hc. f_equal. exact IH.
Qed.

Lemma int_body_digits (ds : text) :
  Forall (fun c => is_digit c = true) ds ->
  forall (after_digit : bool) (acc : Z),
    ds <> [] \/ after_digit = true ->
    int_body after_digit acc ds =
    Some (fold_left (fun a c => 10 * a + digit_value c) ds acc).
Proof.
  induction 1 as [|c ds Hc _ IH]; intros b acc Hb; simpl.
  - destruct Hb as [Hb| ->]; [contradiction | reflexivity].
  - rewrite Hc. apply IH. right. reflexivity.
Qed.

Lemma py_int_digits (ds : text) :
  ds <> [] -> Forall (fun c => is_digit c = true) ds ->
  py_int ds = Some (decimal ds).
Proof.
  intros Hne H. unfold py_int. rewrite strip_digits by exact H.
  destruct ds as [|c ds]; [contradiction|].
  pose proof (Forall_inv H) as Hc. apply digit_not_sign in Hc.
  destruct Hc as (Hp & Hm & _).
  apply Ascii.eqb_neq in Hp, Hm. rewrite Hp, Hm.
  apply int_body_digits; [exact H | left; exact Hne].
Qed.

Lemma decimal_nonneg (ds : text) : 0 <= decimal ds.
Proof.
  unfold decimal.
  assert (forall acc, 0 <= acc ->
            0 <= fold_left (fun a c => 10 * a + digit_value c) ds acc) as H.
  { induction ds as [|c ds IH]; intros acc Hacc; cbn [fold_left];
      [exact Hacc|].
    apply IH. unfold digit_value. lia. }
  apply H. lia.
Qed.

(** What lines 153-161 make of an ETA token of each shape. *)
Lemma eta_shape_minutes (e : text) :
  eta_shape e ->
  let eta_raw := upper (strip e) in
  (eta_raw = chars "DUE" /\ eta_minutes eta_raw = Some 0) \/
  (starts_with "<" eta_raw = true /\ eta_minutes eta_raw = Some 0) \/
  (eta_raw = e /\ e <> [] /\ Forall (fun c => is_digit c = true) e /\
   py_int eta_raw = Some (decimal e) /\
   eta_minutes eta_raw = Some (decimal e)).
Proof.
  intros [ws Hws|d u x Hd Hu Hx|ds Hne Hds]; simpl.
  - right. left.
    assert (strip ("<"%char :: ws ++ ["1"%char]) = "<"%char :: ws ++ ["1"%char])
      as ->.
    { apply strip_id; [reflexivity|].
      simpl. rewrite rev_app_distr. reflexivity. }
    unfold eta_minutes. simpl. split; reflexivity.
  - left.
    apply nocase_letter in Hd, Hu, Hx; try reflexivity.
    destruct Hd as [Hd Hd'], Hu as [Hu Hu'], Hx as [Hx Hx'].
    assert (strip [d; u; x] = [d; u; x]) as ->.
    { apply strip_id; simpl; [rewrite Hd' | rewrite Hx']; reflexivity. }
    simpl. rewrite Hd, Hu, Hx. split; reflexivity.
  - right. right.
    rewrite strip_digits, upper_digits by assumption.
    pose proof (py_int_digits _ Hne Hds) as Hint.
    repeat split; try assumption.
    unfold eta_minutes. destruct ds as [|c ds]; [contradiction|].
    pose proof (Forall_inv Hds) as Hc. apply digit_not_sign in Hc.
    destruct Hc as (_ & _ & Hlt & HD).
    simpl. apply Ascii.eqb_neq in Hlt, HD. rewrite Hlt, HD. simpl.
    exact Hint.
Qed.

Lemma eta_minutes_nonneg (e : text) (v : Z) :
  eta_shape e -> eta_minutes (upper (strip e)) = Some v -> 0 <= v.
Proof.
  intros Hs Hv. destruct (eta_shape_minutes _ Hs) as [[_ H]|[[_ H]|H]].
  - simpl in H. rewrite H in Hv. injection Hv as <-. lia.
  - simpl in H. rewrite H in Hv. injection Hv as <-. lia.
  - destruct H as (_ & _ & _ & _ & H). simpl in H. rewrite H in Hv.
    injection Hv as <-. apply decimal_nonneg.
Qed.

(** No match is passed over at line 161, and none raises. *)
Lemma bus_entry_total (s : text) (m : captures) :
  In m (finditer pattern s) ->
  exists r, bus_entry m = Ok (Some r) /\ 0 <= bus_minutes r.
Proof.
  intros H. apply finditer_groups in H.
  destruct H as (r & t & e & -> & _ & _ & _ & _ & He).
  unfold bus_entry. simpl.
  destruct (eta_minutes (upper (strip e))) as [v|] eqn:Ev.
  - eexists. split; [reflexivity|]. simpl.
    eapply eta_minutes_nonneg; eassumption.
  - exfalso. destruct (eta_shape_minutes _ He) as [[_ H]|[[_ H]|H]];
      simpl in H; try congruence.
    destruct H as (_ & _ & _ & _ & H). congruence.
Qed.

(** ** The window test is a filter on the computed rows *)

Lemma in_window_spec (m : Z) :
  in_window m = true <-> 0 <= m <= MAX_WINDOW_MIN.
Proof. unfold in_window. rewrite andb_true_iff, !Z.leb_le. reflexivity. Qed.

Lemma kept_of_snoc (A : Type) (f : A -> Z) (all kept : list A) (r : A) :
  kept_of f all kept ->
  kept_of f (all ++ [r]) (if in_window (f r) then kept ++ [r] else kept).
Proof.
  unfold kept_of. intros ->. rewrite filter_app. simpl.
  destruct (in_window (f r)); [reflexivity | symmetry; apply app_nil_r].
Qed.

Lemma bus_match_related (all kept : list bus_row) (m : captures) :
  kept_of bus_minutes all kept ->
  related (kept_of bus_minutes) (bus_match_all all m) (bus_match kept m).
Proof.
  intros HR. unfold bus_match_all, bus_match.
  destruct (bus_entry m) as [[r|]|e]; simpl; [|exact HR|reflexivity].
  pose proof (kept_of_snoc _ _ _ _ r HR) as H.
  destruct (in_window (bus_minutes r)); exact H.
Qed.

Lemma bus_rows_related (page_text : string) :
  related (kept_of bus_minutes) (bus_computed page_text)
          (bus_rows page_text).
Proof.
  unfold bus_computed, bus_rows. apply for_each_related.
  - intros s1 s2 a _ HR. apply bus_match_related. exact HR.
  - reflexivity.
Qed.

Lemma bus_match_all_total (l : list captures) :
  (forall m, In m l -> exists r, bus_entry m = Ok (Some r)) ->
  forall acc, exists rs,
    for_each bus_match_all acc l = Ok (acc ++ rs) /\
    Forall2 (fun m r => bus_entry m = Ok (Some r)) l rs.
Proof.
  induction l as [|m l IH]; intros Hl acc; simpl.
  - exists []. rewrite app_nil_r. split; [reflexivity | constructor].
  - destruct (Hl m (or_introl eq_refl)) as [r Hr].
    unfold bus_match_all at 1. rewrite Hr. simpl.
    destruct (IH (fun m' H => Hl m' (or_intror H)) (acc ++ [r]))
      as (rs & -> & Hrs).
    exists (r :: rs). rewrite <- app_assoc. split; [reflexivity|].
    constructor; assumption.
Qed.

Lemma bus_computed_total (page_text : string) :
  exists computed,
    bus_computed page_text = Ok computed /\
    Forall2 (fun m r => bus_entry m = Ok (Some r))
            (finditer pattern (chars page_text)) computed.
Proof.
  destruct (bus_match_all_total (finditer pattern (chars page_text)))
    with (acc := @nil bus_row) as (rs & H & Hrs).
  - intros m Hm. destruct (bus_entry_total _ _ Hm) as (r & Hr & _). eauto.
  - exists rs. split; assumption.
Qed.

Lemma bus_rows_filter (page_text : string) :
  exists computed,
    bus_computed page_text = Ok computed /\
    Forall2 (fun m r => bus_entry m = Ok (Some r))
            (finditer pattern (chars page_text)) computed /\
    bus_rows page_text =
    Ok (filter (fun r => in_window (bus_minutes r)) computed).
Proof.
  destruct (bus_computed_total page_text) as (computed & Hc & Hf).
  exists computed. repeat split; try assumption.
  pose proof (bus_rows_related page_text) as H. rewrite Hc in H.
  destruct (bus_rows page_text); simpl in H; [|contradiction].
  rewrite H. reflexivity.
Qed.

Lemma Forall2_In_l (A B : Type) (P : A -> B -> Prop) (l : list A)
    (l' : list B) (a : A) :
  Forall2 P l l' -> In a l -> exists b, In b l' /\ P a b.
Proof.
  induction 1 as [|x y l l' Hxy _ IH]; intros Ha; [destruct Ha|].
  destruct Ha as [<-|Ha].
  - exists y. split; [left; reflexivity | exact Hxy].
  - destruct (IH Ha) as (b & Hb & Hp). exists b. split; [right|]; assumption.
Qed.

Lemma bus_key_inj (a b : bus_row) : bus_key a = bus_key b -> a = b.
Proof. destruct a, b. unfold bus_key. simpl. congruence. Qed.

(** A match whose row passes the window test has that row in the list
    the normalizer returns. *)
Lemma bus_normalize_has (page_text : string) (m : captures) (r : bus_row) :
  In m (finditer pattern (chars page_text)) ->
  bus_entry m = Ok (Some r) ->
  0 <= bus_minutes r <= MAX_WINDOW_MIN ->
  exists rows, bus_normalize page_text = Ok rows /\ In r rows.
Proof.
  intros Hm Hr Hw.
  destruct (bus_rows_filter page_text) as (computed & _ & Hf & Hrows).
  unfold bus_normalize. rewrite Hrows. simpl.
  eexists. split; [reflexivity|].
  destruct (Forall2_In_l _ _ _ _ _ m Hf Hm) as (r' & Hr' & E).
  assert (r' = r) as -> by congruence.
  assert (In r (filter (fun r => in_window (bus_minutes r)) computed)) as Hin.
  { apply filter_In. split; [exact Hr' | apply in_window_spec; exact Hw]. }
  destruct (finish_deduplicated _ bus_key bus_minutes
              (filter (fun r => in_window (bus_minutes r)) computed))
    as (_ & _ & Hc).
  destruct (Hc r Hin) as (r'' & Hin'' & Hk).
  apply bus_key_inj in Hk. subst. exact Hin''.
Qed.

(** ** Matching the bus pattern inside a longer text *)

Lemma chars_app (a b : string) : chars (a ++ b)%string = chars a ++ chars b.
Proof.
  unfold chars. induction a as [|c a IH]; simpl; [reflexivity|].
  rewrite IH. reflexivity.
Qed.

Lemma match_at_needs_hash (c : ascii) (s : text) :
  c <> "#"%char -> match_at pattern (c :: s) = None.
Proof.
  intros Hc. unfold match_at. simpl.
  destruct (eq_nocase "#" c) eqn:E; [|reflexivity].
  apply nocase_hash in E. contradiction.
Qed.

Lemma finditer_from_start (r : regex) (s : text) :
  forall (pos skip : nat) (m : found),
    In m (finditer_from r pos skip s) -> (pos <= start m)%nat.
Proof.
  induction s as [|c s IH]; intros pos skip m H; simpl in H; [destruct H|].
  destruct skip as [|skip].
  - destruct (match_at r (c :: s)) as [[caps len]|].
    + destruct H as [<-|H]; [simpl; lia|]. apply IH in H. lia.
    + apply IH in H. lia.
  - apply IH in H. lia.
Qed.

Lemma finditer_from_groups (r : regex) (s : text) :
  forall (pos pos' skip : nat),
    map groups (finditer_from r pos skip s) =
    map groups (finditer_from r pos' skip s).
Proof.
  induction s as [|c s IH]; intros pos pos' skip; simpl; [reflexivity|].
  destruct skip as [|skip]; [|apply IH].
  destruct (match_at r (c :: s)) as [[caps len]|]; simpl;
    [f_equal|]; apply IH.
Qed.

(** When every match that begins in [pre] ends in [pre], the scan arrives
    at what follows [pre] as it arrives at the head of a text. *)
Lemma finditer_from_arrives (r : regex) (pre s : text) :
  forall (pos skip : nat),
    (skip <= List.length pre)%nat ->
    (forall m, In m (finditer_from r pos skip (pre ++ s)) ->
               (start m < pos + List.length pre)%nat ->
               (stop m <= pos + List.length pre)%nat) ->
    exists ms,
      finditer_from r pos skip (pre ++ s) =
      ms ++ finditer_from r (pos + List.length pre) 0 s.
Proof.
  induction pre as [|c pre IH]; intros pos skip Hskip Hclear.
  - simpl in Hskip. assert (skip = 0)%nat as -> by lia.
    exists []. simpl. rewrite Nat.add_0_r. reflexivity.
  - cbn [app List.length] in *. cbn [finditer_from] in *.
    replace (pos + S (List.length pre))%nat
      with (S pos + List.length pre)%nat in * by lia.
    destruct skip as [|skip].
    + destruct (match_at r (c :: pre ++ s)) as [[caps len]|].
      * assert (pos + len <= S pos + List.length pre)%nat as Hlen.
        { apply (Hclear (Found pos (pos + len) caps));
            [left; reflexivity | simpl; lia]. }
        destruct (IH (S pos) (pred len)) as [ms Hms]; [lia| |].
        { intros m Hm. apply Hclear. right. exact Hm. }
        exists (Found pos (pos + len) caps :: ms). rewrite Hms. reflexivity.
      * destruct (IH (S pos) 0%nat) as [ms Hms]; [lia|exact Hclear|].
        exists ms. exact Hms.
    + destruct (IH (S pos) skip) as [ms Hms]; [lia|exact Hclear|].
      exists ms. exact Hms.
Qed.

Lemma finditer_skips (p s : text) :
  (forall c, In c p -> c <> "#"%char) ->
  forall pos,
    finditer_from pattern pos 0 (p ++ s) =
    finditer_from pattern (pos + List.length p) 0 s.
Proof.
  induction p as [|c p IH]; intros Hp pos.
  - simpl. rewrite Nat.add_0_r. reflexivity.
  - change ((c :: p) ++ s) with (c :: (p ++ s)).
    cbn [finditer_from List.length]. rewrite match_at_needs_hash.
    + rewrite IH.
      * f_equal. lia.
      * intros c' Hc'. apply Hp. right. exact Hc'.
    + apply Hp. left. reflexivity.
Qed.

Lemma finditer_first (s : text) (caps : captures) (len : nat) :
  s <> [] -> match_at pattern s = Some (caps, len) ->
  In caps (finditer pattern s).
Proof.
  intros Hs H. destruct s as [|c s]; [contradiction|].
  unfold finditer, finditer_matches. cbn [finditer_from]. rewrite H.
  left. reflexivity.
Qed.

Lemma rep_greedy_total (R : Type) (P : R -> Prop) (p : ascii -> bool)
    (k : kont R) :
  (forall s n, exists res, k s n = Some res /\ P res) ->
  forall s n, exists res, rep_greedy p 0 s n k = Some res /\ P res.
Proof.
  intros Hk. induction s as [|c s IH]; intros n; simpl; [apply Hk|].
  destruct (p c); [|apply Hk].
  destruct (IH (S n)) as (res & -> & Hres). exists res. auto.
Qed.

(** [\s*(?:MIN)?] matches whatever follows, and records nothing. *)
Lemma bus_tail_total (s : text) (n : nat) (caps : captures) :
  exists len,
    run bus_tail s n caps (fun _ n' caps' => Some (caps', n'))
    = Some (caps, len).
Proof.
  unfold bus_tail. cbn [run].
  destruct (rep_greedy_total (captures * nat)
              (fun res => fst res = caps) (in_atom Space)
              (fun s' n' =>
                 run (Opt (Lit "M" @ Lit "I" @ Lit "N")%regex) s' n' caps
                     (fun _ n'' caps'' => Some (caps'', n''))))
    with (s := s) (n := n) as ([caps' len] & H & Hc).
  - clear. intros s n. cbn [run].
    destruct s as [|a [|b [|c s]]]; simpl;
      repeat match goal with
        | |- context [eq_nocase ?x ?y] => destruct (eq_nocase x y); simpl
        end; eexists; (split; [reflexivity|]); reflexivity.
  - simpl in Hc. subst caps'. exists len. exact H.
Qed.

Lemma match_at_pattern (s : text) (rest : text) (n : nat)
    (caps : captures) :
  (forall (k : text -> nat -> captures -> option (captures * nat))
          (res : captures * nat),
      k rest n caps = Some res -> run bus_head s 0%nat [] k = Some res) ->
  exists len, match_at pattern s = Some (caps, len).
Proof.
  intros H. destruct (bus_tail_total rest n caps) as [len Hlen].
  exists len. unfold match_at, pattern. cbn [run].
  apply H. exact Hlen.
Qed.

Lemma head_13_min (post : text)
    (k : text -> nat -> captures -> option (captures * nat))
    (res : captures * nat) :
  k (chars " MIN" ++ post) 23%nat
    [("eta", chars "13"); ("to", chars "126 NEW YORK");
     ("route", chars "126")] = Some res ->
  run bus_head (chars phrase_13_min ++ post) 0%nat [] k = Some res.
Proof.
  intros H. vm_compute in H. vm_compute. rewrite H. reflexivity.
Qed.

Lemma head_due (post : text)
    (k : text -> nat -> captures -> option (captures * nat))
    (res : captures * nat) :
  k post 21%nat
    [("eta", chars "DUE"); ("to", chars "22 HOBOKEN");
     ("route", chars "22")] = Some res ->
  run bus_head (chars phrase_due ++ post) 0%nat [] k = Some res.
Proof.
  intros H. vm_compute in H. vm_compute. rewrite H. reflexivity.
Qed.

Lemma head_less_than_1 (post : text)
    (k : text -> nat -> captures -> option (captures * nat))
    (res : captures * nat) :
  k (chars " MIN" ++ post) 28%nat
    [("eta", chars "< 1"); ("to", chars "126 HOBOKEN-PATH");
     ("route", chars "126")] = Some res ->
  run bus_head (chars phrase_less_than_1 ++ post) 0%nat [] k = Some res.
Proof.
  intros H. vm_compute in H. vm_compute. rewrite H. reflexivity.
Qed.

Lemma hash_free_clear_before (pre page_text : string) :
  (forall c, In c (chars pre) -> c <> "#"%char) ->
  (exists rest, page_text = (pre ++ rest)%string) ->
  clear_before pre page_text.
Proof.
  intros Hpre [rest ->] m Hm Hstart. exfalso.
  unfold finditer_matches in Hm. rewrite chars_app in Hm.
  rewrite finditer_skips in Hm by exact Hpre.
  apply finditer_from_start in Hm. simpl in Hm. lia.
Qed.

Lemma finditer_has_phrase (pre phrase post : string) (caps : captures)
    (n : nat) (rest : text) :
  clear_before pre (pre ++ phrase ++ post) ->
  chars phrase <> [] ->
  (forall (k : text -> nat -> captures -> option (captures * nat))
          (res : captures * nat),
      k rest n caps = Some res ->
      run bus_head (chars phrase ++ chars post) 0%nat [] k = Some res) ->
  In caps (finditer pattern (chars (pre ++ phrase ++ post)%string)).
Proof.
  intros Hclear Hne Hhead. unfold clear_before in Hclear.
  unfold finditer, finditer_matches in *. rewrite chars_app in *.
  destruct (finditer_from_arrives pattern (chars pre)
              (chars (phrase ++ post)) 0 0) as [ms Hms]; [lia|exact Hclear|].
  rewrite Hms, map_app. apply in_or_app. right.
  rewrite (finditer_from_groups pattern _ _ 0 0).
  rewrite chars_app.
  destruct (match_at_pattern _ _ _ _ Hhead) as [len Hlen].
  apply (finditer_first _ _ len); [|exact Hlen].
  destruct (chars phrase); [contradiction | discriminate].
Qed.

(** ** Claims about the bus normalizer *)

(** C2 (as amended): when no match of the pattern that begins before the
    phrase reaches into it, which is so in particular when no "#" occurs
    before the phrase, text containing "#126 To 126 NEW YORK 13 MIN"
    yields the row {route: "126", to: "126 NEW YORK", minutes: 13}, text
    containing "#22 To 22 HOBOKEN DUE" yields {route: "22", to:
    "22 HOBOKEN", minutes: 0}, and text containing
    "#126 To 126 HOBOKEN-PATH < 1 MIN" yields {route: "126", to:
    "126 HOBOKEN-PATH", minutes: 0}, for every window the slider offers;
    an ETA token that is DUE or begins with "<" maps to 0. *)
Theorem phrase_clear_of_earlier_matches_yields_row (pre post : string) :
  slider_value MAX_WINDOW_MIN ->
  (clear_before pre (pre ++ phrase_13_min ++ post) ->
   exists rows,
     bus_normalize (pre ++ phrase_13_min ++ post) = Ok rows /\
     In row_13_min rows) /\
  (clear_before pre (pre ++ phrase_due ++ post) ->
   exists rows,
     bus_normalize (pre ++ phrase_due ++ post) = Ok rows /\
     In row_due rows) /\
  (clear_before pre (pre ++ phrase_less_than_1 ++ post) ->
   exists rows,
     bus_normalize (pre ++ phrase_less_than_1 ++ post) = Ok rows /\
     In row_less_than_1 rows) /\
  ((forall c, In c (chars pre) -> c <> "#"%char) ->
   forall rest, clear_before pre (pre ++ rest)) /\
  (forall eta_raw,
      eta_raw = chars "DUE" \/ starts_with "<" eta_raw = true ->
      eta_minutes eta_raw = Some 0).
Proof.
  intros [Hw _]. split; [|split; [|split; [|split]]].
  - intros Hclear. eapply bus_normalize_has.
    + eapply finditer_has_phrase; [exact Hclear | discriminate |].
      intros k res. apply head_13_min.
    + reflexivity.
    + simpl. lia.
  - intros Hclear. eapply bus_normalize_has.
    + eapply finditer_has_phrase; [exact Hclear | discriminate |].
      intros k res. apply head_due.
    + reflexivity.
    + simpl. lia.
  - intros Hclear. eapply bus_normalize_has.
    + eapply finditer_has_phrase; [exact Hclear | discriminate |].
      intros k res. apply head_less_than_1.
    + reflexivity.
    + simpl. lia.
  - intros Hpre rest. apply hash_free_clear_before; [exact Hpre|].
    exists rest. reflexivity.
  - intros eta_raw [->|H]; unfold eta_minutes; [reflexivity|].
    rewrite H. rewrite orb_true_r. reflexivity.
Qed.


(** C7: when the page is fetched and the pattern finds no match in its
    text, the bus normalizer returns the empty list; when the fetch
    raises (the priming request, the request itself, or a 4xx/5xx
    status), the normalizer raises that exception, which is not a
    returned list. *)
Theorem no_match_gives_empty_list (url : string) :
  (forall html,
      _get_html url = Ok html ->
      finditer pattern (chars (get_text html)) = [] ->
      parse_njt_mybus url = Ok []) /\
  (forall e, _get_html url = Raise e -> parse_njt_mybus url = Raise e) /\
  (forall e, session_get MYBUS_HOME BROWSER_HEADERS = Raise e ->
             parse_njt_mybus url = Raise e) /\
  (forall r0 e,
      session_get MYBUS_HOME BROWSER_HEADERS = Ok r0 ->
      session_get url (header_set "Referer" MYBUS_HOME BROWSER_HEADERS)
      = Raise e ->
      parse_njt_mybus url = Raise e) /\
  (forall r0 r,
      session_get MYBUS_HOME BROWSER_HEADERS = Ok r0 ->
      session_get url (header_set "Referer" MYBUS_HOME BROWSER_HEADERS)
      = Ok r ->
      400 <= status_code r < 600 ->
      parse_njt_mybus url = Raise (HTTPError (status_code r))) /\
  (forall e, @Ok (list bus_row) [] <> Raise e).
Proof.
  unfold parse_njt_mybus. repeat split.
  - intros html -> H. simpl.
    unfold bus_normalize, bus_rows. rewrite H. reflexivity.
  - intros e ->. reflexivity.
  - intros e H. unfold _get_html. rewrite H. reflexivity.
  - intros r0 e H0 H. unfold _get_html. rewrite H0. cbn [bind]. rewrite H.
    reflexivity.
  - intros r0 r H0 H Hs. unfold _get_html. rewrite H0. cbn [bind].
    rewrite H. cbn [bind]. unfold raise_for_status.
    replace ((400 <=? status_code r) && (status_code r <? 600)) with true.
    + reflexivity.
    + symmetry. apply andb_true_iff.
      split; [apply Z.leb_le | apply Z.ltb_lt]; lia.
  - intros e. discriminate.
Qed.

(** ** The PATH loops and the window *)

Lemma path_message_related (dest : json) (all kept : list path_row)
    (msg : json) :
  kept_of minutes all kept ->
  related (kept_of minutes) (path_message_all dest all msg)
          (path_message dest kept msg).
Proof.
  intros HR. unfold path_message_all, path_message.
  destruct (path_entry dest msg) as [[r|]|e]; simpl;
    [|exact HR|reflexivity].
  pose proof (kept_of_snoc _ _ _ _ r HR) as H.
  destruct (in_window (minutes r)); exact H.
Qed.

Lemma path_destination_related (all kept : list path_row) (dest : json) :
  kept_of minutes all kept ->
  related (kept_of minutes) (path_destination_all all dest)
          (path_destination kept dest).
Proof.
  intros HR. unfold path_destination_all, path_destination.
  destruct (py_get dest "messages" (JList [])) as [messages|e];
    [|reflexivity].
  cbn [bind]. destruct (py_iter messages) as [msgs|e]; [|reflexivity].
  cbn [bind]. apply for_each_related; [|exact HR].
  intros s1 s2 a _. apply path_message_related.
Qed.

Lemma path_station_related (all kept : list path_row) (station : json) :
  kept_of minutes all kept ->
  related (kept_of minutes) (path_station_all all station)
          (path_station kept station).
Proof.
  intros HR. unfold path_station_all, path_station.
  destruct (py_get station "consideredStation" JNull) as [considered|e];
    [|reflexivity].
  cbn [bind]. destruct (differs_from_str considered "HOB"); [exact HR|].
  destruct (py_get station "destinations" (JList [])) as [destinations|e];
    [|reflexivity].
  cbn [bind]. destruct (py_iter destinations) as [dests|e]; [|reflexivity].
  cbn [bind]. apply for_each_related; [|exact HR].
  intros s1 s2 a _. apply path_destination_related.
Qed.

Lemma path_rows_related (data : json) :
  related (kept_of minutes) (path_computed data) (path_rows data).
Proof.
  unfold path_computed, path_rows.
  destruct (py_get data "results" (JList [])) as [results|e];
    [|reflexivity].
  cbn [bind]. destruct (py_iter results) as [stations|e]; [|reflexivity].
  cbn [bind]. apply for_each_related; [|reflexivity].
  intros s1 s2 a _. apply path_station_related.
Qed.

Lemma finish_window (V : Type) (key_of : V -> key) (f : V -> Z)
    (computed : list V) :
  (forall a b, key_of a = key_of b -> f a = f b) ->
  let rows :=
    sort_by f (dict_values
                 (uniq_by key_of
                    (filter (fun r => in_window (f r)) computed))) in
  (forall r, In r rows -> 0 <= f r <= MAX_WINDOW_MIN) /\
  (forall r, In r computed ->
     ((exists r', In r' rows /\ key_of r' = key_of r) <->
      0 <= f r <= MAX_WINDOW_MIN)).
Proof.
  intros Hkey rows.
  destruct (finish_deduplicated _ key_of f
              (filter (fun r => in_window (f r)) computed))
    as (_ & Hlast & Hall).
  fold rows in Hlast, Hall.
  assert (forall r, In r rows -> 0 <= f r <= MAX_WINDOW_MIN) as Hin.
  { intros r Hr. destruct (Hlast r Hr) as (l1 & l2 & E & _).
    assert (In r (filter (fun r => in_window (f r)) computed)) as H
      by (rewrite E; apply in_elt).
    apply filter_In in H. apply in_window_spec. apply H. }
  split; [exact Hin|].
  intros r Hr. split.
  - intros (r' & Hr' & Hk). rewrite <- (Hkey _ _ Hk). apply Hin. exact Hr'.
  - intros Hw. apply Hall. apply filter_In. split; [exact Hr|].
    apply in_window_spec. exact Hw.
Qed.

(** C4: both normalizers keep a computed row exactly when its minutes
    lie between 0 and the window, both ends included: every row returned
    satisfies 0 <= minutes <= window, and a computed row has its key in
    the returned list if and only if 0 <= minutes <= window.  With the
    window at 30, a row with minutes = 45 is not in the output. *)
Theorem window_is_inclusive_bound :
  (forall data computed,
      path_computed data = Ok computed ->
      exists rows,
        path_normalize data = Ok rows /\
        (forall r, In r rows -> 0 <= minutes r <= MAX_WINDOW_MIN) /\
        (forall r, In r computed ->
           ((exists r', In r' rows /\ path_key r' = path_key r) <->
            0 <= minutes r <= MAX_WINDOW_MIN)) /\
        (forall r, MAX_WINDOW_MIN = 30 -> minutes r = 45 -> ~ In r rows)) /\
  (forall page_text,
      exists computed rows,
        bus_computed page_text = Ok computed /\
        bus_normalize page_text = Ok rows /\
        (forall r, In r rows -> 0 <= bus_minutes r <= MAX_WINDOW_MIN) /\
        (forall r, In r computed ->
           (In r rows <-> 0 <= bus_minutes r <= MAX_WINDOW_MIN)) /\
        (forall r, MAX_WINDOW_MIN = 30 -> bus_minutes r = 45 ->
                   ~ In r rows)).
Proof.
  split.
  - intros data computed Hc.
    pose proof (path_rows_related data) as H. rewrite Hc in H.
    unfold path_normalize.
    destruct (path_rows data) as [kept|e]; simpl in H; [|contradiction].
    rewrite H. cbn [bind]. eexists. split; [reflexivity|].
    destruct (finish_window _ path_key minutes computed) as [H1 H2].
    { intros [] []. unfold path_key. simpl. congruence. }
    split; [exact H1|]. split; [exact H2|].
    intros r Hw Hm Hin. apply H1 in Hin. lia.
  - intros page_text.
    destruct (bus_rows_filter page_text) as (computed & Hc & _ & Hrows).
    exists computed. unfold bus_normalize. rewrite Hrows. cbn [bind].
    eexists. split; [exact Hc|]. split; [reflexivity|].
    destruct (finish_window _ bus_key bus_minutes computed) as [H1 H2].
    { intros [] []. unfold bus_key. simpl. congruence. }
    split; [exact H1|]. split.
    + intros r H. split.
      * intros Hr. apply (proj1 (H2 r H)). exists r. auto.
      * intros Hw. destruct (proj2 (H2 r H) Hw) as (r' & Hr' & Hk).
        apply bus_key_inj in Hk. subst. exact Hr'.
    + intros r Hw Hm Hin. apply H1 in Hin. lia.
Qed.

(** ** Uniqueness and order of the returned lists *)

(** C5: in every list either normalizer returns, no two rows have the
    same key, (line, to, minutes) for PATH and (route, to, minutes) for
    the bus; every returned row is the last row with its key among the
    rows collected in input order, and every collected key is
    represented. *)
Theorem keys_unique_last_wins :
  (forall rows,
      parse_path_realtime = Ok rows ->
      exists collected,
        path_collected = Ok collected /\
        deduplicated path_key collected rows) /\
  (forall url rows,
      parse_njt_mybus url = Ok rows ->
      exists collected,
        bus_collected url = Ok collected /\
        deduplicated bus_key collected rows).
Proof.
  split.
  - intros rows. unfold parse_path_realtime, path_collected, path_normalize.
    destruct (_get_json PATH_URL) as [data|e]; [|discriminate].
    cbn [bind]. destruct (path_rows data) as [collected|e]; [|discriminate].
    cbn [bind]. intros [= <-]. exists collected. split; [reflexivity|].
    apply finish_deduplicated.
  - intros url rows. unfold parse_njt_mybus, bus_collected, bus_normalize.
    destruct (_get_html url) as [html|e]; [|discriminate].
    cbn [bind]. destruct (bus_rows (get_text html)) as [collected|e];
      [|discriminate].
    cbn [bind]. intros [= <-]. exists collected. split; [reflexivity|].
    apply finish_deduplicated.
Qed.

(** C6: in every list either normalizer returns, minutes never decreases
    from one row to the next. *)
Theorem rows_sorted_by_minutes :
  (forall rows,
      parse_path_realtime = Ok rows ->
      Sorted (fun a b => minutes a <= minutes b) rows) /\
  (forall url rows,
      parse_njt_mybus url = Ok rows ->
      Sorted (fun a b => bus_minutes a <= bus_minutes b) rows).
Proof.
  split.
  - intros rows. unfold parse_path_realtime, path_normalize.
    destruct (_get_json PATH_URL) as [data|e]; [|discriminate].
    cbn [bind]. destruct (path_rows data) as [collected|e]; [|discriminate].
    cbn [bind]. intros [= <-]. apply (sort_by_sorted _ minutes).
  - intros url rows. unfold parse_njt_mybus, bus_normalize.
    destruct (_get_html url) as [html|e]; [|discriminate].
    cbn [bind]. destruct (bus_rows (get_text html)) as [collected|e];
      [|discriminate].
    cbn [bind]. intros [= <-]. apply (sort_by_sorted _ bus_minutes).
Qed.

(** ** The phrase pattern finds the integer before "min" *)

Lemma span_app (p : ascii -> bool) (s : text) :
  fst (span p s) ++ snd (span p s) = s.
Proof.
  induction s as [|c s IH]; simpl; [reflexivity|].
  destruct (p c); [|reflexivity].
  destruct (span p s) as [w rest]. simpl in *. rewrite IH. reflexivity.
Qed.

Lemma span_all (p : ascii -> bool) (s : text) :
  Forall (fun c => p c = true) (fst (span p s)).
Proof.
  induction s as [|c s IH]; simpl; [constructor|].
  destruct (p c) eqn:E; [|constructor].
  destruct (span p s) as [w rest]. simpl in *. constructor; assumption.
Qed.

Lemma span_stops (p : ascii -> bool) (s : text) :
  match snd (span p s) with
  | c :: _ => p c = false
  | [] => True
  end.
Proof.
  induction s as [|c s IH]; simpl; [exact I|].
  destruct (p c) eqn:E; [|exact E].
  destruct (span p s) as [w rest]. exact IH.
Qed.

(** A greedy repetition whose continuation cannot start on a character
    of the class settles on the longest run. *)
Lemma rep_greedy_longest (R : Type) (p : ascii -> bool) (k : kont R) :
  (forall c s' n', p c = true -> k (c :: s') n' = None) ->
  forall s least n,
    rep_greedy p least s n k =
    if (least <=? List.length (fst (span p s)))%nat
    then k (snd (span p s)) (n + List.length (fst (span p s)))%nat
    else None.
Proof.
  intros Hk. induction s as [|c s IH]; intros least n; simpl.
  - rewrite Nat.add_0_r. destruct least; reflexivity.
  - destruct (p c) eqn:E.
    + rewrite IH. rewrite (Hk c s n E).
      destruct (span p s) as [w rest]. cbn [fst snd List.length pred].
      rewrite Nat.add_succ_r. cbn [Nat.add]. unfold or_else.
      destruct least as [|least]; cbn [pred Nat.leb Nat.eqb].
      * destruct (k rest (S (n + List.length w))); reflexivity.
      * destruct (least <=? List.length w)%nat; [|reflexivity].
        destruct (k rest (S (n + List.length w))); reflexivity.
    + simpl. rewrite Nat.add_0_r. destruct least; reflexivity.
Qed.

Lemma match_at_min_pattern (s : text) :
  option_map fst (match_at min_pattern s) =
  option_map (fun ds => [("1", ds)]) (integer_before_min_at s).
Proof.
  unfold match_at, min_pattern, integer_before_min_at. cbn [run].
  rewrite rep_greedy_longest.
  2:{ intros c s' n' Hc. cbn [in_atom] in Hc. simpl.
      rewrite digit_not_space by exact Hc.
      rewrite digit_not_letter by (exact Hc || reflexivity).
      reflexivity. }
  pose proof (span_app is_digit s) as Happ.
  change (in_atom Digit) with is_digit.
  change (in_atom Space) with is_space.
  destruct (span is_digit s) as [ds rest]. cbn [fst snd] in *.
  destruct ds as [|d ds]; [reflexivity|].
  replace (1 <=? List.length (d :: ds))%nat with true by reflexivity.
  rewrite rep_greedy_longest.
  2:{ intros c s' n' Hc. cbn [in_atom] in Hc. simpl.
      rewrite space_not_m by exact Hc. reflexivity. }
  replace (0 <=? List.length (fst (span is_space rest)))%nat with true
    by reflexivity.
  replace (firstn (0 + List.length (d :: ds) - 0) s) with (d :: ds).
  2:{ rewrite <- Happ. rewrite Nat.sub_0_r, Nat.add_0_l.
      rewrite <- (Nat.add_0_r (List.length (d :: ds))).
      rewrite firstn_app_2. simpl. rewrite app_nil_r. reflexivity. }
  destruct (snd (span is_space rest)) as [|a [|b [|c r]]]; simpl;
    try reflexivity.
  - destruct (eq_nocase "m" a); reflexivity.
  - destruct (eq_nocase "m" a); simpl; [|reflexivity].
    destruct (eq_nocase "i" b); reflexivity.
  - destruct (eq_nocase "m" a); simpl; [|reflexivity].
    destruct (eq_nocase "i" b); simpl; [|reflexivity].
    destruct (eq_nocase "n" c); reflexivity.
Qed.

Lemma search_min_pattern (s : text) :
  search min_pattern s =
  option_map (fun ds => [("1", ds)]) (integer_before_min s).
Proof.
  induction s as [|c s IH]; cbn [search integer_before_min];
    pose proof (match_at_min_pattern (@nil ascii)) as H0;
    try pose proof (match_at_min_pattern (c :: s)) as H1.
  - destruct (match_at min_pattern []) as [[caps len]|],
      (integer_before_min_at []); simpl in *; congruence.
  - destruct (match_at min_pattern (c :: s)) as [[caps len]|],
      (integer_before_min_at (c :: s)); simpl in *; congruence.
Qed.

Lemma integer_before_min_at_digits (s ds : text) :
  integer_before_min_at s = Some ds ->
  ds <> [] /\ Forall (fun c => is_digit c = true) ds /\
  exists ws a b c post,
    s = ds ++ ws ++ a :: b :: c :: post /\
    Forall (fun x => is_space x = true) ws /\
    eq_nocase "m" a = true /\ eq_nocase "i" b = true /\
    eq_nocase "n" c = true /\
    match ws ++ a :: b :: c :: post with
    | x :: _ => is_digit x = false
    | [] => True
    end.
Proof.
  unfold integer_before_min_at.
  pose proof (span_app is_digit s) as Happ.
  pose proof (span_all is_digit s) as Hall.
  pose proof (span_stops is_digit s) as Hstop.
  destruct (span is_digit s) as [w rest]. simpl in *.
  destruct w as [|d w]; [discriminate|].
  pose proof (span_app is_space rest) as Happ'.
  pose proof (span_all is_space rest) as Hall'.
  destruct (span is_space rest) as [ws rest']. simpl in *.
  destruct rest' as [|a [|b [|c post]]]; simpl; try discriminate.
  destruct (eq_nocase "m" a) eqn:Ea; [|discriminate].
  destruct (eq_nocase "i" b) eqn:Eb; [|discriminate].
  destruct (eq_nocase "n" c) eqn:Ec; [|discriminate].
  simpl. intros [= <-]. split; [discriminate|]. split; [exact Hall|].
  exists ws, a, b, c, post. rewrite Happ'.
  repeat split; auto.
Qed.

(** The integer found is a non-empty run of digits; white space and then
    "min" in either case follow it, and no digit precedes it. *)
Lemma integer_before_min_shape (s ds : text) :
  integer_before_min s = Some ds ->
  ds <> [] /\ Forall (fun c => is_digit c = true) ds /\
  exists pre ws a b c post,
    s = pre ++ ds ++ ws ++ a :: b :: c :: post /\
    Forall (fun x => is_space x = true) ws /\
    eq_nocase "m" a = true /\ eq_nocase "i" b = true /\
    eq_nocase "n" c = true.
Proof.
  induction s as [|x s IH]; cbn [integer_before_min].
  - destruct (integer_before_min_at []) eqn:E; [|discriminate].
    intros [= ->]. apply integer_before_min_at_digits in E.
    destruct E as (Hne & Hd & ws & a & b & c & post & Hs & Hws & Ha & Hb
                   & Hc & _).
    split; [exact Hne|]. split; [exact Hd|].
    exists [], ws, a, b, c, post. auto.
  - destruct (integer_before_min_at (x :: s)) eqn:E.
    + intros [= ->]. apply integer_before_min_at_digits in E.
      destruct E as (Hne & Hd & ws & a & b & c & post & Hs & Hws & Ha & Hb
                     & Hc & _).
      split; [exact Hne|]. split; [exact Hd|].
      exists [], ws, a, b, c, post. auto.
    + intros H. apply IH in H.
      destruct H as (Hne & Hd & pre & ws & a & b & c & post & -> & Hrest).
      split; [exact Hne|]. split; [exact Hd|].
      exists (x :: pre), ws, a, b, c, post. auto.
Qed.

(** Lines 110-112 on a message that is an object. *)
Lemma message_minutes_spec (msg : list (string * json)) :
  message_minutes (JDict msg) =
  Ok (spec_phrase_minutes
        (chars (py_str (field "arrivalTimeMessage" (JStr "") msg)))).
Proof.
  unfold message_minutes, spec_phrase_minutes, field. cbn [py_get].
  destruct (lookup "arrivalTimeMessage" msg) as [v|]; cbn [bind];
    rewrite search_min_pattern;
    match goal with
    | |- context [integer_before_min ?s] =>
        destruct (integer_before_min s) as [ds|] eqn:E
    end; simpl; try reflexivity;
    apply integer_before_min_shape in E; destruct E as (Hne & Hd & _);
    rewrite (py_int_digits _ Hne Hd); reflexivity.
Qed.

(** Lines 93-118 on a message and a destination that are objects. *)
Lemma path_entry_objects (dest msg : list (string * json)) :
  path_entry (JDict dest) (JDict msg) =
  Ok (option_map
        (fun m => PathRow (py_str (resolve_line msg))
                          (py_str (resolve_headsign dest msg)) m (JDict msg))
        (match timestamp_minutes (field "arrivalTime" JNull msg) with
         | Some m => Some m
         | None =>
             spec_phrase_minutes
               (chars (py_str (field "arrivalTimeMessage" (JStr "") msg)))
         end)).
Proof.
  unfold path_entry, resolve_line, resolve_headsign, field, py_or.
  cbn [py_get].
  destruct (lookup "arrivalTime" msg) as [a|];
    destruct (lookup "headSign" msg) as [h|];
    destruct (lookup "label" dest) as [l|];
    destruct (lookup "lineName" msg) as [n|];
    destruct (lookup "line" msg) as [i|];
    cbn [bind];
    repeat match goal with
      | |- context [truthy ?v] => destruct (truthy v); cbn [bind]
      end;
    rewrite ?message_minutes_spec; unfold field;
    repeat match goal with
      | |- context [timestamp_minutes ?v] =>
          destruct (timestamp_minutes v); cbn [bind]
      end;
    try reflexivity;
    rewrite ?message_minutes_spec; unfold field;
    repeat match goal with
      | |- context [spec_phrase_minutes ?v] =>
          destruct (spec_phrase_minutes v); cbn [bind option_map]
      end; reflexivity.
Qed.

(** ** Claims about the PATH normalizer *)

Lemma timestamp_minutes_parsed (s : string) (t : Z) :
  s <> "" -> fromisoformat (z_as_offset s) = Ok (Aware t) ->
  timestamp_minutes (JStr s) = Some (whole_minutes (t - now)).
Proof.
  intros Hs Hp. unfold timestamp_minutes, from_timestamp. cbn [truthy].
  apply String.eqb_neq in Hs. rewrite Hs. cbn [negb bind].
  rewrite Hp. reflexivity.
Qed.





(** C1: when the feed is the document with one station HOB, one
    destination labelled 33rd Street and one message that has only an
    [arrivalTime], a Z-suffixed ISO timestamp that lies 5 minutes, and
    less than a minute more, after now, the PATH normalizer returns one
    row, with line PATH, to 33rd Street and minutes 5, for every window
    the slider offers. *)
Theorem one_message_round_trip (iso : string) (t : Z) :
  fromisoformat (z_as_offset (iso ++ "Z")) = Ok (Aware t) ->
  5 * 60000000 <= t - now < 6 * 60000000 ->
  slider_value MAX_WINDOW_MIN ->
  _get_json PATH_URL = Ok (one_message_document (iso ++ "Z")) ->
  parse_path_realtime =
  Ok [PathRow "PATH" "33rd Street" 5 (one_message (iso ++ "Z"))].
Proof.
  intros Hp Ht [Hw _] Hdoc. unfold parse_path_realtime. rewrite Hdoc.
  cbn [bind]. unfold path_normalize, path_rows, one_message_document, document.
  cbn [py_get lookup String.eqb Ascii.eqb Bool.eqb bind py_iter for_each].
  unfold path_station.
  cbn [py_get lookup String.eqb Ascii.eqb Bool.eqb bind py_iter for_each
       differs_from_str negb].
  unfold path_destination.
  cbn [py_get lookup String.eqb Ascii.eqb Bool.eqb bind py_iter for_each].
  unfold path_message, one_message, message. rewrite path_entry_objects.
  assert (iso ++ "Z" <> "")%string as Hne
    by (destruct iso; discriminate).
  unfold field at 1.
  cbn [lookup String.eqb Ascii.eqb Bool.eqb].
  rewrite (timestamp_minutes_parsed _ _ Hne Hp).
  assert (whole_minutes (t - now) = 5) as ->.
  { unfold whole_minutes.
    assert ((t - now) / 60000000 = 5) as ->; [|reflexivity].
    symmetry. apply Z.div_unique with (r := t - now - 5 * 60000000); lia. }
  cbn [option_map bind minutes].
  replace (in_window 5) with true
    by (symmetry; apply in_window_spec; lia).
  reflexivity.
Qed.

(** ** The three panels *)

Lemma out_bind_ok (W A B : Type) (m : out W A) (f : A -> out W B) (a : A) :
  snd m = Ok a ->
  out_bind m f = (fst m ++ fst (f a), snd (f a)).
Proof.
  destruct m as [w r]. simpl. intros ->. destruct (f a). reflexivity.
Qed.

Lemma render_rows_path (rows : list path_row) :
  snd (out_for_each (render_row KindPath) (map OfPath rows)) = Ok tt.
Proof.
  induction rows as [|r rows IH]; [reflexivity|].
  cbn [map out_for_each].
  rewrite (out_bind_ok _ _ _ _ _ tt) by reflexivity. exact IH.
Qed.

Lemma render_rows_bus (rows : list bus_row) :
  snd (out_for_each (render_row KindBus) (map OfBus rows)) = Ok tt.
Proof.
  induction rows as [|r rows IH]; [reflexivity|].
  cbn [map out_for_each].
  rewrite (out_bind_ok _ _ _ _ _ tt) by reflexivity. exact IH.
Qed.

Lemma render_list_path (title : string) (rows : list path_row) :
  snd (render_list title (map OfPath rows) KindPath) = Ok tt.
Proof.
  unfold render_list. rewrite (out_bind_ok _ _ _ _ _ tt) by reflexivity.
  cbn [snd]. destruct rows as [|r rows]; [reflexivity|].
  apply (render_rows_path (r :: rows)).
Qed.

Lemma render_list_bus (title : string) (rows : list bus_row) :
  snd (render_list title (map OfBus rows) KindBus) = Ok tt.
Proof.
  unfold render_list. rewrite (out_bind_ok _ _ _ _ _ tt) by reflexivity.
  cbn [snd]. destruct rows as [|r rows]; [reflexivity|].
  apply (render_rows_bus (r :: rows)).
Qed.

Lemma path_panel_cases :
  match parse_path_realtime with
  | Ok rows =>
      path_panel =
      (map (pair col1) (fst (render_list PATH_TITLE (map OfPath rows)
                                         KindPath)), Ok tt)
  | Raise e =>
      path_panel =
      ([(col1, Subheader PATH_TITLE);
        (col1, Error "PATH fetch failed: " e)], Ok tt)
  end.
Proof.
  unfold path_panel. destruct parse_path_realtime as [rows|e].
  - unfold lift.
    rewrite (out_bind_ok _ _ _ _ _ rows) by reflexivity.
    cbn [fst snd app]. unfold within, try_except. cbn [fst snd].
    rewrite render_list_path. reflexivity.
  - reflexivity.
Qed.

Lemma bus_panel_cases (c : column) (url title : string) :
  match parse_njt_mybus url with
  | Ok rows =>
      bus_panel c url title =
      (map (pair c) (fst (render_list title (map OfBus rows) KindBus)),
       Ok tt)
  | Raise e =>
      bus_panel c url title =
      ([(c, Subheader title); (c, Error "MyBus fetch failed: " e)], Ok tt)
  end.
Proof.
  unfold bus_panel. destruct (parse_njt_mybus url) as [rows|e].
  - unfold lift.
    rewrite (out_bind_ok _ _ _ _ _ rows) by reflexivity.
    cbn [fst snd app]. unfold within, try_except. cbn [fst snd].
    rewrite render_list_bus. reflexivity.
  - reflexivity.
Qed.

Lemma Forall_in_column (c : column) (ws : list widget) :
  Forall (fun ev : event => fst ev = c) (map (pair c) ws).
Proof. induction ws; constructor; [reflexivity | assumption]. Qed.

(** C8: whatever the three pipelines do, each panel ends normally; a
    pipeline that raises leaves a subheader and an error in the column of
    its own panel and nothing else; everything a panel writes is in its
    own column; and the page is the writes of the three panels one after
    the other, so that each panel's part is decided by its own pipeline
    alone. *)
Theorem panel_failures_are_isolated :
  (snd path_panel = Ok tt /\
   forall c url title, snd (bus_panel c url title) = Ok tt) /\
  (forall e,
      parse_path_realtime = Raise e ->
      fst path_panel =
      [(col1, Subheader PATH_TITLE);
       (col1, Error "PATH fetch failed: " e)]) /\
  (forall c url title e,
      parse_njt_mybus url = Raise e ->
      fst (bus_panel c url title) =
      [(c, Subheader title); (c, Error "MyBus fetch failed: " e)]) /\
  (forall rows,
      parse_path_realtime = Ok rows ->
      fst path_panel =
      map (pair col1)
          (fst (render_list PATH_TITLE (map OfPath rows) KindPath))) /\
  (forall c url title rows,
      parse_njt_mybus url = Ok rows ->
      fst (bus_panel c url title) =
      map (pair c) (fst (render_list title (map OfBus rows) KindBus))) /\
  (Forall (fun ev : event => fst ev = col1) (fst path_panel) /\
   forall c url title,
     Forall (fun ev : event => fst ev = c) (fst (bus_panel c url title))) /\
  panels =
  (fst path_panel ++
   fst (bus_panel col2 MYBUS_11TH_WASH BUS11_TITLE) ++
   fst (bus_panel col3 MYBUS_10TH_WASH BUS10_TITLE), Ok tt).
Proof.
  assert (snd path_panel = Ok tt) as Hp.
  { pose proof path_panel_cases as H.
    destruct parse_path_realtime; rewrite H; reflexivity. }
  assert (forall c url title, snd (bus_panel c url title) = Ok tt) as Hb.
  { intros c url title. pose proof (bus_panel_cases c url title) as H.
    destruct (parse_njt_mybus url); rewrite H; reflexivity. }
  split; [split; assumption|].
  split; [intros e He; pose proof path_panel_cases as H; rewrite He in H;
          rewrite H; reflexivity|].
  split; [intros c url title e He;
          pose proof (bus_panel_cases c url title) as H; rewrite He in H;
          rewrite H; reflexivity|].
  split; [intros rows He; pose proof path_panel_cases as H; rewrite He in H;
          rewrite H; reflexivity|].
  split; [intros c url title rows He;
          pose proof (bus_panel_cases c url title) as H; rewrite He in H;
          rewrite H; reflexivity|].
  split.
  - split.
    + pose proof path_panel_cases as H.
      destruct parse_path_realtime; rewrite H; cbn [fst].
      * apply Forall_in_column.
      * repeat constructor.
    + intros c url title. pose proof (bus_panel_cases c url title) as H.
      destruct (parse_njt_mybus url); rewrite H; cbn [fst].
      * apply Forall_in_column.
      * repeat constructor.
  - unfold panels.
    rewrite (out_bind_ok _ _ _ _ _ tt) by exact Hp.
    rewrite (out_bind_ok _ _ _ _ _ tt) by apply Hb.
    cbn [fst snd]. rewrite Hb. reflexivity.
Qed.

(** * Further properties of the script *)

(** ** The feed document: what is skipped, what is missing, what raises *)

Lemma for_each_invariant (A S : Type) (P : S -> Prop)
    (body : S -> A -> result S) (l : list A) :
  (forall s a s', P s -> body s a = Ok s' -> P s') ->
  forall s s', P s -> for_each body s l = Ok s' -> P s'.
Proof.
  intros Hbody. induction l as [|a l IH]; intros s s' Hs H; simpl in H.
  - injection H as <-. exact Hs.
  - destruct (body s a) as [s1|e] eqn:E; [|discriminate].
    cbn [bind] in H. eapply IH; [|exact H]. eapply Hbody; eassumption.
Qed.

Lemma path_station_other (rows : list path_row)
    (station : list (string * json)) :
  differs_from_str (field "consideredStation" JNull station) "HOB" = true ->
  path_station rows (JDict station) = Ok rows.
Proof.
  intros H. unfold path_station, field in *. cbn [py_get].
  destruct (lookup "consideredStation" station); cbn [bind]; rewrite H;
    reflexivity.
Qed.

(** X1: a station object whose [consideredStation] is not the string HOB
    (or is missing) adds nothing: the normalizer returns for the feed what
    it returns for the feed without that station. *)
Theorem other_stations_are_ignored
    (data data' station : list (string * json)) (before after : list json) :
  lookup "results" data = Some (JList (before ++ JDict station :: after)) ->
  lookup "results" data' = Some (JList (before ++ after)) ->
  differs_from_str (field "consideredStation" JNull station) "HOB" = true ->
  path_normalize (JDict data) = path_normalize (JDict data').
Proof.
  intros H H' Hother. unfold path_normalize, path_rows. cbn [py_get].
  rewrite H, H'. cbn [bind py_iter]. rewrite !for_each_app.
  destruct (for_each path_station [] before) as [rows|e]; cbn [bind];
    [|reflexivity].
  cbn [for_each]. rewrite path_station_other by exact Hother. reflexivity.
Qed.

Lemma path_station_without_destinations (rows : list path_row)
    (station : list (string * json)) :
  lookup "destinations" station = None ->
  path_station rows (JDict station) = Ok rows.
Proof.
  intros H. unfold path_station. cbn [py_get]. rewrite H.
  destruct (lookup "consideredStation" station) as [c|]; cbn [bind];
    [destruct (differs_from_str c "HOB")|]; reflexivity.
Qed.

Lemma path_destination_without_messages (rows : list path_row)
    (dest : list (string * json)) :
  lookup "messages" dest = None ->
  path_destination rows (JDict dest) = Ok rows.
Proof.
  intros H. unfold path_destination. cbn [py_get]. rewrite H. reflexivity.
Qed.

(** X2: a missing key is an empty list, not an error.  A feed object
    without [results] gives the empty list; a station object without
    [destinations] can be taken out of the feed without changing what the
    normalizer returns; and so can a destination object without
    [messages] out of a HOB station. *)
Theorem missing_lists_give_no_rows :
  (forall data,
      lookup "results" data = None -> path_normalize (JDict data) = Ok []) /\
  (forall data data' station before after,
      lookup "results" data =
      Some (JList (before ++ JDict station :: after)) ->
      lookup "results" data' = Some (JList (before ++ after)) ->
      lookup "destinations" station = None ->
      path_normalize (JDict data) = path_normalize (JDict data')) /\
  (forall rows station station' dest before after,
      lookup "consideredStation" station = Some (JStr "HOB") ->
      lookup "consideredStation" station' = Some (JStr "HOB") ->
      lookup "destinations" station =
      Some (JList (before ++ JDict dest :: after)) ->
      lookup "destinations" station' = Some (JList (before ++ after)) ->
      lookup "messages" dest = None ->
      path_station rows (JDict station) =
      path_station rows (JDict station')).
Proof.
  split; [|split].
  - intros data H. unfold path_normalize, path_rows. cbn [py_get].
    rewrite H. reflexivity.
  - intros data data' station before after H H' Hd.
    unfold path_normalize, path_rows. cbn [py_get].
    rewrite H, H'. cbn [bind py_iter]. rewrite !for_each_app.
    destruct (for_each path_station [] before) as [rows|e]; cbn [bind];
      [|reflexivity].
    cbn [for_each].
    rewrite path_station_without_destinations by exact Hd. reflexivity.
  - intros rows station station' dest before after Hc Hc' Hd Hd' Hm.
    unfold path_station. cbn [py_get]. rewrite Hc, Hc', Hd, Hd'.
    cbn [bind differs_from_str String.eqb Ascii.eqb Bool.eqb negb py_iter].
    rewrite !for_each_app.
    destruct (for_each path_destination rows before) as [rows'|e];
      cbn [bind]; [|reflexivity].
    cbn [for_each].
    rewrite path_destination_without_messages by exact Hm. reflexivity.
Qed.

(** X3: the default applies to a missing key only.  When [results],
    the [destinations] of a HOB station or the [messages] of a destination
    is present and not iterable, as a JSON null is, the normalizer raises
    [TypeError] and returns no list. *)
Theorem value_that_is_not_iterable_raises (v : json) (e : exn) :
  py_iter v = Raise e ->
  py_iter JNull = Raise (TypeError "not iterable") /\
  (forall data,
      lookup "results" data = Some v ->
      path_normalize (JDict data) = Raise e) /\
  (forall station rest,
      lookup "consideredStation" station = Some (JStr "HOB") ->
      lookup "destinations" station = Some v ->
      path_normalize (JDict [("results", JList (JDict station :: rest))])
      = Raise e) /\
  (forall station dest more rest,
      lookup "consideredStation" station = Some (JStr "HOB") ->
      lookup "destinations" station = Some (JList (JDict dest :: more)) ->
      lookup "messages" dest = Some v ->
      path_normalize (JDict [("results", JList (JDict station :: rest))])
      = Raise e).
Proof.
  intros Hv. split; [reflexivity|]. split; [|split].
  - intros data H. unfold path_normalize, path_rows. cbn [py_get].
    rewrite H. cbn [bind]. rewrite Hv. reflexivity.
  - intros station rest Hc Hd. unfold path_normalize, path_rows.
    cbn [py_get lookup String.eqb Ascii.eqb Bool.eqb bind py_iter for_each].
    unfold path_station. cbn [py_get]. rewrite Hc, Hd.
    cbn [bind differs_from_str String.eqb Ascii.eqb Bool.eqb negb].
    rewrite Hv. reflexivity.
  - intros station dest more rest Hc Hd Hm. unfold path_normalize, path_rows.
    cbn [py_get lookup String.eqb Ascii.eqb Bool.eqb bind py_iter for_each].
    unfold path_station. cbn [py_get]. rewrite Hc, Hd.
    cbn [bind differs_from_str String.eqb Ascii.eqb Bool.eqb negb py_iter
         for_each].
    unfold path_destination. cbn [py_get]. rewrite Hm. cbn [bind].
    rewrite Hv. reflexivity.
Qed.




(** ** Minutes of a message *)

Lemma whole_minutes_under_a_minute (d : Z) :
  d < 60000000 -> whole_minutes d = 0.
Proof.
  intros H. unfold whole_minutes.
  assert (d / 60000000 < 1) by (apply Z.div_lt_upper_bound; lia). lia.
Qed.

(** X5: a train whose timestamp lies in the past, or less than a minute
    ahead, is not dropped: whatever the window of the slider (it is never
    negative) and whatever the phrase says, the message gives one row,
    with minutes 0 and the message itself as [raw]. *)
Theorem departed_train_is_listed_at_zero
    (dest msg : list (string * json)) (s : string) (t : Z)
    (rows : list path_row) :
  lookup "arrivalTime" msg = Some (JStr s) -> s <> "" ->
  fromisoformat (z_as_offset s) = Ok (Aware t) ->
  t - now < 60000000 -> 0 <= MAX_WINDOW_MIN ->
  exists r,
    path_message (JDict dest) rows (JDict msg) = Ok (rows ++ [r]) /\
    minutes r = 0 /\ raw r = JDict msg.
Proof.
  intros Hl Hs Hp Ht Hw. unfold path_message.
  rewrite path_entry_objects. unfold field at 1. rewrite Hl.
  rewrite (timestamp_minutes_parsed _ _ Hs Hp).
  rewrite whole_minutes_under_a_minute by exact Ht.
  cbn [option_map bind minutes]. unfold in_window.
  replace (0 <=? 0) with true by reflexivity.
  replace (0 <=? MAX_WINDOW_MIN) with true by (symmetry; apply Z.leb_le; lia).
  cbn [andb]. eexists. split; [reflexivity|]. split; reflexivity.
Qed.




Lemma integer_before_min_skips (pre s : text) :
  Forall (fun x => is_digit x = false) pre ->
  integer_before_min (pre ++ s) = integer_before_min s.
Proof.
  intros H. induction H as [|x pre Hx _ IH]; [reflexivity|].
  cbn [app integer_before_min]. unfold integer_before_min_at at 1.
  cbn [span]. rewrite Hx. exact IH.
Qed.

Lemma integer_before_min_none (s : text) :
  Forall (fun x => is_digit x = false) s -> integer_before_min s = None.
Proof.
  intros H. rewrite <- (app_nil_r s), integer_before_min_skips by exact H.
  reflexivity.
Qed.


(** X8: a message with no usable timestamp whose phrase, as [str] gives
    it, has no digit (a missing phrase is the empty string) is dropped:
    the rows collected so far are returned as they are. *)
Theorem message_without_timestamp_or_digit_is_dropped
    (dest msg : list (string * json)) (rows : list path_row) :
  timestamp_minutes (field "arrivalTime" JNull msg) = None ->
  Forall (fun x => is_digit x = false)
         (chars (py_str (field "arrivalTimeMessage" (JStr "") msg))) ->
  path_message (JDict dest) rows (JDict msg) = Ok rows.
Proof.
  intros Ht Hp. unfold path_message. rewrite path_entry_objects, Ht.
  unfold spec_phrase_minutes. rewrite integer_before_min_none by exact Hp.
  reflexivity.
Qed.

Lemma truthy_text_is_not_empty (v : json) :
  (forall w, py_repr w <> "") -> truthy v = true -> py_str v <> "".
Proof.
  intros Hrepr Hv. destruct v as [| | | |s| |]; try apply Hrepr.
  cbn [py_str]. intros ->. discriminate.
Qed.

Lemma label_is_not_empty (a b : json) :
  (forall w, py_repr w <> "") ->
  py_str (if truthy a then a else if truthy b then b else JStr "PATH") <> "".
Proof.
  intros Hrepr. destruct (truthy a) eqn:Ea.
  - apply truthy_text_is_not_empty; assumption.
  - destruct (truthy b) eqn:Eb.
    + apply truthy_text_is_not_empty; assumption.
    + discriminate.
Qed.

(** X9: the labels of a row are never the empty text.  [repr] of a value
    is never the empty string; under that fact about Python, the [line]
    and the [to] of the row of any message are non-empty, because a falsy
    label (missing, null, the empty string, 0) gives way to the next one
    and in the end to PATH. *)
Theorem labels_are_never_empty
    (dest msg : list (string * json)) (r : path_row) :
  (forall w, py_repr w <> "") ->
  path_entry (JDict dest) (JDict msg) = Ok (Some r) ->
  line r <> "" /\ to r <> "".
Proof.
  intros Hrepr H. rewrite path_entry_objects in H.
  destruct (match timestamp_minutes _ with Some m => Some m | None => _ end)
    as [m|]; [|discriminate].
  cbn [option_map] in H. injection H as <-. cbn [line to].
  unfold resolve_line, resolve_headsign.
  split; apply label_is_not_empty; exact Hrepr.
Qed.

Lemma path_entry_raw (dest msg : json) (r : path_row) :
  path_entry dest msg = Ok (Some r) ->
  raw r = msg /\ is_object msg = true.
Proof.
  intros H. destruct msg as [| | | | | |m]; try discriminate.
  split; [|reflexivity]. unfold path_entry in H.
  repeat match type of H with
    | context [bind ?x _] =>
        destruct x; cbn [bind] in H; try discriminate
    end.
  match type of H with
  | match ?x with _ => _ end = _ => destruct x; [|discriminate]
  end.
  injection H as <-. reflexivity.
Qed.

(** X10: every row comes from a message.  Each row the normalizer returns
    carries in [raw] a message that is a JSON object, and is the row
    computed for that very message under some destination; no row is made
    up, merged from two messages or altered by the sort. *)
Theorem every_row_is_computed_from_its_raw_message
    (data : json) (rows : list path_row) (r : path_row) :
  path_normalize data = Ok rows -> In r rows ->
  is_object (raw r) = true /\
  exists dest, path_entry dest (raw r) = Ok (Some r).
Proof.
  intros H Hin. unfold path_normalize in H.
  destruct (path_rows data) as [collected|e] eqn:E; [|discriminate].
  cbn [bind] in H. injection H as <-.
  assert (In r collected) as Hc.
  { unfold path_finish in Hin. apply (proj1 (sort_by_In _ _ _ _)) in Hin.
    unfold dict_values in Hin. apply in_map_iff in Hin.
    destruct Hin as ([k v] & <- & Hin). apply uniq_by_In in Hin.
    destruct Hin as (_ & Hlast). destruct Hlast as (l1 & l2 & -> & _).
    apply in_or_app. right. left. reflexivity. }
  clear Hin.
  set (P := fun rs : list path_row =>
              forall x, In x rs ->
                is_object (raw x) = true /\
                exists dest, path_entry dest (raw x) = Ok (Some x)).
  assert (P collected) as HP; [|exact (HP r Hc)].
  unfold path_rows in E.
  destruct (py_get data "results" (JList [])) as [results|e]; [|discriminate].
  cbn [bind] in E. destruct (py_iter results) as [stations|e];
    [|discriminate].
  cbn [bind] in E.
  refine (for_each_invariant _ _ P path_station stations _ [] collected _ E).
  2:{ intros x []. }
  clear. intros s station s' Hs H. unfold path_station in H.
  destruct (py_get station "consideredStation" JNull) as [c|e];
    [|discriminate].
  cbn [bind] in H. destruct (differs_from_str c "HOB").
  { injection H as <-. exact Hs. }
  destruct (py_get station "destinations" (JList [])) as [ds|e];
    [|discriminate].
  cbn [bind] in H. destruct (py_iter ds) as [dests|e]; [|discriminate].
  cbn [bind] in H.
  refine (for_each_invariant _ _ P path_destination dests _ s s' Hs H).
  clear. intros s dest s' Hs H. unfold path_destination in H.
  destruct (py_get dest "messages" (JList [])) as [ms|e]; [|discriminate].
  cbn [bind] in H. destruct (py_iter ms) as [msgs|e]; [|discriminate].
  cbn [bind] in H.
  refine (for_each_invariant _ _ P (path_message dest) msgs _ s s' Hs H).
  clear. intros s msg s' Hs H. unfold path_message in H.
  destruct (path_entry dest msg) as [[x|]|e] eqn:E; cbn [bind] in H;
    [| |discriminate].
  - destruct (in_window (minutes x)); injection H as <-; [|exact Hs].
    intros y Hy. apply in_app_or in Hy. destruct Hy as [Hy|[<-|[]]].
    + apply Hs. exact Hy.
    + destruct (path_entry_raw _ _ _ E) as [Hraw Hobj].
      rewrite Hraw. split; [exact Hobj|]. exists dest. exact E.
  - injection H as <-. exact Hs.
Qed.

(** ** Lines 120-123 and 166-172 once more: order and fixed points *)

Section Finish.
Variable V : Type.
Variable key_of : V -> key.
Variable f : V -> Z.

Lemma dict_set_fresh (k : key) (v : V) (d : list (key * V)) :
  existsb (key_eqb k) (map fst d) = false -> dict_set k v d = d ++ [(k, v)].
Proof.
  induction d as [|[k' v'] d IH]; simpl; intros H; [reflexivity|].
  apply orb_false_iff in H. destruct H as [-> H]. rewrite IH by exact H.
  reflexivity.
Qed.

Lemma uniq_by_distinct (l : list V) :
  NoDup (map key_of l) -> uniq_by key_of l = map (fun r => (key_of r, r)) l.
Proof.
  induction l as [|r l IH] using rev_ind; intros ND; [reflexivity|].
  rewrite map_app in ND. simpl in ND.
  pose proof (NoDup_remove_1 _ _ _ ND) as ND1.
  pose proof (NoDup_remove_2 _ _ _ ND) as ND2.
  rewrite app_nil_r in ND1, ND2.
  rewrite uniq_by_snoc, IH by exact ND1. rewrite map_app. simpl.
  apply dict_set_fresh. rewrite map_map. simpl.
  destruct (existsb _ _) eqn:E; [|reflexivity].
  apply existsb_key in E. contradiction.
Qed.

Lemma sort_by_ascending (l : list V) :
  Sorted (ascending f) l -> sort_by f l = l.
Proof.
  induction l as [|x l IH]; intros HS; [reflexivity|].
  inversion HS as [|? ? HS' Hhd]; subst. cbn [sort_by].
  rewrite IH by exact HS'. destruct Hhd as [|y l Hxy]; [reflexivity|].
  cbn [insert_by]. unfold ascending in Hxy.
  apply Z.leb_le in Hxy. rewrite Hxy. reflexivity.
Qed.

Lemma finish_distinct_sorted (l : list V) :
  NoDup (map key_of l) -> Sorted (ascending f) l ->
  sort_by f (dict_values (uniq_by key_of l)) = l.
Proof.
  intros ND HS. rewrite uniq_by_distinct by exact ND.
  unfold dict_values. rewrite map_map. simpl. rewrite map_id.
  apply sort_by_ascending. exact HS.
Qed.

Lemma finish_fixed (rows : list V) :
  let finish := fun l => sort_by f (dict_values (uniq_by key_of l)) in
  finish (finish rows) = finish rows.
Proof.
  intros finish. apply finish_distinct_sorted.
  - apply (finish_deduplicated _ key_of f rows).
  - apply sort_by_sorted.
Qed.

Lemma insert_by_filter (m : Z) (x : V) (l : list V) :
  filter (fun r => f r =? m) (insert_by f x l) =
  filter (fun r => f r =? m) (x :: l).
Proof.
  induction l as [|y l IH]; [reflexivity|]. cbn [insert_by].
  destruct (f x <=? f y) eqn:E; [reflexivity|].
  apply Z.leb_gt in E. cbn [filter] in *. rewrite IH.
  destruct (f x =? m) eqn:Ex, (f y =? m) eqn:Ey; try reflexivity.
  apply Z.eqb_eq in Ex, Ey. lia.
Qed.

Lemma sort_by_stable (m : Z) (l : list V) :
  filter (fun r => f r =? m) (sort_by f l) = filter (fun r => f r =? m) l.
Proof.
  induction l as [|x l IH]; [reflexivity|].
  cbn [sort_by]. rewrite insert_by_filter. cbn [filter]. rewrite IH.
  reflexivity.
Qed.

Lemma uniq_by_first_seen (l : list V) :
  map fst (uniq_by key_of l) = first_seen (map key_of l).
Proof.
  induction l as [|r l IH] using rev_ind; [reflexivity|].
  rewrite uniq_by_snoc, dict_set_keys, IH, map_app.
  unfold first_seen. rewrite fold_left_app. reflexivity.
Qed.

Lemma finish_order (m : Z) (rows : list V) :
  (forall r, snd (key_of r) = f r) ->
  filter (fun k : key => snd k =? m)
         (map key_of (sort_by f (dict_values (uniq_by key_of rows)))) =
  filter (fun k : key => snd k =? m) (first_seen (map key_of rows)).
Proof.
  intros Hkey.
  assert (forall l, filter (fun k : key => snd k =? m) (map key_of l) =
                    map key_of (filter (fun r => f r =? m) l)) as Hswap.
  { induction l as [|x l IH]; [reflexivity|]. cbn [map filter].
    rewrite Hkey, IH. destruct (f x =? m); reflexivity. }
  rewrite Hswap, sort_by_stable, <- Hswap, uniq_by_keys.
  rewrite uniq_by_first_seen. reflexivity.
Qed.
End Finish.

(** X11: rows with the same minutes keep the order in which their keys
    first came up.  At any minute count, the keys of the rows returned
    with it are the keys of the collected rows with it, each once, in
    the order of first appearance; this holds for both normalizers. *)
Theorem equal_minutes_keep_order_of_first_appearance (m : Z) :
  (forall rows : list path_row,
      filter (fun k : key => snd k =? m) (map path_key (path_finish rows)) =
      filter (fun k : key => snd k =? m) (first_seen (map path_key rows))) /\
  (forall out : list bus_row,
      filter (fun k : key => snd k =? m) (map bus_key (bus_finish out)) =
      filter (fun k : key => snd k =? m) (first_seen (map bus_key out))).
Proof.
  split; intros rows; apply finish_order; intros r; reflexivity.
Qed.

(** X12: lines 120-123 and 166-172 leave alone a list that needs nothing:
    rows whose keys are pairwise different and whose minutes are in
    non-decreasing order are returned as they are, in both normalizers;
    so applying these lines to their own result changes nothing. *)
Theorem distinct_sorted_rows_are_returned_as_they_are :
  (forall rows : list path_row,
      NoDup (map path_key rows) -> Sorted (ascending minutes) rows ->
      path_finish rows = rows) /\
  (forall out : list bus_row,
      NoDup (map bus_key out) -> Sorted (ascending bus_minutes) out ->
      bus_finish out = out) /\
  (forall rows, path_finish (path_finish rows) = path_finish rows) /\
  (forall out, bus_finish (bus_finish out) = bus_finish out).
Proof.
  split; [|split; [|split]].
  - intros rows. apply finish_distinct_sorted.
  - intros out. apply finish_distinct_sorted.
  - intros rows. apply (finish_fixed _ path_key minutes).
  - intros out. apply (finish_fixed _ bus_key bus_minutes).
Qed.

(** ** The bus page *)

(** X13: a page text in which the character # does not occur, the empty
    text among them, has no entry: the bus normalizer returns the empty
    list and does not raise. *)
Theorem page_without_hash_has_no_rows (page_text : string) :
  (forall c, In c (chars page_text) -> c <> "#"%char) ->
  bus_normalize page_text = Ok [].
Proof.
  intros H. unfold bus_normalize, bus_rows, finditer, finditer_matches.
  pose proof (finditer_skips (chars page_text) [] H 0%nat) as E.
  rewrite app_nil_r in E. rewrite E. reflexivity.
Qed.

Lemma lstrip_head (t : text) :
  match lstrip t with c :: _ => is_space c = false | [] => True end.
Proof.
  induction t as [|c t IH]; simpl; [exact I|].
  destruct (is_space c) eqn:E; [exact IH | exact E].
Qed.

Lemma lstrip_lstrip (t : text) : lstrip (lstrip t) = lstrip t.
Proof. apply lstrip_id. apply lstrip_head. Qed.

Lemma lstrip_snoc (t : text) (c : ascii) :
  is_space c = false -> lstrip (t ++ [c]) = lstrip t ++ [c].
Proof.
  intros Hc. induction t as [|x t IH]; simpl.
  - rewrite Hc. reflexivity.
  - destruct (is_space x); [exact IH | reflexivity].
Qed.

Lemma rstrip_keeps_head (t : text) :
  lstrip t = t -> lstrip (rstrip t) = rstrip t.
Proof.
  intros H. apply lstrip_id. destruct t as [|c t]; [exact I|].
  assert (is_space c = false) as Hc.
  { simpl in H. destruct (is_space c) eqn:E; [|reflexivity].
    exfalso. pose proof (f_equal (@List.length ascii) H) as HL.
    assert (forall u, List.length (lstrip u) <= List.length u)%nat as Hle.
    { clear. induction u as [|x u IH]; simpl; [lia|].
      destruct (is_space x); simpl; lia. }
    specialize (Hle t). simpl in HL. lia. }
  unfold rstrip. simpl. rewrite lstrip_snoc by exact Hc.
  rewrite rev_app_distr. simpl. exact Hc.
Qed.

Lemma strip_strip (t : text) : strip (strip t) = strip t.
Proof.
  unfold strip. rewrite (rstrip_keeps_head _ (lstrip_lstrip t)).
  unfold rstrip. rewrite rev_involutive, lstrip_lstrip. reflexivity.
Qed.

Lemma lstrip_Forall (P : ascii -> Prop) (t : text) :
  Forall P t -> Forall P (lstrip t).
Proof.
  induction 1 as [|c t Hc Ht IH]; simpl; [constructor|].
  destruct (is_space c); [exact IH | constructor; assumption].
Qed.

Lemma strip_Forall (P : ascii -> Prop) (t : text) :
  Forall P t -> Forall P (strip t).
Proof.
  intros H. unfold strip, rstrip.
  apply Forall_rev, lstrip_Forall, Forall_rev, lstrip_Forall. exact H.
Qed.

Lemma chars_pack (t : text) : chars (pack t) = t.
Proof. apply list_ascii_of_string_of_list_ascii. Qed.

(** X14: the texts of a bus row.  In every row the bus normalizer returns,
    [route] is a non-empty run of decimal digits, and [to] has no newline
    and has neither leading nor trailing white space: stripping it again
    changes nothing. *)
Theorem bus_rows_have_clean_texts
    (page_text : string) (rows : list bus_row) (r : bus_row) :
  bus_normalize page_text = Ok rows -> In r rows ->
  chars (route r) <> [] /\
  Forall (fun c => is_digit c = true) (chars (route r)) /\
  Forall (fun c => is_dot c = true) (chars (bus_to r)) /\
  strip (chars (bus_to r)) = chars (bus_to r).
Proof.
  intros H Hin. unfold bus_normalize in H.
  destruct (bus_rows_filter page_text) as (computed & _ & Hall & Hrows).
  rewrite Hrows in H. cbn [bind] in H. injection H as <-.
  unfold bus_finish in Hin. apply (proj1 (sort_by_In _ _ _ _)) in Hin.
  unfold dict_values in Hin. apply in_map_iff in Hin.
  destruct Hin as ([k v] & <- & Hin). apply uniq_by_In in Hin.
  destruct Hin as (_ & l1 & l2 & E & _). cbn [snd].
  assert (In v computed) as Hv.
  { assert (In v (filter (fun r => in_window (bus_minutes r)) computed)) as H
      by (rewrite E; apply in_elt).
    apply filter_In in H. apply H. }
  assert (exists m, In m (finditer pattern (chars page_text)) /\
                    bus_entry m = Ok (Some v)) as (m & Hm & Hentry).
  { clear - Hall Hv. induction Hall as [|m x ms xs Hmx _ IH];
      [destruct Hv|].
    destruct Hv as [->|Hv].
    - exists m. split; [left; reflexivity | exact Hmx].
    - destruct (IH Hv) as (m' & Hm' & He). exists m'.
      split; [right; exact Hm' | exact He]. }
  apply finditer_groups in Hm.
  destruct Hm as (r0 & t & e & -> & Hne & Hd & _ & Ht & _).
  unfold bus_entry in Hentry. simpl in Hentry.
  destruct (eta_minutes (upper (strip e))); [|discriminate].
  injection Hentry as <-. cbn [route bus_to]. rewrite !chars_pack.
  rewrite strip_digits by exact Hd.
  split; [exact Hne|]. split; [exact Hd|].
  split; [apply strip_Forall; exact Ht | apply strip_strip].
Qed.

(** ** The two fetches (lines 44-47 and 64-74) *)

Lemma raise_for_status_cases (r : response) :
  (400 <= status_code r < 600 /\
   raise_for_status r = Raise (HTTPError (status_code r))) \/
  (~ 400 <= status_code r < 600 /\ raise_for_status r = Ok tt).
Proof.
  unfold raise_for_status.
  destruct (400 <=? status_code r) eqn:E1;
    destruct (status_code r <? 600) eqn:E2; cbn [andb];
    [left | right | right | right]; (split; [|reflexivity]);
    rewrite ?Z.leb_le, ?Z.leb_gt, ?Z.ltb_lt, ?Z.ltb_ge in *; lia.
Qed.

(** X15: when the page of a stop is returned.  [_get_html] returns a text
    exactly when the priming request to the home page comes back, with
    whatever status, and the request for the page, sent with the browser
    headers and the home page as Referer, comes back with a status
    outside 400..599; the text is then the body of the second response. *)
Theorem page_is_returned_iff (url page : string) :
  _get_html url = Ok page <->
  exists primed r,
    session_get MYBUS_HOME BROWSER_HEADERS = Ok primed /\
    session_get url (header_set "Referer" MYBUS_HOME BROWSER_HEADERS)
    = Ok r /\
    ~ 400 <= status_code r < 600 /\ page = body r.
Proof.
  unfold _get_html. split.
  - destruct (session_get MYBUS_HOME BROWSER_HEADERS) as [primed|e];
      [|discriminate].
    cbn [bind]. destruct (session_get url _) as [r|e]; [|discriminate].
    cbn [bind].
    destruct (raise_for_status_cases r) as [[_ E]|[Hs E]]; rewrite E;
      [discriminate|].
    cbn [bind]. intros [= <-]. exists primed, r. auto.
  - intros (primed & r & -> & -> & Hs & ->). cbn [bind].
    destruct (raise_for_status_cases r) as [[Hs' _]|[_ E]];
      [contradiction|].
    rewrite E. reflexivity.
Qed.


(** X17: when the feed document is returned.  [_get_json] returns a
    document exactly when the request comes back with a status outside
    400..599 and its body decodes to that document; with a status in
    400..599 it raises the [HTTPError] of the status and the body is not
    looked at, whatever it decodes to. *)
Theorem document_is_returned_iff (url : string) :
  (forall doc,
      _get_json url = Ok doc <->
      exists r,
        requests_get url = Ok r /\ ~ 400 <= status_code r < 600 /\
        json_of_body (body r) = Ok doc) /\
  (forall r,
      requests_get url = Ok r -> 400 <= status_code r < 600 ->
      _get_json url = Raise (HTTPError (status_code r))).
Proof.
  unfold _get_json. split.
  - intros doc. split.
    + destruct (requests_get url) as [r|e]; [|discriminate]. cbn [bind].
      destruct (raise_for_status_cases r) as [[_ E]|[Hs E]]; rewrite E;
        [discriminate|].
      cbn [bind]. intros H. exists r. auto.
    + intros (r & -> & Hs & H). cbn [bind].
      destruct (raise_for_status_cases r) as [[Hs' _]|[_ E]];
        [contradiction|].
      rewrite E. exact H.
  - intros r -> Hs. cbn [bind].
    destruct (raise_for_status_cases r) as [[_ E]|[Hs' _]];
      [|contradiction].
    rewrite E. reflexivity.
Qed.

(** ** What a column shows (lines 175-192 and 216-243) *)

Lemma render_rows_path_entries (rows : list path_row) :
  fst (out_for_each (render_row KindPath) (map OfPath rows)) =
  map path_line rows.
Proof.
  induction rows as [|r rows IH]; [reflexivity|].
  cbn [map out_for_each].
  rewrite (out_bind_ok _ _ _ _ _ tt) by reflexivity.
  cbn [fst]. rewrite IH. reflexivity.
Qed.

Lemma render_rows_bus_entries (rows : list bus_row) :
  fst (out_for_each (render_row KindBus) (map OfBus rows)) =
  map bus_line rows.
Proof.
  induction rows as [|r rows IH]; [reflexivity|].
  cbn [map out_for_each].
  rewrite (out_bind_ok _ _ _ _ _ tt) by reflexivity.
  cbn [fst]. rewrite IH. reflexivity.
Qed.

(** X18: [render_list] writes the subheader first, then one entry for
    each row, in the order of the list, each with the labels and the
    minutes of its row and the clock text of those minutes; for the empty
    list it writes the notice instead, and it never raises on the rows of
    its own kind. *)
Theorem render_list_writes_one_entry_per_row (title : string) :
  (forall rows : list path_row,
      render_list title (map OfPath rows) KindPath =
      (listing title (map path_line rows), Ok tt)) /\
  (forall rows : list bus_row,
      render_list title (map OfBus rows) KindBus =
      (listing title (map bus_line rows), Ok tt)).
Proof.
  split; intros rows; apply injective_projections; cbn [fst snd];
    try apply render_list_path; try apply render_list_bus;
    unfold render_list; rewrite (out_bind_ok _ _ _ _ _ tt) by reflexivity;
    unfold listing; destruct rows as [|r rows]; try reflexivity.
  - change (map OfPath (r :: rows)) with (OfPath r :: map OfPath rows).
    cbv iota. change (OfPath r :: map OfPath rows)
      with (map OfPath (r :: rows)).
    rewrite render_rows_path_entries. reflexivity.
  - change (map OfBus (r :: rows)) with (OfBus r :: map OfBus rows).
    cbv iota. change (OfBus r :: map OfBus rows)
      with (map OfBus (r :: rows)).
    rewrite render_rows_bus_entries. reflexivity.
Qed.

Lemma path_panel_events :
  fst path_panel =
  map (pair col1)
      (match parse_path_realtime with
       | Ok rows => listing PATH_TITLE (map path_line rows)
       | Raise e => [Subheader PATH_TITLE; Error "PATH fetch failed: " e]
       end).
Proof.
  pose proof path_panel_cases as H.
  destruct parse_path_realtime as [rows|e]; rewrite H; [|reflexivity].
  cbn [fst]. f_equal. unfold render_list.
  rewrite (out_bind_ok _ _ _ _ _ tt) by reflexivity.
  unfold listing. destruct rows as [|r rows]; [reflexivity|].
  change (map OfPath (r :: rows)) with (OfPath r :: map OfPath rows).
  cbv iota. change (OfPath r :: map OfPath rows)
    with (map OfPath (r :: rows)).
  rewrite render_rows_path_entries. reflexivity.
Qed.

Lemma bus_panel_events (c : column) (url title : string) :
  fst (bus_panel c url title) =
  map (pair c)
      (match parse_njt_mybus url with
       | Ok rows => listing title (map bus_line rows)
       | Raise e => [Subheader title; Error "MyBus fetch failed: " e]
       end).
Proof.
  pose proof (bus_panel_cases c url title) as H.
  destruct (parse_njt_mybus url) as [rows|e]; rewrite H; [|reflexivity].
  cbn [fst]. f_equal. unfold render_list.
  rewrite (out_bind_ok _ _ _ _ _ tt) by reflexivity.
  unfold listing. destruct rows as [|r rows]; [reflexivity|].
  change (map OfBus (r :: rows)) with (OfBus r :: map OfBus rows).
  cbv iota. change (OfBus r :: map OfBus rows)
    with (map OfBus (r :: rows)).
  rewrite render_rows_bus_entries. reflexivity.
Qed.

Lemma shown_minutes_entries (A : Type) (c : column) (entry : A -> widget)
    (f : A -> Z) (title : string) (rows : list A) :
  (forall r, exists l d t k, entry r = Entry l d t (f r) k) ->
  shown_minutes (map (pair c) (listing title (map entry rows))) =
  map f rows.
Proof.
  intros Hentry. unfold listing.
  assert (shown_minutes (map (pair c) (map entry rows)) = map f rows) as H.
  { induction rows as [|r rows IH]; [reflexivity|].
    cbn [map shown_minutes flat_map snd].
    destruct (Hentry r) as (l & d & t & k & ->).
    unfold shown_minutes in IH. rewrite IH. reflexivity. }
  destruct rows as [|r rows]; [reflexivity|]. exact H.
Qed.

Lemma Sorted_map_minutes (A : Type) (f : A -> Z) (l : list A) :
  Sorted (ascending f) l -> Sorted Z.le (map f l).
Proof.
  induction 1 as [|x l HS IH Hhd]; cbn [map]; constructor; [exact IH|].
  destruct Hhd; constructor. assumption.
Qed.

Lemma path_rows_in_window (data : json) (rows : list path_row) :
  path_normalize data = Ok rows ->
  Forall (fun r => 0 <= minutes r <= MAX_WINDOW_MIN) rows.
Proof.
  intros H. unfold path_normalize in H.
  pose proof (path_rows_related data) as HR.
  destruct (path_rows data) as [kept|e]; [|discriminate].
  destruct (path_computed data) as [computed|e]; [|contradiction].
  cbn [related] in HR. unfold kept_of in HR. subst kept.
  cbn [bind] in H. injection H as <-. apply Forall_forall.
  apply (finish_window _ path_key minutes computed).
  intros [] []. unfold path_key. simpl. congruence.
Qed.

Lemma bus_rows_in_window (page_text : string) (rows : list bus_row) :
  bus_normalize page_text = Ok rows ->
  Forall (fun r => 0 <= bus_minutes r <= MAX_WINDOW_MIN) rows.
Proof.
  intros H. unfold bus_normalize in H.
  destruct (bus_rows_filter page_text) as (computed & _ & _ & E).
  rewrite E in H. cbn [bind] in H. injection H as <-. apply Forall_forall.
  apply (finish_window _ bus_key bus_minutes computed).
  intros [] []. unfold bus_key. simpl. congruence.
Qed.

(** X19: what the reader of a column sees.  Whatever the network returns,
    the minute counts of the entries of each column, read from top to
    bottom, never decrease, and each lies between 0 and the window. *)
Theorem columns_show_minutes_in_order_within_the_window :
  (Sorted Z.le (shown_minutes (fst path_panel)) /\
   Forall (fun m => 0 <= m <= MAX_WINDOW_MIN)
          (shown_minutes (fst path_panel))) /\
  (forall c url title,
      Sorted Z.le (shown_minutes (fst (bus_panel c url title))) /\
      Forall (fun m => 0 <= m <= MAX_WINDOW_MIN)
             (shown_minutes (fst (bus_panel c url title)))).
Proof.
  split.
  - rewrite path_panel_events.
    destruct parse_path_realtime as [rows|e] eqn:E;
      [|split; constructor].
    rewrite (shown_minutes_entries _ col1 path_line minutes)
      by (intros r; unfold path_line; eauto 6).
    unfold parse_path_realtime in E.
    destruct (_get_json PATH_URL) as [data|e]; [|discriminate].
    cbn [bind] in E. split.
    + apply Sorted_map_minutes. unfold path_normalize in E.
      destruct (path_rows data) as [kept|e]; [|discriminate].
      cbn [bind] in E. injection E as <-. apply sort_by_sorted.
    + apply Forall_map. apply (path_rows_in_window data). exact E.
  - intros c url title. rewrite bus_panel_events.
    destruct (parse_njt_mybus url) as [rows|e] eqn:E;
      [|split; constructor].
    rewrite (shown_minutes_entries _ c bus_line bus_minutes)
      by (intros r; unfold bus_line; eauto 6).
    unfold parse_njt_mybus in E.
    destruct (_get_html url) as [html|e]; [|discriminate].
    cbn [bind] in E. split.
    + apply Sorted_map_minutes. unfold bus_normalize in E.
      destruct (bus_rows (get_text html)) as [kept|e]; [|discriminate].
      cbn [bind] in E. injection E as <-. apply sort_by_sorted.
    + apply Forall_map. apply (bus_rows_in_window (get_text html)).
      exact E.
Qed.

Lemma listing_widgets (A : Type) (entry : A -> widget) (title : string)
    (rows : list A) (w : widget) :
  (forall r, exists l d t m k, entry r = Entry l d t m k) ->
  In w (listing title (map entry rows)) ->
  w = Subheader title \/
  (rows = [] /\
   w = Notice
     "No upcoming departures found (or source temporarily unavailable).") \/
  (rows <> [] /\ exists l d t m k, w = Entry l d t m k).
Proof.
  intros Hentry [<-|H]; [left; reflexivity | right].
  destruct rows as [|r rows].
  - left. destruct H as [<-|[]]. split; reflexivity.
  - right. split; [discriminate|]. apply in_map_iff in H.
    destruct H as (x & <- & _). apply Hentry.
Qed.

(** X20: what a column shows tells how its pipeline ended.  A column
    shows an error exactly when its pipeline raised, the error being that
    exception under the prefix of the panel; it shows the notice exactly
    when the pipeline returned the empty list; and it shows entries
    exactly when the pipeline returned rows. *)
Theorem column_tells_how_its_pipeline_ended :
  ((forall p e,
       In (col1, Error p e) (fst path_panel) <->
       p = "PATH fetch failed: " /\ parse_path_realtime = Raise e) /\
   (forall msg,
       In (col1, Notice msg) (fst path_panel) <->
       msg = "No upcoming departures found (or source temporarily unavailable)."
       /\ parse_path_realtime = Ok []) /\
   ((exists l d t m k, In (col1, Entry l d t m k) (fst path_panel)) <->
    exists r rows, parse_path_realtime = Ok (r :: rows))) /\
  (forall c url title,
      (forall p e,
          In (c, Error p e) (fst (bus_panel c url title)) <->
          p = "MyBus fetch failed: " /\ parse_njt_mybus url = Raise e) /\
      (forall msg,
          In (c, Notice msg) (fst (bus_panel c url title)) <->
          msg =
          "No upcoming departures found (or source temporarily unavailable)."
          /\ parse_njt_mybus url = Ok []) /\
      ((exists l d t m k,
           In (c, Entry l d t m k) (fst (bus_panel c url title))) <->
       exists r rows, parse_njt_mybus url = Ok (r :: rows))).
Proof.
  assert (forall (c : column) (w : widget) ws,
             In (c, w) (map (pair c) ws) <-> In w ws) as Hcol.
  { intros c w ws. rewrite in_map_iff. split.
    - intros (x & [= <-] & H). exact H.
    - intros H. exists w. auto. }
  assert (forall r, exists l d t m k, path_line r = Entry l d t m k) as HP
    by (intros r; unfold path_line; eauto 7).
  assert (forall r, exists l d t m k, bus_line r = Entry l d t m k) as HB
    by (intros r; unfold bus_line; eauto 7).
  split.
  - rewrite path_panel_events.
    destruct parse_path_realtime as [rows|e0]; (split; [|split]).
    + intros p e. rewrite Hcol. split; [|intros [_ [=]]].
      intros H. apply (listing_widgets _ _ _ _ _ HP) in H.
      destruct H as [[=]|[[_ [=]]|[_ (l & d & t & m & k & [=])]]].
    + intros msg. rewrite Hcol. split.
      * intros H. apply (listing_widgets _ _ _ _ _ HP) in H.
        destruct H as [[=]|[[-> [= ->]]|[_ (l & d & t & m & k & [=])]]].
        split; reflexivity.
      * intros [-> [= ->]]. right. left. reflexivity.
    + split.
      * intros (l & d & t & m & k & H). apply Hcol in H.
        apply (listing_widgets _ _ _ _ _ HP) in H.
        destruct H as [[=]|[[_ [=]]|[Hne _]]].
        destruct rows as [|r rows]; [congruence|]. eauto.
      * intros (r & rows' & [= ->]).
        destruct (HP r) as (l & d & t & m & k & E).
        exists l, d, t, m, k. apply Hcol. right. left. exact E.
    + intros p e. rewrite Hcol. split.
      * intros [[=]|[[= <- <-]|[]]]. split; reflexivity.
      * intros [-> [= ->]]. right. left. reflexivity.
    + intros msg. rewrite Hcol. split; [|intros [_ [=]]].
      intros [[=]|[[=]|[]]].
    + split; [|intros (r & rows' & [=])].
      intros (l & d & t & m & k & H). apply Hcol in H.
      destruct H as [[=]|[[=]|[]]].
  - intros c url title. rewrite bus_panel_events.
    destruct (parse_njt_mybus url) as [rows|e0]; (split; [|split]).
    + intros p e. rewrite Hcol. split; [|intros [_ [=]]].
      intros H. apply (listing_widgets _ _ _ _ _ HB) in H.
      destruct H as [[=]|[[_ [=]]|[_ (l & d & t & m & k & [=])]]].
    + intros msg. rewrite Hcol. split.
      * intros H. apply (listing_widgets _ _ _ _ _ HB) in H.
        destruct H as [[=]|[[-> [= ->]]|[_ (l & d & t & m & k & [=])]]].
        split; reflexivity.
      * intros [-> [= ->]]. right. left. reflexivity.
    + split.
      * intros (l & d & t & m & k & H). apply Hcol in H.
        apply (listing_widgets _ _ _ _ _ HB) in H.
        destruct H as [[=]|[[_ [=]]|[Hne _]]].
        destruct rows as [|r rows]; [congruence|]. eauto.
      * intros (r & rows' & [= ->]).
        destruct (HB r) as (l & d & t & m & k & E).
        exists l, d, t, m, k. apply Hcol. right. left. exact E.
    + intros p e. rewrite Hcol. split.
      * intros [[=]|[[= <- <-]|[]]]. split; reflexivity.
      * intros [-> [= ->]]. right. left. reflexivity.
    + intros msg. rewrite Hcol. split; [|intros [_ [=]]].
      intros [[=]|[[=]|[]]].
    + split; [|intros (r & rows' & [=])].
      intros (l & d & t & m & k & H). apply Hcol in H.
      destruct H as [[=]|[[=]|[]]].
Qed.

(** ** The window of the slider (lines 198-209) *)

(** X21: whatever value the slider is set to, a computed row that is at
    most 30 minutes away has its key in the list returned, and no row
    returned is more than 240 minutes away; this holds for both
    normalizers. *)
Theorem slider_always_keeps_half_an_hour_never_beyond_four_hours :
  slider_value MAX_WINDOW_MIN ->
  (forall data computed,
      path_computed data = Ok computed ->
      exists rows,
        path_normalize data = Ok rows /\
        (forall r, In r computed -> 0 <= minutes r <= 30 ->
                   exists r', In r' rows /\ path_key r' = path_key r) /\
        (forall r, In r rows -> minutes r <= 240)) /\
  (forall page_text,
      exists computed rows,
        bus_computed page_text = Ok computed /\
        bus_normalize page_text = Ok rows /\
        (forall r, In r computed -> 0 <= bus_minutes r <= 30 ->
                   exists r', In r' rows /\ bus_key r' = bus_key r) /\
        (forall r, In r rows -> bus_minutes r <= 240)).
Proof.
  intros [Hw _]. split.
  - intros data computed Hc.
    pose proof (path_rows_related data) as H. rewrite Hc in H.
    unfold path_normalize.
    destruct (path_rows data) as [kept|e]; simpl in H; [|contradiction].
    rewrite H. cbn [bind]. eexists. split; [reflexivity|].
    destruct (finish_window _ path_key minutes computed) as [H1 H2].
    { intros [] []. unfold path_key. simpl. congruence. }
    split.
    + intros r Hr Hm. apply (H2 r Hr). lia.
    + intros r Hr. apply H1 in Hr. lia.
  - intros page_text.
    destruct (bus_rows_filter page_text) as (computed & Hc & _ & Hrows).
    exists computed. unfold bus_normalize. rewrite Hrows. cbn [bind].
    eexists. split; [exact Hc|]. split; [reflexivity|].
    destruct (finish_window _ bus_key bus_minutes computed) as [H1 H2].
    { intros [] []. unfold bus_key. simpl. congruence. }
    split.
    + intros r Hr Hm. apply (H2 r Hr). lia.
    + intros r Hr. apply H1 in Hr. lia.
Qed.

(** ** The clock text (lines 35-42) *)

Lemma hour12_range (h : Z) : 1 <= hour12 h <= 12.
Proof.
  unfold hour12. pose proof (Z.mod_pos_bound h 12 ltac:(lia)).
  destruct (h mod 12 =? 0) eqn:E; [lia|]. apply Z.eqb_neq in E. lia.
Qed.

(** X22: the clock text never begins with a zero and is never empty: for
    every clock and every number of minutes, negative ones included, for
    which the date stays within what [datetime] holds, it begins with a
    digit from 1 to 9, the first digit of the hour on the 12-hour dial. *)
Theorem clock_text_begins_with_a_digit_that_is_not_zero
    (am pm : string) (now_hour now_minute minutes : Z) :
  exists d rest,
    chars (format_time_from_minutes_at am pm now_hour now_minute minutes)
    = d :: rest /\
    is_digit d = true /\ d <> "0"%char.
Proof.
  unfold format_time_from_minutes_at. rewrite chars_pack.
  set (h := (now_hour * 60 + now_minute + minutes) mod 1440 / 60).
  pose proof (hour12_range h) as Hr.
  assert (hour12 h = 1 \/ hour12 h = 2 \/ hour12 h = 3 \/ hour12 h = 4 \/
          hour12 h = 5 \/ hour12 h = 6 \/ hour12 h = 7 \/ hour12 h = 8 \/
          hour12 h = 9 \/ hour12 h = 10 \/ hour12 h = 11 \/ hour12 h = 12)
    as Hc by lia.
  repeat (destruct Hc as [Hc|Hc]); rewrite Hc; cbn [two_digits app];
    eexists; eexists; (split; [reflexivity|]);
    (split; [reflexivity | discriminate]).
Qed.

Lemma half_day_later (x : Z) :
  let q := x mod 1440 in
  let q' := (x + 720) mod 1440 in
  q' mod 60 = q mod 60 /\
  hour12 (q' / 60) = hour12 (q / 60) /\
  (q' / 60 <? 12) = negb (q / 60 <? 12).
Proof.
  intros q q'.
  assert (0 <= q < 1440) as Hq by (apply Z.mod_pos_bound; lia).
  assert (q' = if q <? 720 then q + 720 else q - 720) as ->.
  { unfold q', q. destruct (x mod 1440 <? 720) eqn:E;
      [apply Z.ltb_lt in E | apply Z.ltb_ge in E].
    - symmetry. apply (Z.mod_unique_pos _ _ (x / 1440)).
      + pose proof (Z.mod_pos_bound x 1440 ltac:(lia)). lia.
      + pose proof (Z.div_mod x 1440 ltac:(lia)). lia.
    - symmetry. apply (Z.mod_unique_pos _ _ (x / 1440 + 1)).
      + pose proof (Z.mod_pos_bound x 1440 ltac:(lia)). lia.
      + pose proof (Z.div_mod x 1440 ltac:(lia)). lia. }
  assert (q = 60 * (q / 60) + q mod 60) as Hd by (apply Z.div_mod; lia).
  assert (0 <= q mod 60 < 60) as Hm by (apply Z.mod_pos_bound; lia).
  assert (0 <= q / 60 < 24) as Hh by lia.
  destruct (q <? 720) eqn:E; [apply Z.ltb_lt in E | apply Z.ltb_ge in E].
  - assert ((q + 720) / 60 = q / 60 + 12) as Hdiv.
    { symmetry. apply (Z.div_unique_pos _ _ _ (q mod 60)); lia. }
    assert ((q + 720) mod 60 = q mod 60) as Hmod.
    { symmetry. apply (Z.mod_unique_pos _ _ (q / 60 + 12)); lia. }
    rewrite Hdiv, Hmod. split; [reflexivity|]. split.
    + unfold hour12.
      replace ((q / 60 + 12) mod 12) with ((q / 60) mod 12); [reflexivity|].
      rewrite <- (Z.mod_add (q / 60) 1 12) by lia. reflexivity.
    + assert (q / 60 < 12) as Hlt by lia.
      apply Z.ltb_lt in Hlt. rewrite Hlt.
      apply Z.ltb_ge. lia.
  - assert ((q - 720) / 60 = q / 60 - 12) as Hdiv.
    { symmetry. apply (Z.div_unique_pos _ _ _ (q mod 60)); lia. }
    assert ((q - 720) mod 60 = q mod 60) as Hmod.
    { symmetry. apply (Z.mod_unique_pos _ _ (q / 60 - 12)); lia. }
    rewrite Hdiv, Hmod. split; [reflexivity|]. split.
    + unfold hour12.
      replace (q / 60 mod 12) with ((q / 60 - 12) mod 12); [reflexivity|].
      rewrite <- (Z.mod_add (q / 60 - 12) 1 12) by lia. f_equal; lia.
    + assert (12 <= q / 60) as Hge by lia.
      apply Z.ltb_ge in Hge. rewrite Hge.
      apply Z.ltb_lt. lia.
Qed.

(** X23: twelve hours later the clock text is the same with the other
    half of the day: adding 720 minutes exchanges the two texts of the
    locale for before and after noon and changes nothing else; so adding
    a whole day, 1440 minutes, changes nothing at all. *)
Theorem half_a_day_later_only_the_half_changes
    (am pm : string) (now_hour now_minute minutes : Z) :
  format_time_from_minutes_at am pm now_hour now_minute (minutes + 720) =
  format_time_from_minutes_at pm am now_hour now_minute minutes /\
  format_time_from_minutes_at am pm now_hour now_minute (minutes + 1440) =
  format_time_from_minutes_at am pm now_hour now_minute minutes.
Proof.
  assert (forall a p m,
             format_time_from_minutes_at a p now_hour now_minute (m + 720) =
             format_time_from_minutes_at p a now_hour now_minute m) as H.
  { intros a p m. unfold format_time_from_minutes_at.
    replace (now_hour * 60 + now_minute + (m + 720))
      with (now_hour * 60 + now_minute + m + 720) by lia.
    destruct (half_day_later (now_hour * 60 + now_minute + m))
      as (Hm & Hh & Hlt).
    cbv zeta. rewrite Hm, Hh, Hlt.
    destruct ((now_hour * 60 + now_minute + m) mod 1440 / 60 <? 12);
      reflexivity. }
  split; [apply H|].
  replace (minutes + 1440) with (minutes + 720 + 720) by lia.
  rewrite H, H. reflexivity.
Qed.

End Dashboard.

(** * The properties on the samples *)

(** The round trip of C1 on a feed whose one message arrives at 12:05:30
    UTC, read at 12:00:00 UTC. *)
Lemma one_message_round_trip_witness :
  parse_path_realtime DEFAULT_MAX_WINDOW_MIN sample_now iso_seconds_format
    sample_repr
    sample_requests_get
    (decoded_as (one_message_document "2024-03-01T12:05:30Z"))
  = Ok [PathRow "PATH" "33rd Street" 5 (one_message "2024-03-01T12:05:30Z")].
Proof.
  apply (one_message_round_trip DEFAULT_MAX_WINDOW_MIN sample_now
           iso_seconds_format sample_repr
           sample_requests_get
           (decoded_as (one_message_document "2024-03-01T12:05:30Z"))
           "2024-03-01T12:05:30" 1709294730000000).
  - vm_compute. reflexivity.
  - unfold sample_now. lia.
  - unfold slider_value, DEFAULT_MAX_WINDOW_MIN. split; [lia | reflexivity].
  - reflexivity.
Defined.

(** What C2 says of every text fails on a text in which the phrase follows
    an unfinished entry: the one match begins at the first "#", and its
    row is not the expected one. *)
Lemma phrase_after_unfinished_entry_counterexample :
  bus_normalize 240 page_with_unfinished_entry
  = Ok [BusRow "1" "#126 To" 126] /\
  ~ (exists rows,
        bus_normalize 240 page_with_unfinished_entry = Ok rows /\
        In row_13_min rows).
Proof.
  split; [vm_compute; reflexivity|].
  intros (rows & H & Hin).
  assert (rows = [BusRow "1" "#126 To" 126]) as ->
    by (vm_compute in H; congruence).
  destruct Hin as [Hin|[]]. discriminate Hin.
Qed.

(** C2 as amended, on a page on which complete entries precede the phrase,
    and on one that begins with a stop name. *)
Lemma phrase_clear_of_earlier_matches_yields_row_witness :
  (exists rows,
      bus_normalize 30 (page_before_phrase ++ phrase_13_min ++ " #22 To")
      = Ok rows /\ In row_13_min rows) /\
  (exists rows,
      bus_normalize 30 (page_before_phrase ++ phrase_due ++ " #22 To")
      = Ok rows /\ In row_due rows) /\
  (exists rows,
      bus_normalize 30 (page_before_phrase ++ phrase_less_than_1 ++ " #22 To")
      = Ok rows /\ In row_less_than_1 rows) /\
  clear_before "Stop 20513 " ("Stop 20513 " ++ phrase_13_min).
Proof.
  assert (slider_value 30) as Hw
    by (unfold slider_value; split; [lia | reflexivity]).
  destruct (phrase_clear_of_earlier_matches_yields_row 30 page_before_phrase
              " #22 To" Hw) as (H1 & H2 & H3 & _).
  destruct (phrase_clear_of_earlier_matches_yields_row 30 "Stop 20513 "
              "" Hw) as (_ & _ & _ & H4 & _).
  split; [|split; [|split]].
  - apply H1. intros m Hm. vm_compute in Hm.
    repeat (destruct Hm as [<-|Hm]; [vm_compute; intros Hlt; lia|]).
    destruct Hm.
  - apply H2. intros m Hm. vm_compute in Hm.
    repeat (destruct Hm as [<-|Hm]; [vm_compute; intros Hlt; lia|]).
    destruct Hm.
  - apply H3. intros m Hm. vm_compute in Hm.
    repeat (destruct Hm as [<-|Hm]; [vm_compute; intros Hlt; lia|]).
    destruct Hm.
  - apply H4. intros c H. vm_compute in H.
    repeat (destruct H as [<-|H]; [discriminate|]). destruct H.
Defined.


(** C4 on the samples, with the window at 30 minutes: the rows with 45
    minutes are computed and not returned. *)
Lemma window_is_inclusive_bound_witness :
  (exists rows,
      path_normalize 30 sample_now iso_seconds_format sample_repr
        sample_document = Ok rows /\
      (forall r, In r rows -> 0 <= minutes r <= 30) /\
      (forall r, In r sample_path_computed ->
         ((exists r', In r' rows /\ path_key r' = path_key r) <->
          0 <= minutes r <= 30)) /\
      (forall r, 30 = 30 -> minutes r = 45 -> ~ In r rows)) /\
  (exists rows,
      bus_normalize 30 sample_page = Ok rows /\
      (forall r, In r rows -> 0 <= bus_minutes r <= 30) /\
      (forall r, In r sample_bus_computed ->
         (In r rows <-> 0 <= bus_minutes r <= 30)) /\
      (forall r, 30 = 30 -> bus_minutes r = 45 -> ~ In r rows)).
Proof.
  destruct (window_is_inclusive_bound 30 sample_now iso_seconds_format
              sample_repr) as [Hpath Hbus].
  split.
  - apply (Hpath sample_document sample_path_computed). reflexivity.
  - destruct (Hbus sample_page) as (computed & rows & Hc & Hrest).
    assert (computed = sample_bus_computed) as ->
      by (vm_compute in Hc; injection Hc as <-; reflexivity).
    exists rows. exact Hrest.
Defined.

(** C5 on the samples: of the two PATH rows with key (33rd, 33rd Street,
    12) the later one is returned. *)
Lemma keys_unique_last_wins_witness :
  deduplicated path_key sample_path_collected sample_path_rows /\
  deduplicated bus_key sample_bus_collected sample_bus_rows.
Proof.
  destruct (keys_unique_last_wins 30 sample_now iso_seconds_format sample_repr
              sample_requests_get sample_session_get
              (decoded_as sample_document) (extracted_as sample_page))
    as [Hpath Hbus].
  split.
  - destruct (Hpath sample_path_rows) as (collected & Hc & Hd).
    + vm_compute. reflexivity.
    + assert (collected = sample_path_collected) as <-
        by (vm_compute in Hc; injection Hc as <-; reflexivity).
      exact Hd.
  - destruct (Hbus MYBUS_11TH_WASH sample_bus_rows) as (collected & Hc & Hd).
    + vm_compute. reflexivity.
    + assert (collected = sample_bus_collected) as <-
        by (vm_compute in Hc; injection Hc as <-; reflexivity).
      exact Hd.
Defined.

(** C6 on the samples. *)
Lemma rows_sorted_by_minutes_witness :
  Sorted (fun a b => minutes a <= minutes b) sample_path_rows /\
  Sorted (fun a b => bus_minutes a <= bus_minutes b) sample_bus_rows.
Proof.
  destruct (rows_sorted_by_minutes 30 sample_now iso_seconds_format sample_repr
              sample_requests_get sample_session_get
              (decoded_as sample_document) (extracted_as sample_page))
    as [Hpath Hbus].
  split.
  - apply (Hpath sample_path_rows). vm_compute. reflexivity.
  - apply (Hbus MYBUS_11TH_WASH sample_bus_rows). vm_compute. reflexivity.
Defined.

(** C7 on a page without arrivals, on a network that is down, and on a
    server that answers 503. *)
Lemma no_match_gives_empty_list_witness :
  parse_njt_mybus DEFAULT_MAX_WINDOW_MIN sample_session_get
    (extracted_as "No arrival times available.") MYBUS_11TH_WASH = Ok [] /\
  parse_njt_mybus DEFAULT_MAX_WINDOW_MIN down_session_get
    (extracted_as sample_page)
    MYBUS_11TH_WASH = Raise (RequestException "connection refused") /\
  parse_njt_mybus DEFAULT_MAX_WINDOW_MIN
    (fun _ _ => Ok (Response 503 "Service Unavailable"))
    (extracted_as sample_page) MYBUS_11TH_WASH = Raise (HTTPError 503).
Proof.
  split; [|split].
  - destruct (no_match_gives_empty_list DEFAULT_MAX_WINDOW_MIN
                sample_session_get
                (extracted_as "No arrival times available.")
                MYBUS_11TH_WASH) as [H _].
    apply (H "(page)"); reflexivity.
  - destruct (no_match_gives_empty_list DEFAULT_MAX_WINDOW_MIN down_session_get
                (extracted_as sample_page) MYBUS_11TH_WASH)
      as (_ & _ & H & _).
    apply H. reflexivity.
  - destruct (no_match_gives_empty_list DEFAULT_MAX_WINDOW_MIN
                (fun _ _ => Ok (Response 503 "Service Unavailable"))
                (extracted_as sample_page) MYBUS_11TH_WASH)
      as (_ & _ & _ & _ & H & _).
    apply (H (Response 503 "Service Unavailable")
             (Response 503 "Service Unavailable")).
    + reflexivity.
    + reflexivity.
    + simpl. lia.
Defined.

(** C8 with the PATH feed down and the bus pages up: the first column
    holds the error, the other two their rows. *)
Lemma panel_failures_are_isolated_witness :
  fst (path_panel 30 sample_now iso_seconds_format sample_repr
         down_requests_get (decoded_as sample_document) sample_clock)
  = [(col1, Subheader PATH_TITLE);
     (col1, Error "PATH fetch failed: "
                  (RequestException "connection refused"))] /\
  fst (bus_panel 30 sample_session_get (extracted_as sample_page)
         sample_clock col2 MYBUS_11TH_WASH BUS11_TITLE)
  = map (pair col2)
        (fst (render_list sample_clock BUS11_TITLE (map OfBus sample_bus_rows)
                KindBus)).
Proof.
  destruct (panel_failures_are_isolated 30 sample_now iso_seconds_format
              sample_repr down_requests_get sample_session_get
              (decoded_as sample_document) (extracted_as sample_page)
              sample_clock) as (_ & Hdown & _ & _ & Hup & _).
  split.
  - apply Hdown. reflexivity.
  - apply Hup. vm_compute. reflexivity.
Defined.



(** * The further properties on the samples *)

(** X1 on a feed with the station of Newark before that of Hoboken. *)
Lemma other_stations_are_ignored_witness :
  path_normalize 30 sample_now iso_seconds_format sample_repr
    (JDict two_station_feed) =
  path_normalize 30 sample_now iso_seconds_format sample_repr
    sample_document.
Proof.
  apply (other_stations_are_ignored 30 sample_now iso_seconds_format
           sample_repr two_station_feed
           [("results", JList [hoboken_station])] newark_station []
           [hoboken_station]); reflexivity.
Defined.

(** X2 on a document without [results], and on [sample_document] with a
    station and a destination more that have no list. *)
Lemma missing_lists_give_no_rows_witness :
  path_normalize 30 sample_now iso_seconds_format sample_repr
    (JDict [("status", JStr "ok")]) = Ok [] /\
  path_normalize 30 sample_now iso_seconds_format sample_repr
    (JDict [("results",
             JList [JDict [("consideredStation", JStr "HOB")];
                    hoboken_station])]) =
  path_normalize 30 sample_now iso_seconds_format sample_repr
    sample_document /\
  path_station 30 sample_now iso_seconds_format sample_repr []
    (JDict [("consideredStation", JStr "HOB");
            ("destinations", JList [JDict dest_33rd;
                                    JDict dest_with_stray_message])]) =
  path_station 30 sample_now iso_seconds_format sample_repr []
    (JDict [("consideredStation", JStr "HOB");
            ("destinations", JList [JDict dest_with_stray_message])]).
Proof.
  destruct (missing_lists_give_no_rows 30 sample_now iso_seconds_format
              sample_repr) as (H1 & H2 & H3).
  split; [|split].
  - apply H1. reflexivity.
  - apply (H2 _ [("results", JList [hoboken_station])]
              [("consideredStation", JStr "HOB")] [] [hoboken_station]);
      reflexivity.
  - apply (H3 [] _ _ dest_33rd [] [JDict dest_with_stray_message]);
      reflexivity.
Defined.

(** X3 on a feed whose [results] is null, and on one whose destination
    has null for [messages]. *)
Lemma value_that_is_not_iterable_raises_witness :
  path_normalize 30 sample_now iso_seconds_format sample_repr
    (JDict [("results", JNull)]) = Raise (TypeError "not iterable") /\
  path_normalize 30 sample_now iso_seconds_format sample_repr
    (JDict [("results", JList [
       JDict [("consideredStation", JStr "HOB");
              ("destinations", JList [JDict [("messages", JNull)]])]])])
  = Raise (TypeError "not iterable").
Proof.
  destruct (value_that_is_not_iterable_raises 30 sample_now
              iso_seconds_format sample_repr JNull
              (TypeError "not iterable") eq_refl) as (_ & H1 & _ & H3).
  split.
  - apply H1. reflexivity.
  - apply (H3 [("consideredStation", JStr "HOB");
               ("destinations", JList [JDict [("messages", JNull)]])]
              [("messages", JNull)] [] []); reflexivity.
Defined.


(** X5 on a train that left two minutes ago and whose phrase still says
    12 min. *)
Lemma departed_train_is_listed_at_zero_witness :
  exists r,
    path_message 30 sample_now iso_seconds_format sample_repr
      (JDict dest_33rd) [] (JDict msg_departed) = Ok ([] ++ [r]) /\
    minutes r = 0 /\ raw r = JDict msg_departed.
Proof.
  apply (departed_train_is_listed_at_zero 30 sample_now iso_seconds_format
           sample_repr dest_33rd msg_departed "2024-03-01T11:58:00Z"
           1709294280000000 []).
  - reflexivity.
  - discriminate.
  - vm_compute. reflexivity.
  - reflexivity.
  - lia.
Defined.



(** X8 on a message whose timestamp is rejected and whose phrase is
    "Delayed". *)
Lemma message_without_timestamp_or_digit_is_dropped_witness :
  path_message 30 sample_now iso_seconds_format sample_repr (JDict dest_33rd)
    sample_path_collected (JDict msg_delayed) = Ok sample_path_collected.
Proof.
  apply (message_without_timestamp_or_digit_is_dropped 30 sample_now
           iso_seconds_format sample_repr dest_33rd msg_delayed
           sample_path_collected).
  - vm_compute. reflexivity.
  - vm_compute. repeat constructor.
Defined.

(** X9 on a message whose [headSign] is the empty string. *)
Lemma labels_are_never_empty_witness :
  line (PathRow "33rd" "33rd Street" 12 msg_12_min_again) <> "" /\
  to (PathRow "33rd" "33rd Street" 12 msg_12_min_again) <> "".
Proof.
  apply (labels_are_never_empty sample_now iso_seconds_format sample_repr
           dest_33rd
           [("lineName", JStr "33rd"); ("arrivalTimeMessage", JStr "12 MIN");
            ("headSign", JStr "")]).
  - intros w. destruct w as [|b| | | | |]; try destruct b; discriminate.
  - vm_compute. reflexivity.
Defined.

(** X10 on the first row returned for [sample_document]. *)
Lemma every_row_is_computed_from_its_raw_message_witness :
  is_object (raw (PathRow "PATH" "33rd Street" 5 msg_timestamp)) = true /\
  exists dest,
    path_entry sample_now iso_seconds_format sample_repr dest
      (raw (PathRow "PATH" "33rd Street" 5 msg_timestamp))
    = Ok (Some (PathRow "PATH" "33rd Street" 5 msg_timestamp)).
Proof.
  apply (every_row_is_computed_from_its_raw_message 30 sample_now
           iso_seconds_format sample_repr sample_document sample_path_rows).
  - vm_compute. reflexivity.
  - left. reflexivity.
Defined.

(** X12 on the lists returned for the samples. *)
Lemma distinct_sorted_rows_are_returned_as_they_are_witness :
  path_finish sample_path_rows = sample_path_rows /\
  bus_finish sample_bus_rows = sample_bus_rows.
Proof.
  destruct distinct_sorted_rows_are_returned_as_they_are
    as (Hpath & Hbus & _).
  split; [apply Hpath | apply Hbus].
  - repeat (constructor;
            [simpl; intros H;
             repeat (destruct H as [H|H]; [discriminate H|]); destruct H|]).
    constructor.
  - repeat first [apply Sorted_cons | apply Sorted_nil
                 | apply HdRel_cons | apply HdRel_nil];
      unfold ascending; simpl; lia.
  - repeat (constructor;
            [simpl; intros H;
             repeat (destruct H as [H|H]; [discriminate H|]); destruct H|]).
    constructor.
  - repeat first [apply Sorted_cons | apply Sorted_nil
                 | apply HdRel_cons | apply HdRel_nil];
      unfold ascending; simpl; lia.
Defined.

(** X13 on a page that lists no bus. *)
Lemma page_without_hash_has_no_rows_witness :
  bus_normalize 30 page_without_entries = Ok [].
Proof.
  apply (page_without_hash_has_no_rows 30 page_without_entries).
  intros c H. vm_compute in H.
  repeat (destruct H as [H|H]; [rewrite <- H; discriminate|]).
  destruct H.
Defined.

(** X14 on the row of the first phrase of [sample_page]. *)
Lemma bus_rows_have_clean_texts_witness :
  chars (route row_13_min) <> [] /\
  Forall (fun c => is_digit c = true) (chars (route row_13_min)) /\
  Forall (fun c => is_dot c = true) (chars (bus_to row_13_min)) /\
  strip (chars (bus_to row_13_min)) = chars (bus_to row_13_min).
Proof.
  apply (bus_rows_have_clean_texts 30 sample_page sample_bus_rows).
  - vm_compute. reflexivity.
  - right. right. left. reflexivity.
Defined.

(** X15 on a site whose home page answers with status 500. *)
Lemma page_is_returned_iff_witness :
  _get_html primed_500_session_get MYBUS_11TH_WASH = Ok "(page)".
Proof.
  apply (proj2 (page_is_returned_iff primed_500_session_get MYBUS_11TH_WASH
                  "(page)")).
  exists (Response 500 "(error)"), (Response 200 "(page)").
  split; [reflexivity|]. split; [reflexivity|].
  split; [simpl; lia | reflexivity].
Defined.


(** X17 on a feed that answers with status 503 and a body that would
    decode. *)
Lemma document_is_returned_iff_witness :
  _get_json unavailable_requests_get (decoded_as sample_document) PATH_URL
  = Raise (HTTPError 503).
Proof.
  destruct (document_is_returned_iff unavailable_requests_get
              (decoded_as sample_document) PATH_URL) as [_ H].
  apply (H (Response 503 "{}")); [reflexivity | simpl; lia].
Defined.

(** X21 with the slider where it starts, at 120 minutes. *)
Lemma slider_always_keeps_half_an_hour_never_beyond_four_hours_witness :
  (exists rows,
      path_normalize DEFAULT_MAX_WINDOW_MIN sample_now iso_seconds_format
        sample_repr sample_document = Ok rows /\
      (forall r, In r sample_path_computed -> 0 <= minutes r <= 30 ->
                 exists r', In r' rows /\ path_key r' = path_key r) /\
      (forall r, In r rows -> minutes r <= 240)) /\
  (exists rows,
      bus_normalize DEFAULT_MAX_WINDOW_MIN sample_page = Ok rows /\
      (forall r, In r sample_bus_computed -> 0 <= bus_minutes r <= 30 ->
                 exists r', In r' rows /\ bus_key r' = bus_key r) /\
      (forall r, In r rows -> bus_minutes r <= 240)).
Proof.
  destruct (slider_always_keeps_half_an_hour_never_beyond_four_hours
              DEFAULT_MAX_WINDOW_MIN sample_now iso_seconds_format
              sample_repr) as [Hpath Hbus].
  { unfold slider_value, DEFAULT_MAX_WINDOW_MIN.
    split; [lia | reflexivity]. }
  split.
  - apply (Hpath sample_document sample_path_computed). reflexivity.
  - destruct (Hbus sample_page) as (computed & rows & Hc & Hrest).
    assert (computed = sample_bus_computed) as ->
      by (vm_compute in Hc; injection Hc as <-; reflexivity).
    exists rows. exact Hrest.
Defined.
